(** * Auto-indexing recovery gateway: a shallow embedding

  The development follows the two server variants of the repository:
  [src/integration.js] (module [Integration]) and the legacy variant
  [src/unnamed/part_000] (module [Legacy]).  JavaScript values that cross
  the wire are JSON trees, the process-wide credential and the outbound
  traffic live in an explicit [World], and every [async] function is a
  state-and-exception passing function over that world. *)

From Stdlib Require Import ZArith List String Ascii Bool Lia.
From Stdlib Require Import Numbers.DecimalString.
Import ListNotations.

Set Warnings "-register-all".

Open Scope string_scope.
Open Scope Z_scope.

(* ------------------------------------------------------------------ *)
(** ** JavaScript strings *)

Module JsString.

Definition quote : ascii := ascii_of_nat 34.
Definition backslash : ascii := ascii_of_nat 92.
Definition newline : ascii := ascii_of_nat 10.

Definition chr (c : ascii) : string := String c EmptyString.

(** [s.startsWith(p)] *)
Definition startsWith (s p : string) : bool := String.prefix p s.

(** [s.includes(needle)] *)
Fixpoint includes (s needle : string) : bool :=
  String.prefix needle s ||
  match s with
  | EmptyString => false
  | String _ rest => includes rest needle
  end.

(** [s.toLowerCase()] on the letters A-Z.  The needles looked for in
    lower-cased text ("not found", "not indexed") are ASCII, and the two
    characters outside ASCII whose lower case contains an ASCII letter
    (U+212A, to "k"; U+0130, to "i" followed by a combining dot) cannot
    complete either needle, so the byte-wise mapping decides the same
    tests. *)
Definition lowerChar (c : ascii) : ascii :=
  let n := nat_of_ascii c in
  if (Nat.leb 65 n && Nat.leb n 90)%bool then ascii_of_nat (n + 32) else c.

Fixpoint toLowerCase (s : string) : string :=
  match s with
  | EmptyString => EmptyString
  | String c rest => String (lowerChar c) (toLowerCase rest)
  end.

(** Decimal text of an integral number. *)
Definition ofZ (n : Z) : string := NilEmpty.string_of_int (Z.to_int n).

Fixpoint join (sep : string) (l : list string) : string :=
  match l with
  | [] => EmptyString
  | [x] => x
  | x :: rest => x ++ sep ++ join sep rest
  end.

End JsString.

(* ------------------------------------------------------------------ *)
(** ** JSON values

  Payloads are JSON trees.  Numbers are the integral ones (status codes,
  limits), in the range where JavaScript prints a number as its decimal
  digits; an object is the list of its own properties in enumeration
  order, looked up by first match. *)

Inductive json : Type :=
| JNull
| JBool (b : bool)
| JNum (n : Z)
| JStr (s : string)
| JArr (items : list json)
| JObj (fields : list (string * json)).

Module Js.

(** Truthiness, as tested by [if], [!], [&&] and [||]. *)
Definition truthy (v : json) : bool :=
  match v with
  | JNull => false
  | JBool b => b
  | JNum n => negb (n =? 0)
  | JStr s => negb (String.eqb s EmptyString)
  | JArr _ | JObj _ => true
  end.

(** A property read [v.k]; [None] is [undefined]. *)
Fixpoint lookup (k : string) (fields : list (string * json)) : option json :=
  match fields with
  | [] => None
  | (k', v) :: rest => if String.eqb k' k then Some v else lookup k rest
  end.

Definition get (v : json) (k : string) : option json :=
  match v with
  | JObj fields => lookup k fields
  | _ => None
  end.

Definition truthyOpt (v : option json) : bool :=
  match v with
  | Some x => truthy x
  | None => false
  end.

(** [v === "s"] and [v === n] against a literal. *)
Definition isString (v : option json) (s : string) : bool :=
  match v with
  | Some (JStr s') => String.eqb s' s
  | _ => false
  end.

Definition isNumber (v : option json) (n : Z) : bool :=
  match v with
  | Some (JNum n') => n' =? n
  | _ => false
  end.

(** [typeof v === 'object'] for a truthy [v]. *)
Definition isObjectLike (v : json) : bool :=
  match v with
  | JArr _ | JObj _ => true
  | _ => false
  end.

(** [String(v)], the conversion a template literal applies. *)
Fixpoint toString (v : json) : string :=
  match v with
  | JNull => "null"
  | JBool true => "true"
  | JBool false => "false"
  | JNum n => JsString.ofZ n
  | JStr s => s
  | JArr items =>
      JsString.join ","
        ((fix each (l : list json) : list string :=
            match l with
            | [] => []
            | JNull :: rest => EmptyString :: each rest
            | x :: rest => toString x :: each rest
            end) items)
  | JObj _ => "[object Object]"
  end.

Definition toStringOpt (v : option json) : string :=
  match v with
  | Some x => toString x
  | None => "undefined"
  end.

(** *** [JSON.stringify(v, null, 2)] *)

Definition hexDigit (n : nat) : ascii :=
  if Nat.ltb n 10 then ascii_of_nat (48 + n) else ascii_of_nat (87 + n).

Definition escapeChar (c : ascii) : string :=
  let n := nat_of_ascii c in
  let bs := JsString.chr JsString.backslash in
  if Nat.eqb n 34 then bs ++ JsString.chr JsString.quote
  else if Nat.eqb n 92 then bs ++ bs
  else if Nat.eqb n 8 then bs ++ "b"
  else if Nat.eqb n 12 then bs ++ "f"
  else if Nat.eqb n 10 then bs ++ "n"
  else if Nat.eqb n 13 then bs ++ "r"
  else if Nat.eqb n 9 then bs ++ "t"
  else if Nat.ltb n 32 then
    bs ++ "u00" ++ String (hexDigit (Nat.div n 16)) (String (hexDigit (Nat.modulo n 16)) EmptyString)
  else JsString.chr c.

Fixpoint escape (s : string) : string :=
  match s with
  | EmptyString => EmptyString
  | String c rest => escapeChar c ++ escape rest
  end.

Definition quoted (s : string) : string :=
  JsString.chr JsString.quote ++ escape s ++ JsString.chr JsString.quote.

Fixpoint stringifyAt (indent : string) (v : json) : string :=
  let nl := JsString.chr JsString.newline in
  let inner := indent ++ "  " in
  match v with
  | JNull => "null"
  | JBool true => "true"
  | JBool false => "false"
  | JNum n => JsString.ofZ n
  | JStr s => quoted s
  | JArr items =>
      match items with
      | [] => "[]"
      | _ =>
          "[" ++ nl ++
          JsString.join ("," ++ nl)
            ((fix each (l : list json) : list string :=
                match l with
                | [] => []
                | x :: rest => (inner ++ stringifyAt inner x) :: each rest
                end) items)
          ++ nl ++ indent ++ "]"
      end
  | JObj fields =>
      match fields with
      | [] => "{}"
      | _ =>
          "{" ++ nl ++
          JsString.join ("," ++ nl)
            ((fix each (l : list (string * json)) : list string :=
                match l with
                | [] => []
                | (k, x) :: rest =>
                    (inner ++ quoted k ++ ": " ++ stringifyAt inner x) :: each rest
                end) fields)
          ++ nl ++ indent ++ "}"
      end
  end.

Definition stringify (v : json) : string := stringifyAt EmptyString v.

End Js.

(* ------------------------------------------------------------------ *)
(** ** The world: credential slot, outbound traffic, timers *)

(** The options object handed to [axios]. *)
Record Request : Type := mkRequest {
  method : string;
  url : string;
  data : option json;
  headers : list (string * string);
  timeout : option Z
}.

(** The [init] argument of [fetch]. *)
Record FetchInit : Type := mkFetchInit {
  fetch_method : option string;
  fetch_headers : list (string * string);
  fetch_body : option string
}.

(** What the backend does with one request: an HTTP reply carrying a status
    and a body, or no reply at all (connection error, timeout). *)
Inductive HttpReply (B : Type) : Type :=
| Replied (code : Z) (body : B)
| Unreachable (reason : string).
Arguments Replied {B} code body.
Arguments Unreachable {B} reason.

(** [response.status], [response.data] *)
Record Response : Type := mkResponse {
  status : Z;
  response_data : json
}.

(** The Response object of [fetch]: [response.status], [response.text()] *)
Record FetchResponse : Type := mkFetchResponse {
  fetch_status : Z;
  fetch_text : string
}.

(** A thrown [Error]: [error.message], [error.response]. *)
Record JsError : Type := mkError {
  message : string;
  response : option Response
}.

Inductive Event : Type :=
| Sent (options : Request)
| Fetched (target : string) (init : FetchInit)
| Slept (ms : Z).

Record World : Type := mkWorld {
  OAUTH_TOKEN : option string;
  trace : list Event
}.

(** The backend is an oracle over the traffic so far. *)
Record Backend : Type := mkBackend {
  serve : list Event -> Request -> HttpReply json;
  serveFetch : list Event -> string -> FetchInit -> HttpReply string
}.

(** A promise that has settled. *)
Inductive Settled (A : Type) : Type :=
| Fulfilled (value : A)
| Rejected (error : JsError).
Arguments Fulfilled {A} value.
Arguments Rejected {A} error.

(** An [async] computation. *)
Definition Async (A : Type) : Type := World -> Settled A * World.

Definition ret {A : Type} (a : A) : Async A := fun w => (Fulfilled a, w).

Definition throw {A : Type} (e : JsError) : Async A := fun w => (Rejected e, w).

Definition bind {A B : Type} (m : Async A) (k : A -> Async B) : Async B :=
  fun w =>
    match m w with
    | (Fulfilled a, w') => k a w'
    | (Rejected e, w') => (Rejected e, w')
    end.

(** [try { m } catch (error) { handler }] *)
Definition tryCatch {A : Type} (m : Async A) (handler : JsError -> Async A) : Async A :=
  fun w =>
    match m w with
    | (Fulfilled a, w') => (Fulfilled a, w')
    | (Rejected e, w') => handler e w'
    end.

(** Lifting of a synchronous expression that may throw. *)
Definition settled {A : Type} (r : Settled A) : Async A := fun w => (r, w).

Declare Scope async_scope.
Delimit Scope async_scope with async.
Notation "x <- m ;; k" := (bind m (fun x => k))
  (at level 61, m at next level, right associativity) : async_scope.
Notation "m ;;; k" := (bind m (fun _ => k))
  (at level 61, right associativity) : async_scope.
Open Scope async_scope.

Definition record (e : Event) : Async unit :=
  fun w => (Fulfilled tt, {| OAUTH_TOKEN := OAUTH_TOKEN w; trace := trace w ++ [e] |}).

Definition readTrace : Async (list Event) := fun w => (Fulfilled (trace w), w).

Definition readToken : Async (option string) := fun w => (Fulfilled (OAUTH_TOKEN w), w).

(** Truthiness of the credential slot: [null] and the empty string are falsy. *)
Definition tokenTruthy (t : option string) : bool :=
  match t with
  | Some s => negb (String.eqb s EmptyString)
  | None => false
  end.

(** The test [OAUTH_TOKEN ? .. : ..] / [!OAUTH_TOKEN] that the source writes
    inline; the specification calls it [hasToken()]. *)
Definition hasToken (w : World) : bool := tokenTruthy (OAUTH_TOKEN w).

(** *** axios and fetch (library behaviour with the default options) *)

(** axios fulfils on a 2xx status and rejects otherwise, attaching the
    response to the error; without a reply the error has no response. *)
Definition settle (reply : HttpReply json) : Settled Response :=
  match reply with
  | Replied code body =>
      if (200 <=? code) && (code <? 300)
      then Fulfilled {| status := code; response_data := body |}
      else Rejected {| message := "Request failed with status code " ++ JsString.ofZ code;
                       response := Some {| status := code; response_data := body |} |}
  | Unreachable reason => Rejected {| message := reason; response := None |}
  end.

(** fetch fulfils on every reply, whatever its status. *)
Definition settleFetch (reply : HttpReply string) : Settled FetchResponse :=
  match reply with
  | Replied code body => Fulfilled {| fetch_status := code; fetch_text := body |}
  | Unreachable reason => Rejected {| message := reason; response := None |}
  end.

Definition axios (backend : Backend) (options : Request) : Async Response :=
  seen <- readTrace ;;
  record (Sent options) ;;;
  settled (settle (serve backend seen options)).

Definition fetch (backend : Backend) (target : string) (init : FetchInit) : Async FetchResponse :=
  seen <- readTrace ;;
  record (Fetched target init) ;;;
  settled (settleFetch (serveFetch backend seen target init)).

(** [new Promise(resolve => setTimeout(resolve, ms))] *)
Definition delay (ms : Z) : Async unit := record (Slept ms).

(** [{ ...a, ...b }] on header maps: keys keep their first position, later
    values win. *)
Fixpoint assign (o : list (string * string)) (k v : string) : list (string * string) :=
  match o with
  | [] => [(k, v)]
  | (k', v') :: rest =>
      if String.eqb k' k then (k, v) :: rest else (k', v') :: assign rest k v
  end.

Definition spread (a b : list (string * string)) : list (string * string) :=
  fold_left (fun acc kv => assign acc (fst kv) (snd kv)) b a.

(** [axios.post(url, data, config)] *)
Record AxiosConfig : Type := mkAxiosConfig {
  config_timeout : option Z;
  config_headers : list (string * string)
}.

Definition axios_post (backend : Backend) (target : string) (body : json) (config : AxiosConfig)
  : Async Response :=
  axios backend {| method := "post"; url := target; data := Some body;
                   headers := config_headers config; timeout := config_timeout config |}.

(** The tool response envelope [{ content: [{ type, text }], isError? }]. *)
Record ContentItem : Type := mkItem {
  type : string;
  text : string
}.

Record ToolResult : Type := mkToolResult {
  content : list ContentItem;
  isError : bool
}.

Definition textResult (s : string) : ToolResult :=
  {| content := [ {| type := "text"; text := s |} ]; isError := false |}.

Definition errorResult (s : string) : ToolResult :=
  {| content := [ {| type := "text"; text := s |} ]; isError := true |}.

(** [error instanceof Error ? error.message : String(error)]: everything
    thrown here is an [Error]. *)
Definition errorText (error : JsError) : string := message error.

(** The [TypeError] of calling [toLowerCase] on a value that is not a string. *)
Definition notAFunction (what : string) : JsError :=
  {| message := what ++ ".toLowerCase is not a function"; response := None |}.

(** [v.toLowerCase()] on a value that need not be a string. *)
Definition toLowerCaseOf (what : string) (v : json) : Settled string :=
  match v with
  | JStr s => Fulfilled (JsString.toLowerCase s)
  | _ => Rejected (notAFunction what)
  end.

(* ------------------------------------------------------------------ *)
(** ** More of JavaScript: trimming, compact JSON, reads through [undefined] *)

Module JsText.

Fixpoint reverse (s : string) : string :=
  match s with
  | EmptyString => EmptyString
  | String c rest => reverse rest ++ String c EmptyString
  end.

(** [s.slice(n)]: the text from position [n] on (empty when [s] is
    shorter).  Positions count UTF-16 units; at its call sites the units
    skipped are ASCII, one byte each. *)
Fixpoint slice (n : nat) (s : string) : string :=
  match n, s with
  | O, _ => s
  | S n', String _ rest => slice n' rest
  | S _, EmptyString => EmptyString
  end.

(** The white space and line terminators of ECMAScript, in UTF-8:
    TAB, LF, VT, FF, CR, SP; U+00A0; U+1680, U+2000..U+200A, U+2028,
    U+2029, U+202F, U+205F, U+3000, U+FEFF. *)
Definition ws1 (c : ascii) : bool :=
  let n := nat_of_ascii c in
  (Nat.leb 9 n && Nat.leb n 13) || Nat.eqb n 32.

Definition ws2 (c1 c2 : ascii) : bool :=
  Nat.eqb (nat_of_ascii c1) 194 && Nat.eqb (nat_of_ascii c2) 160.

Definition ws3 (c1 c2 c3 : ascii) : bool :=
  let n1 := nat_of_ascii c1 in
  let n2 := nat_of_ascii c2 in
  let n3 := nat_of_ascii c3 in
  (Nat.eqb n1 225 && Nat.eqb n2 154 && Nat.eqb n3 128)
  || (Nat.eqb n1 226 && Nat.eqb n2 128
      && ((Nat.leb 128 n3 && Nat.leb n3 138)
          || Nat.eqb n3 168 || Nat.eqb n3 169 || Nat.eqb n3 175))
  || (Nat.eqb n1 226 && Nat.eqb n2 129 && Nat.eqb n3 159)
  || (Nat.eqb n1 227 && Nat.eqb n2 128 && Nat.eqb n3 128)
  || (Nat.eqb n1 239 && Nat.eqb n2 187 && Nat.eqb n3 191).

(** One white-space character removed from the front, if there is one;
    the three tests recognise its one-, two- and three-byte forms. *)
Definition strip (w1 : ascii -> bool) (w2 : ascii -> ascii -> bool)
    (w3 : ascii -> ascii -> ascii -> bool) (s : string) : option string :=
  match s with
  | String c1 r1 =>
      if w1 c1 then Some r1
      else match r1 with
           | String c2 r2 =>
               if w2 c1 c2 then Some r2
               else match r2 with
                    | String c3 r3 => if w3 c1 c2 c3 then Some r3 else None
                    | EmptyString => None
                    end
           | EmptyString => None
           end
  | EmptyString => None
  end.

Fixpoint trimFront (w1 : ascii -> bool) (w2 : ascii -> ascii -> bool)
    (w3 : ascii -> ascii -> ascii -> bool) (s : string) : string :=
  match s with
  | String c1 r1 =>
      if w1 c1 then trimFront w1 w2 w3 r1
      else match r1 with
           | String c2 r2 =>
               if w2 c1 c2 then trimFront w1 w2 w3 r2
               else match r2 with
                    | String c3 r3 =>
                        if w3 c1 c2 c3 then trimFront w1 w2 w3 r3 else s
                    | EmptyString => s
                    end
           | EmptyString => s
           end
  | EmptyString => s
  end.

(** The same tests read from the end of the text. *)
Definition ws2_back (c1 c2 : ascii) : bool := ws2 c2 c1.
Definition ws3_back (c1 c2 c3 : ascii) : bool := ws3 c3 c2 c1.

Definition trimStart (s : string) : string := trimFront ws1 ws2 ws3 s.

Definition trimEnd (s : string) : string :=
  reverse (trimFront ws1 ws2_back ws3_back (reverse s)).

(** [s.trim()] *)
Definition trim (s : string) : string := trimEnd (trimStart s).

(** Truthiness of a string. *)
Definition nonEmpty (s : string) : bool := negb (String.eqb s EmptyString).

(** *** [JSON.stringify(v)], without indentation *)

Fixpoint stringifyCompact (v : json) : string :=
  match v with
  | JNull => "null"
  | JBool true => "true"
  | JBool false => "false"
  | JNum n => JsString.ofZ n
  | JStr s => Js.quoted s
  | JArr items =>
      "[" ++ JsString.join ","
               ((fix each (l : list json) : list string :=
                   match l with
                   | [] => []
                   | x :: rest => stringifyCompact x :: each rest
                   end) items)
      ++ "]"
  | JObj fields =>
      "{" ++ JsString.join ","
               ((fix each (l : list (string * json)) : list string :=
                   match l with
                   | [] => []
                   | (k, x) :: rest =>
                       (Js.quoted k ++ ":" ++ stringifyCompact x) :: each rest
                   end) fields)
      ++ "}"
  end.

(** An object literal some of whose values may be [undefined]:
    [JSON.stringify] leaves those properties out. *)
Fixpoint defined (fields : list (string * option json)) : list (string * json) :=
  match fields with
  | [] => []
  | (k, Some v) :: rest => (k, v) :: defined rest
  | (_, None) :: rest => defined rest
  end.

(** The [TypeError] of reading a property of [undefined] or [null]. *)
Definition cannotRead (what key : string) : JsError :=
  {| message := "Cannot read properties of " ++ what ++ " (reading '" ++ key ++ "')";
     response := None |}.

(** [v.key] where [v] may be [undefined] or [null]. *)
Definition member (v : option json) (key : string) : Settled (option json) :=
  match v with
  | None => Rejected (cannotRead "undefined" key)
  | Some JNull => Rejected (cannotRead "null" key)
  | Some x => Fulfilled (Js.get x key)
  end.

(** [v || fallback] *)
Definition orElse (v : option json) (fallback : json) : json :=
  match v with
  | Some x => if Js.truthy x then x else fallback
  | None => fallback
  end.

(** A header of a header map. *)
Fixpoint header (k : string) (h : list (string * string)) : option string :=
  match h with
  | [] => None
  | (k', v) :: rest => if String.eqb k' k then Some v else header k rest
  end.

End JsText.

(* ------------------------------------------------------------------ *)
(** ** src/integration.js *)

Module Integration.
Section Server.

(** [serverConfig.GO_SERVER_URL], [serverConfig.MCP_SECRET_TOKEN], the
    backend behind them, and the built-in [JSON.parse]. *)
Variable GO_SERVER_URL : string.
Variable MCP_SECRET_TOKEN : option string.
Variable backend : Backend.
Variable JSON_parse : string -> Settled json.

Definition axiosConfig : AxiosConfig :=
  {| config_timeout := None;
     config_headers :=
       match MCP_SECRET_TOKEN with
       | Some secret => if tokenTruthy MCP_SECRET_TOKEN then [("X-MCP-Token", secret)] else []
       | None => []
       end |}.

Definition setToken (token : string) : Async unit :=
  fun w => (Fulfilled tt, {| OAUTH_TOKEN := Some token; trace := trace w |}).

Definition clearToken : Async unit :=
  fun w => (Fulfilled tt, {| OAUTH_TOKEN := None; trace := trace w |}).

(** [OAUTH_TOKEN ? { 'Authorization': `Bearer ${OAUTH_TOKEN}` } : {}] *)
Definition authHeader (token : option string) : list (string * string) :=
  match token with
  | Some value => if tokenTruthy token then [("Authorization", "Bearer " ++ value)] else []
  | None => []
  end.

Definition getAuthHeader : Async (list (string * string)) :=
  token <- readToken ;;
  ret (authHeader token).

Definition AUTH_LOGIN_URL : string := GO_SERVER_URL ++ "/auth/login".

Definition noTokenMessage : string :=
  "No token found. Please get your token from: " ++ AUTH_LOGIN_URL
  ++ " and try your request again with the token.".

Definition tokenExpiredMessage : string :=
  "Token expired or invalid. Please get a new token from: " ++ AUTH_LOGIN_URL.

(** [{ error: true, message }] *)
Definition errorObject (msg : string) : json :=
  JObj [("error", JBool true); ("message", JStr msg)].

(** [error.response && (error.response.status === 401 || error.response.status === 403)] *)
Definition isAuthStatus (error : JsError) : bool :=
  match response error with
  | Some r => (status r =? 401) || (status r =? 403)
  | None => false
  end.

Definition withHeaders (options : Request) (h : list (string * string)) : Request :=
  {| method := method options; url := url options; data := data options;
     headers := h; timeout := timeout options |}.

(** The request that leaves the process for [options] in world [w]:
    [options.headers = { ...options.headers, ...getAuthHeader() }]. *)
Definition outgoing (options : Request) (w : World) : Request :=
  withHeaders options (spread (headers options) (authHeader (OAUTH_TOKEN w))).

Definition protectedAxios (options : Request) : Async json :=
  token <- readToken ;;
  if negb (tokenTruthy token) then ret (errorObject noTokenMessage)
  else
    tryCatch
      (auth <- getAuthHeader ;;
       response <- axios backend (withHeaders options (spread (headers options) auth)) ;;
       ret (response_data response))
      (fun error =>
         if isAuthStatus error
         then clearToken ;;; ret (errorObject tokenExpiredMessage)
         else throw error).

Definition withFetchHeaders (init : FetchInit) (h : list (string * string)) : FetchInit :=
  {| fetch_method := fetch_method init; fetch_headers := h; fetch_body := fetch_body init |}.

Definition outgoingFetch (fetchOptions : FetchInit) (w : World) : FetchInit :=
  withFetchHeaders fetchOptions
    (spread (spread (fetch_headers fetchOptions) (authHeader (OAUTH_TOKEN w)))
            [("Content-Type", "application/json")]).

Definition protectedFetch (target : string) (fetchOptions : FetchInit) : Async json :=
  token <- readToken ;;
  if negb (tokenTruthy token) then ret (errorObject noTokenMessage)
  else
    tryCatch
      (auth <- getAuthHeader ;;
       response <- fetch backend target
         (withFetchHeaders fetchOptions
            (spread (spread (fetch_headers fetchOptions) auth)
                    [("Content-Type", "application/json")])) ;;
       if (fetch_status response =? 401) || (fetch_status response =? 403)
       then clearToken ;;; ret (errorObject tokenExpiredMessage)
       else settled (JSON_parse (fetch_text response)))
      (fun error => throw error).

(** The normalisation both tools write inline before an index call:
    [if (!ref.startsWith('http')) ref = `https://github.com/${ref}`]. *)
Definition toFullUrl (ref : string) : string :=
  if negb (JsString.startsWith ref "http") then "https://github.com/" ++ ref else ref.

Definition post (path : string) (body : json) : Request :=
  {| method := "POST"; url := GO_SERVER_URL ++ path; data := Some body;
     headers := []; timeout := None |}.

Definition searchRequest (query repository : string) (limit : Z) : Request :=
  post "/search" (JObj [("query", JStr query); ("repository", JStr repository); ("limit", JNum limit)]).

Definition indexRequest (repository : string) : Request :=
  post "/index" (JObj [("repo_url", JStr (toFullUrl repository))]).

(** [result && (result.error || result.status === 'error' ||
     result.status_code === 500 ||
     (result.message && result.message.toLowerCase().includes('not found')))] *)
Definition searchNeedsIndexing (result : json) : Settled bool :=
  if negb (Js.truthy result) then Fulfilled false
  else if Js.truthyOpt (Js.get result "error") then Fulfilled true
  else if Js.isString (Js.get result "status") "error" then Fulfilled true
  else if Js.isNumber (Js.get result "status_code") 500 then Fulfilled true
  else match Js.get result "message" with
       | Some m =>
           if Js.truthy m then
             match toLowerCaseOf "result.message" m with
             | Fulfilled lower => Fulfilled (JsString.includes lower "not found")
             | Rejected e => Rejected e
             end
           else Fulfilled false
       | None => Fulfilled false
       end.

(** [indexResult && (indexResult.error || indexResult.status === 'error')] *)
Definition indexFailed (indexResult : json) : bool :=
  Js.truthy indexResult &&
  (Js.truthyOpt (Js.get indexResult "error") || Js.isString (Js.get indexResult "status") "error").

Definition indexFailedText (repository : string) (indexResult : json) : string :=
  "Repository '" ++ repository ++ "' not found or not indexed. Attempted to index but failed: "
  ++ Js.toStringOpt (Js.get indexResult "message").

Definition indexStartedText (repository : string) : string :=
  "Repository '" ++ repository
  ++ "' not found or not indexed. Indexing has been started automatically. Please try your request again after indexing is complete.".

(** The single-shot recovery shared by [vectorSearch] and [chat]. *)
Definition recoverOrReport (repository : string) (result : json) : Async ToolResult :=
  needed <- settled (searchNeedsIndexing result) ;;
  if needed then
    indexResult <- protectedAxios (indexRequest repository) ;;
    if indexFailed indexResult
    then ret (textResult (indexFailedText repository indexResult))
    else ret (textResult (indexStartedText repository))
  else ret (textResult (Js.stringify result)).

(** Tool [vectorSearch]; its [repoUrl] and [branch] parameters are unused. *)
Definition vectorSearch (query repository : string) (limit : Z) : Async ToolResult :=
  token <- readToken ;;
  if negb (tokenTruthy token) then ret (textResult noTokenMessage)
  else
    result <- protectedAxios (searchRequest query repository limit) ;;
    recoverOrReport repository result.

Definition processChatWithToken (message repository : string) : Async json :=
  protectedAxios (searchRequest message repository 5).

(** The envelope built in the [catch] block of [chat]. *)
Definition chatFailure (error : JsError) : ToolResult :=
  errorResult (Js.stringify
    (JObj [("status", JStr "error");
           ("message", JStr ("Error processing chat: " ++ errorText error))])).

(** Tool [chat] past its two command branches ([/set-token], [/index-repo]),
    source lines 250-317. *)
Definition chatSearch (message repository : string) : Async ToolResult :=
  token <- readToken ;;
  if negb (tokenTruthy token) then ret (textResult noTokenMessage)
  else
    tryCatch
      (result <- processChatWithToken message repository ;;
       recoverOrReport repository result)
      (fun error => ret (chatFailure error)).

(** *** Tool [vectorSearchWithSummary] *)

Definition summaryRequestBody (query repository : string) (limit : Z) (branch : string) : json :=
  JObj [("query", JStr query); ("repository", JStr repository);
        ("limit", JNum limit); ("branch", JStr branch)].

(** The request of one summary round in world [w]:
    [axios.post(url, body, { headers: getAuthHeader() })]. *)
Definition summaryRequest (query repository : string) (limit : Z) (branch : string)
    (w : World) : Request :=
  {| method := "post"; url := GO_SERVER_URL ++ "/search/summary";
     data := Some (summaryRequestBody query repository limit branch);
     headers := authHeader (OAUTH_TOKEN w); timeout := None |}.

(** The [try] block of one round: the outcome is the returned envelope or
    the caught error. *)
Definition searchSummary (query repository : string) (limit : Z) (branch : string)
  : Async (ToolResult + JsError) :=
  tryCatch
    (auth <- getAuthHeader ;;
     response <- axios_post backend (GO_SERVER_URL ++ "/search/summary")
                   (summaryRequestBody query repository limit branch)
                   {| config_timeout := None; config_headers := auth |} ;;
     ret (inl (textResult (Js.stringify (response_data response)))))
    (fun error => ret (inr error)).

(** [responseData = error.response && error.response.data ? error.response.data : null] *)
Definition responseDataOf (error : JsError) : json :=
  match response error with
  | Some r => if Js.truthy (response_data r) then response_data r else JNull
  | None => JNull
  end.

(** The expression [(responseData.message || '')] as the engine prints it in
    the [TypeError] of a failed method call: with its string literal in
    double quotes. *)
Definition emptyOrMessage : string :=
  "(responseData.message || " ++ JsString.chr JsString.quote ++ JsString.chr JsString.quote
  ++ ")".

(** The [notFound] flag computed in the [catch] block. *)
Definition summaryNotFound (error : JsError) : Settled bool :=
  let errorMessage := errorText error in
  let responseData := responseDataOf error in
  if Js.truthy responseData && Js.isObjectLike responseData then
    let m := match Js.get responseData "message" with
             | Some v => if Js.truthy v then v else JStr EmptyString
             | None => JStr EmptyString
             end in
    match toLowerCaseOf emptyOrMessage m with
    | Fulfilled msg =>
        Fulfilled (JsString.includes msg "not found" || JsString.includes msg "not indexed")
    | Rejected e => Rejected e
    end
  else Fulfilled (JsString.includes (JsString.toLowerCase errorMessage) "not found").

(** [error.response && (error.response.status === 404 || error.response.status === 500)] *)
Definition isMissingStatus (error : JsError) : bool :=
  match response error with
  | Some r => (status r =? 404) || (status r =? 500)
  | None => false
  end.

(** The guard [notFound || (error.response && ...)] of the recovery branch. *)
Definition summaryNotIndexed (error : JsError) : Settled bool :=
  match summaryNotFound error with
  | Fulfilled notFound => Fulfilled (notFound || isMissingStatus error)
  | Rejected e => Rejected e
  end.

Definition giveUpText (repository : string) (lastError : option JsError) : string :=
  "Repository '" ++ repository
  ++ "' not found or not indexed after multiple attempts. Please try again later. Last error: "
  ++ match lastError with
     | Some e => errorText e
     | None => "null"
     end.

(** The [for (let attempt = 0; attempt < 6; attempt++)] loop with [left]
    rounds to go, so that [attempt = 6 - left]. *)
Fixpoint summaryAttempts (query repository : string) (limit : Z) (branch : string)
    (left : nat) (indexed : bool) (lastError : option JsError) : Async ToolResult :=
  match left with
  | O => ret (textResult (giveUpText repository lastError))
  | S left' =>
      let attempt := 6 - Z.of_nat left in
      outcome <- searchSummary query repository limit branch ;;
      match outcome with
      | inl result => ret result
      | inr error =>
          retryable <- settled (summaryNotIndexed error) ;;
          if retryable then
            if negb indexed then
              indexResult <- protectedAxios (indexRequest repository) ;;
              if indexFailed indexResult
              then ret (textResult (indexFailedText repository indexResult))
              else delay 10000 ;;;
                   summaryAttempts query repository limit branch left' true (Some error)
            else if attempt <? 5 then
              delay 10000 ;;;
              summaryAttempts query repository limit branch left' indexed (Some error)
            else ret (textResult (giveUpText repository (Some error)))
          else ret (textResult (giveUpText repository (Some error)))
      end
  end.

Definition vectorSearchWithSummary (query repository : string) (limit : Z) (branch : string)
  : Async ToolResult :=
  token <- readToken ;;
  if negb (tokenTruthy token) then ret (textResult noTokenMessage)
  else summaryAttempts query repository limit branch 6 false None.

End Server.
End Integration.

(* ------------------------------------------------------------------ *)
(** ** src/unnamed/part_000, the legacy variant *)

Module Legacy.
Section Server.

Variable GO_SERVER_URL : string.
Variable MCP_SECRET_TOKEN : option string.
Variable backend : Backend.

Definition axiosConfig : AxiosConfig :=
  {| config_timeout := Some 30000;
     config_headers :=
       match MCP_SECRET_TOKEN with
       | Some secret => if tokenTruthy MCP_SECRET_TOKEN then [("X-MCP-Token", secret)] else []
       | None => []
       end |}.

Definition hasResults (result : ToolResult) : bool :=
  if isError result then false
  else
    existsb
      (fun item =>
         String.eqb (type item) "text"
         && negb (String.eqb (text item) EmptyString)
         && negb (JsString.includes (text item) "error")
         && negb (String.eqb (text item) "{}")
         && negb (String.eqb (text item) "[]"))
      (content result).

Definition failureEnvelope (label : string) (error : JsError) : ToolResult :=
  errorResult (Js.stringify
    (JObj [("status", JStr "error"); ("message", JStr (label ++ errorText error))])).

(** The requests that [axios.post(url, body, axiosConfig)] issues. *)
Definition searchRequest (query repository : string) (limit : Z) : Request :=
  {| method := "post"; url := GO_SERVER_URL ++ "/vector-search";
     data := Some (JObj [("query", JStr query); ("repository", JStr repository);
                         ("limit", JNum limit)]);
     headers := config_headers axiosConfig; timeout := config_timeout axiosConfig |}.

Definition indexRepositoryRequest (repoUrl branch : string) : Request :=
  {| method := "post"; url := GO_SERVER_URL ++ "/index-repository";
     data := Some (JObj [("repoUrl", JStr repoUrl); ("branch", JStr branch)]);
     headers := config_headers axiosConfig; timeout := config_timeout axiosConfig |}.

(** The immediately-invoked search function, written out twice in the
    source as "1st attempt" and "2nd attempt". *)
Definition searchAttempt (query repository : string) (limit : Z) : Async ToolResult :=
  tryCatch
    (response <- axios_post backend (GO_SERVER_URL ++ "/vector-search")
                   (JObj [("query", JStr query); ("repository", JStr repository);
                          ("limit", JNum limit)])
                   axiosConfig ;;
     ret (textResult (Js.stringify (response_data response))))
    (fun error => ret (failureEnvelope "Search failed: " error)).

(** Tool [indexRepository]. *)
Definition indexRepository (repoUrl branch : string) : Async ToolResult :=
  tryCatch
    (response <- axios_post backend (GO_SERVER_URL ++ "/index-repository")
                   (JObj [("repoUrl", JStr repoUrl); ("branch", JStr branch)])
                   axiosConfig ;;
     ret (textResult (Js.stringify (response_data response))))
    (fun error => ret (failureEnvelope "Repository indexing failed: " error)).

(** [await server.tools.indexRepository({ repoUrl, branch })].  The object
    [server] is the [McpServer] built at the top of the file; that class has
    no member [tools] and the program never adds one, so [server.tools] is
    [undefined] and the read of [indexRepository] throws a [TypeError]
    before anything is called. *)
Definition server_tools_indexRepository (repoUrl branch : string) : Async ToolResult :=
  throw (JsText.cannotRead "undefined" "indexRepository").

(** Tool [vectorSearch]. *)
Definition vectorSearch (query repository : string) (limit : Z)
    (repoUrl : option string) (branch : string) : Async ToolResult :=
  result <- searchAttempt query repository limit ;;
  if hasResults result then ret result
  else
    result <- searchAttempt query repository limit ;;
    if hasResults result then ret result
    else
      match repoUrl with
      | Some target =>
          if tokenTruthy repoUrl
          then server_tools_indexRepository target branch ;;; ret result
          else ret result
      | None => ret result
      end.

End Server.
End Legacy.

(* ------------------------------------------------------------------ *)
(** ** Observations on replies and traces *)

(** A reply with status 401 or 403. *)
Definition isAuthReply {B : Type} (reply : HttpReply B) : bool :=
  match reply with
  | Replied code _ => (code =? 401) || (code =? 403)
  | Unreachable _ => false
  end.

(** A reply axios fulfils on. *)
Definition isOkReply {B : Type} (reply : HttpReply B) : bool :=
  match reply with
  | Replied code _ => (200 <=? code) && (code <? 300)
  | Unreachable _ => false
  end.

(** Number of axios requests in a trace addressed to [target]. *)
Fixpoint sentTo (target : string) (events : list Event) : nat :=
  match events with
  | [] => O
  | Sent options :: rest =>
      if String.eqb (url options) target then S (sentTo target rest) else sentTo target rest
  | _ :: rest => sentTo target rest
  end.

(** Number of timer waits in a trace. *)
Fixpoint waits (events : list Event) : nat :=
  match events with
  | [] => O
  | Slept _ :: rest => S (waits rest)
  | _ :: rest => waits rest
  end.

(** The request timeout carried by an event, when it is an axios call. *)
Definition carriesTimeout (limit : option Z) (e : Event) : Prop :=
  match e with
  | Sent options => timeout options = limit
  | Fetched _ _ => True
  | Slept _ => True
  end.

(** Every wait in the trace lasts [ms]. *)
Definition waitsFor (ms : Z) (e : Event) : Prop :=
  match e with
  | Slept d => d = ms
  | _ => True
  end.



(** [keepsOrClears m]: whatever the world, [m] leaves the credential as it
    was or cleared; it never stores one. *)
Definition keepsOrClears {A : Type} (m : Async A) : Prop :=
  forall w, OAUTH_TOKEN (snd (m w)) = OAUTH_TOKEN w \/ OAUTH_TOKEN (snd (m w)) = None.

(** The world after one more event, and after the credential is cleared. *)
Definition sentWorld (w : World) (e : Event) : World :=
  {| OAUTH_TOKEN := OAUTH_TOKEN w; trace := trace w ++ [e] |}.

Definition clearedWorld (w : World) : World :=
  {| OAUTH_TOKEN := None; trace := trace w |}.

(* ------------------------------------------------------------------ *)
(** ** Concrete backends and worlds *)

Module Scenario.

Definition base : string := "http://localhost:8081".

Definition signedIn : World := {| OAUTH_TOKEN := Some "tok"; trace := [] |}.

Definition signedOut : World := {| OAUTH_TOKEN := None; trace := [] |}.

(** A backend that answers axios by the request alone and turns every
    [fetch] away with a 401. *)
Definition answering (f : Request -> HttpReply json) : Backend :=
  {| serve := fun _ options => f options;
     serveFetch := fun _ _ _ => Replied 401 "Unauthorized" |}.

Definition notFound : HttpReply json :=
  Replied 404 (JObj [("message", JStr "Repository not found")]).

(** Rejects every credential. *)
Definition forbidden : Backend :=
  answering (fun _ => Replied 403 (JObj [("message", JStr "forbidden")])).

(** Answers every request with a server error. *)
Definition failing : Backend := answering (fun _ => Replied 500 JNull).

(** Does not answer in time. *)
Definition timingOut : Backend :=
  answering (fun _ => Unreachable "timeout of 30000ms exceeded").

(** Accepts index requests but never finds the repository. *)
Definition neverIndexed : Backend :=
  answering (fun options =>
    if JsString.includes (url options) "/index"
    then Replied 200 (JObj [("status", JStr "started")])
    else notFound).

(** Never finds the repository and refuses to index it. *)
Definition indexRefused : Backend :=
  answering (fun options =>
    if JsString.includes (url options) "/index"
    then Replied 200 (JObj [("status", JStr "error"); ("message", JStr "clone failed")])
    else notFound).

(** Succeeds with a payload that carries no results. *)
Definition emptyHanded : Backend := answering (fun _ => Replied 200 (JArr [])).

(** Succeeds with one result. *)
Definition hit : json :=
  JObj [("success", JBool true);
        ("data", JArr [JObj [("file", JStr "auth/flow.go"); ("score", JNum 1)]])].

Definition finding : Backend := answering (fun _ => Replied 200 hit).

(** Succeeds with a result whose file name contains "error". *)
Definition errorsFile : json :=
  JObj [("success", JBool true);
        ("data", JArr [JObj [("file", JStr "pkg/errors.go"); ("score", JNum 1)]])].

Definition findingErrors : Backend := answering (fun _ => Replied 200 errorsFile).


(** A [JSON.parse] that accepts nothing. *)
Definition noParse (s : string) : Settled json :=
  Rejected {| message := "Unexpected end of JSON input"; response := None |}.

End Scenario.

(** The tools run on one fixed request. *)
Module Run.

Definition query : string := "auth flow".
Definition repository : string := "octo/widgets".

Definition search : Request := Integration.searchRequest Scenario.base query repository 5.

Definition summary : Request :=
  Integration.summaryRequest Scenario.base query repository 5 "main" Scenario.signedIn.

Definition index : Request :=
  Integration.outgoing (Integration.indexRequest Scenario.base repository) Scenario.signedIn.

Definition legacySearch : Request :=
  Legacy.searchRequest Scenario.base None query repository 5.

Definition vectorSearch (backend : Backend) : Settled ToolResult * World :=
  Integration.vectorSearch Scenario.base backend query repository 5 Scenario.signedIn.

Definition vectorSearchWithSummary (backend : Backend) : Settled ToolResult * World :=
  Integration.vectorSearchWithSummary Scenario.base backend query repository 5 "main"
    Scenario.signedIn.

Definition legacyVectorSearch (backend : Backend) : Settled ToolResult * World :=
  Legacy.vectorSearch Scenario.base None backend
    query repository 5 None "main" Scenario.signedOut.

(** The same call with a [repoUrl]. *)
Definition legacyVectorSearchFor (backend : Backend) (repoUrl : string)
  : Settled ToolResult * World :=
  Legacy.vectorSearch Scenario.base None backend
    query repository 5 (Some repoUrl) "main" Scenario.signedOut.

End Run.

(** [axios.get(url, config)] *)
Definition axios_get (backend : Backend) (target : string) (config : AxiosConfig)
  : Async Response :=
  axios backend {| method := "get"; url := target; data := None;
                   headers := config_headers config; timeout := config_timeout config |}.

(** What an Express handler sends: [res.status(code).json(body)]. *)
Record Answer : Type := mkAnswer {
  answer_status : Z;
  answer_body : json
}.

(** [`Bearer ${serverConfig.MCP_SECRET_TOKEN}`]; an unset variable prints
    as "undefined". *)
Definition bearerOf (secret : option string) : string :=
  "Bearer " ++ match secret with
               | Some s => s
               | None => "undefined"
               end.

(** [!authHeader || `Bearer ${secret}` !== authHeader] *)
Definition unauthorized (secret : option string) (authHeader : option string) : bool :=
  negb (tokenTruthy authHeader)
  || match authHeader with
     | Some h => negb (String.eqb (bearerOf secret) h)
     | None => true
     end.

(* ------------------------------------------------------------------ *)
(** ** src/integration.js, the rest of the tools *)

Module Tools.
Section Server.

Variable GO_SERVER_URL : string.
Variable MCP_SECRET_TOKEN : option string.
Variable backend : Backend.
Variable JSON_parse : string -> Settled json.

(** Tool [chat], branch [/set-token <token>]. *)
Definition setTokenCommand (message : string) : Async ToolResult :=
  let token := JsText.trim (JsText.slice 11 (JsText.trim message)) in
  if JsText.nonEmpty token then
    Integration.setToken token ;;;
    ret (textResult "Token set! You can now use the chat.")
  else ret (textResult "Please provide a token after /set-token.").

(** Tool [chat], branch [/index-repo <repoUrl>]. *)
Definition indexRepoCommand (message : string) : Async ToolResult :=
  let repoUrl := JsText.trim (JsText.slice 11 (JsText.trim message)) in
  if negb (JsText.nonEmpty repoUrl) then
    ret (textResult "Please provide a repository URL after /index-repo.")
  else
    let repoUrl := Integration.toFullUrl repoUrl in
    indexResult <- Integration.protectedAxios GO_SERVER_URL backend
                     (Integration.post GO_SERVER_URL "/index"
                        (JObj [("repo_url", JStr repoUrl)])) ;;
    if Js.truthy indexResult && Js.truthyOpt (Js.get indexResult "error") then
      ret (textResult ("Indexing failed: " ++ Js.toStringOpt (Js.get indexResult "message")))
    else if Js.truthy indexResult && Js.isString (Js.get indexResult "status") "error" then
      ret (textResult ("Indexing failed: " ++ Js.toStringOpt (Js.get indexResult "message")))
    else
      ret (textResult ("Indexing started for " ++ repoUrl
                       ++ ". I will notify you when it's ready.")).

(** Tool [chat]. *)
Definition chat (message repository : string) : Async ToolResult :=
  if JsString.startsWith (JsText.trim message) "/set-token " then setTokenCommand message
  else if JsString.startsWith (JsText.trim message) "/index-repo " then indexRepoCommand message
  else Integration.chatSearch GO_SERVER_URL backend message repository.

(** The envelope of a failed unprotected tool:
    [{ status: 'error', message: `${label}${errorMessage}` }], [isError]. *)
Definition failed (label : string) (error : JsError) : ToolResult :=
  errorResult (Js.stringify
    (JObj [("status", JStr "error"); ("message", JStr (label ++ errorText error))])).

Definition unauthorizedIndexingText : string :=
  "Repository indexing failed due to authentication (401 Unauthorized). Please resend the request with your token using /set-token <your_token> and try again.".

Definition indexRepositoryRequest (repoUrl branch : string) : Request :=
  {| method := "post"; url := GO_SERVER_URL ++ "/index";
     data := Some (JObj [("repo_url", JStr repoUrl); ("branch", JStr branch)]);
     headers := config_headers (Integration.axiosConfig MCP_SECRET_TOKEN);
     timeout := config_timeout (Integration.axiosConfig MCP_SECRET_TOKEN) |}.

(** Tool [indexRepository]. *)
Definition indexRepository (repoUrl branch : string) : Async ToolResult :=
  tryCatch
    (response <- axios_post backend (GO_SERVER_URL ++ "/index")
                   (JObj [("repo_url", JStr repoUrl); ("branch", JStr branch)])
                   (Integration.axiosConfig MCP_SECRET_TOKEN) ;;
     ret (textResult (Js.stringify (response_data response))))
    (fun error =>
       match response error with
       | Some r =>
           if status r =? 401 then ret (errorResult unauthorizedIndexingText)
           else ret (failed "Repository indexing failed: " error)
       | None => ret (failed "Repository indexing failed: " error)
       end).

Definition listingRequest (path : string) : Request :=
  {| method := "get"; url := GO_SERVER_URL ++ path; data := None;
     headers := config_headers (Integration.axiosConfig MCP_SECRET_TOKEN);
     timeout := config_timeout (Integration.axiosConfig MCP_SECRET_TOKEN) |}.

(** Tools [repositories] and [profile]. *)
Definition repositories : Async ToolResult :=
  tryCatch
    (response <- axios_get backend (GO_SERVER_URL ++ "/repositories")
                   (Integration.axiosConfig MCP_SECRET_TOKEN) ;;
     ret (textResult (Js.stringify (response_data response))))
    (fun error => ret (failed "Failed to fetch repositories: " error)).

Definition profile : Async ToolResult :=
  tryCatch
    (response <- axios_get backend (GO_SERVER_URL ++ "/profile")
                   (Integration.axiosConfig MCP_SECRET_TOKEN) ;;
     ret (textResult (Js.stringify (response_data response))))
    (fun error => ret (failed "Failed to fetch profile: " error)).

(** *** The HTTP bridge [POST /mcp] *)

(** [x === 'name'] on a value that may be [undefined]. *)
Definition toolIs (tool : option json) (name : string) : bool := Js.isString tool name.

(** The backend request object and endpoint chosen for the body. *)
Definition searchFields (source : option json)
  : Settled (option (list (string * option json))) :=
  match JsText.member source "query" with
  | Rejected e => Rejected e
  | Fulfilled query =>
      match JsText.member source "repository" with
      | Rejected e => Rejected e
      | Fulfilled repository =>
          match JsText.member source "branch" with
          | Rejected e => Rejected e
          | Fulfilled branch =>
              Fulfilled (Some [("query", query); ("repository", repository);
                               ("branch", Some (JsText.orElse branch (JStr "main")))])
          end
      end
  end.

Definition indexFields (source : option json)
  : Settled (option (list (string * option json))) :=
  match JsText.member source "repoUrl" with
  | Rejected e => Rejected e
  | Fulfilled repoUrl =>
      match JsText.member source "branch" with
      | Rejected e => Rejected e
      | Fulfilled branch =>
          Fulfilled (Some [("repo_url", repoUrl);
                           ("branch", Some (JsText.orElse branch (JStr "main")))])
      end
  end.

Definition dispatch (body : json)
  : Settled (option (list (string * option json)) * string) :=
  match JsText.member (Some body) "tool" with
  | Rejected e => Rejected e
  | Fulfilled tool =>
      let params := Js.get body "params" in
      let with_endpoint (endpoint : string)
            (fields : Settled (option (list (string * option json)))) :=
        match fields with
        | Fulfilled f => Fulfilled (f, endpoint)
        | Rejected e => Rejected e
        end in
      if toolIs tool "vectorSearch" then with_endpoint "/search" (searchFields params)
      else if toolIs tool "vectorSearchWithSummary"
           then with_endpoint "/search/summary" (searchFields params)
      else if toolIs tool "indexRepository" then with_endpoint "/index" (indexFields params)
      else if toolIs tool "repositories" then Fulfilled (None, "/repositories")
      else if toolIs tool "profile" then Fulfilled (None, "/profile")
      else with_endpoint "/search" (searchFields (Some body))
  end.

Definition jsonHeaders : list (string * string) := [("Content-Type", "application/json")].

(** The [init] handed to [fetch] for an endpoint. *)
Definition bridgeInit (fields : option (list (string * option json))) (endpoint : string)
  : FetchInit :=
  if String.eqb endpoint "/repositories" || String.eqb endpoint "/profile"
  then {| fetch_method := Some "GET"; fetch_headers := jsonHeaders; fetch_body := None |}
  else {| fetch_method := Some "POST"; fetch_headers := jsonHeaders;
          fetch_body := match fields with
                        | Some f => Some (JsText.stringifyCompact (JObj (JsText.defined f)))
                        | None => None
                        end |}.

Definition unauthorizedAnswer : Answer :=
  {| answer_status := 401; answer_body := JObj [("error", JStr "Unauthorized")] |}.

Definition requestFailed (code : Z) (responseData : string) : Answer :=
  {| answer_status := code;
     answer_body := JObj [("error", JStr "Request failed"); ("message", JStr responseData);
                          ("success", JBool false)] |}.

Definition internalError (error : JsError) : Answer :=
  {| answer_status := 500;
     answer_body := JObj [("error", JStr "Internal server error");
                          ("message", JStr (message error)); ("success", JBool false)] |}.

(** The handler of [POST /mcp] for a request with the given
    [Authorization] header and parsed body. *)
Definition mcp (authHeader : option string) (body : json) : Async Answer :=
  tryCatch
    (if unauthorized MCP_SECRET_TOKEN authHeader then ret unauthorizedAnswer
     else
       chosen <- settled (dispatch body) ;;
       let '(fields, endpoint) := chosen in
       response <- fetch backend (GO_SERVER_URL ++ endpoint) (bridgeInit fields endpoint) ;;
       if negb ((200 <=? fetch_status response) && (fetch_status response <? 300))
       then ret (requestFailed (fetch_status response) (fetch_text response))
       else
         parsed <- settled (JSON_parse (fetch_text response)) ;;
         ret {| answer_status := 200; answer_body := parsed |})
    (fun error => ret (internalError error)).

End Server.
End Tools.

(* ------------------------------------------------------------------ *)
(** ** src/unnamed/part_000, the rest of the legacy variant *)

Module LegacyTools.
Section Server.

Variable GO_SERVER_URL : string.
Variable MCP_SECRET_TOKEN : option string.
Variable backend : Backend.
Variable JSON_parse : string -> Settled json.

(** [new Date().toISOString()], read off the traffic so far. *)
Variable clock : list Event -> string.

Definition now : Async string := seen <- readTrace ;; ret (clock seen).

Definition healthRequest : Request :=
  {| method := "get"; url := GO_SERVER_URL ++ "/health"; data := None;
     headers := config_headers (Legacy.axiosConfig MCP_SECRET_TOKEN);
     timeout := config_timeout (Legacy.axiosConfig MCP_SECRET_TOKEN) |}.

Definition sorryText : string :=
  "Sorry, I couldn't find a clear answer to your question in the repository documentation or code. Please try rephrasing your question or provide more details.".

Definition unavailableText : string :=
  "The backend server is currently unavailable. Please ensure the Go server is running and accessible.".

(** The objects [processChat] returns. *)
Definition chatReply (text repository : string) (codeContext : json) (timestamp : string)
    (error : option string) : json :=
  JObj ([("message", JStr text); ("repository", JStr repository);
         ("codeContext", codeContext); ("timestamp", JStr timestamp)]
        ++ match error with
           | Some e => [("error", JStr e)]
           | None => []
           end)%list.

(** [searchResponse.data.success ? searchResponse.data.data : []] *)
Definition searchResultsOf (payload : json) : Settled (option json) :=
  match JsText.member (Some payload) "success" with
  | Rejected e => Rejected e
  | Fulfilled success =>
      if Js.truthyOpt success then JsText.member (Some payload) "data"
      else Fulfilled (Some (JArr []))
  end.

(** [!searchResults || (Array.isArray(searchResults) && searchResults.length === 0)] *)
Definition noUsefulResults (searchResults : option json) : bool :=
  negb (Js.truthyOpt searchResults)
  || match searchResults with
     | Some (JArr []) => true
     | _ => false
     end.

Definition processedText (message : string) : string :=
  "I processed your message: " ++ JsString.chr JsString.quote ++ message
  ++ JsString.chr JsString.quote.

(** The inner [try] of [processChat]: [None] when the health check passed,
    the early reply otherwise. *)
Definition healthGate (repository : string) : Async (option json) :=
  tryCatch
    (axios_get backend (GO_SERVER_URL ++ "/health") (Legacy.axiosConfig MCP_SECRET_TOKEN) ;;;
     ret None)
    (fun healthError =>
       timestamp <- now ;;
       ret (Some (chatReply unavailableText repository (JArr []) timestamp
                    (Some "backend_unavailable")))).

Definition processChat (message repository : string) : Async json :=
  tryCatch
    (gate <- healthGate repository ;;
     match gate with
     | Some reply => ret reply
     | None =>
         searchResponse <- axios_post backend (GO_SERVER_URL ++ "/vector-search")
                             (JObj [("query", JStr message); ("repository", JStr repository);
                                    ("limit", JNum 5)])
                             (Legacy.axiosConfig MCP_SECRET_TOKEN) ;;
         searchResults <- settled (searchResultsOf (response_data searchResponse)) ;;
         if noUsefulResults searchResults then
           timestamp <- now ;;
           ret (chatReply sorryText repository (JArr []) timestamp None)
         else
           timestamp <- now ;;
           ret (chatReply (processedText message) repository
                  (match searchResults with
                   | Some found => found
                   | None => JNull
                   end)
                  timestamp None)
     end)
    (fun error =>
       timestamp <- now ;;
       ret (chatReply sorryText repository (JArr []) timestamp (Some (errorText error)))).

(** Tool [chat]. *)
Definition chat (message repository : string) : Async ToolResult :=
  tryCatch
    (result <- processChat message repository ;;
     ret (textResult (Js.stringify result)))
    (fun error => ret (Legacy.failureEnvelope "Error processing chat: " error)).

(** [connectToGoServer(retries)] with [left] rounds to go, so that
    [i = retries - left]. *)
Fixpoint connectRounds (retries : Z) (left : nat) : Async bool :=
  match left with
  | O => ret false
  | S left' =>
      let i := retries - Z.of_nat left in
      connected <-
        tryCatch
          (response <- axios_get backend (GO_SERVER_URL ++ "/health")
                         (Legacy.axiosConfig MCP_SECRET_TOKEN) ;;
           success <- settled (JsText.member (Some (response_data response)) "success") ;;
           ret (Js.truthyOpt success))
          (fun error =>
             (if i <? retries - 1 then delay 5000 else ret tt) ;;;
             ret false) ;;
      if connected then ret true else connectRounds retries left'
  end.

Definition connectToGoServer (retries : nat) : Async bool :=
  connectRounds (Z.of_nat retries) retries.

(** The handler of [POST /mcp]. *)
Definition legacyFields (body : json) : Settled (list (string * option json)) :=
  match JsText.member (Some body) "tool" with
  | Rejected e => Rejected e
  | Fulfilled tool =>
      let params := Js.get body "params" in
      if Tools.toolIs tool "vectorSearch" then
        match Tools.searchFields params with
        | Fulfilled (Some f) => Fulfilled f
        | Fulfilled None => Fulfilled []
        | Rejected e => Rejected e
        end
      else if Tools.toolIs tool "indexRepository" then
        match JsText.member params "repoUrl" with
        | Rejected e => Rejected e
        | Fulfilled repoUrl =>
            match JsText.member params "branch" with
            | Rejected e => Rejected e
            | Fulfilled branch =>
                Fulfilled [("repoUrl", repoUrl);
                           ("branch", Some (JsText.orElse branch (JStr "main")))]
            end
        end
      else
        match Tools.searchFields (Some body) with
        | Fulfilled (Some f) => Fulfilled f
        | Fulfilled None => Fulfilled []
        | Rejected e => Rejected e
        end
  end.

Definition legacyEndpoint (body : json) : string :=
  if Tools.toolIs (Js.get body "tool") "indexRepository"
  then "/index-repository" else "/vector-search".

(** [{ method: 'POST', headers, body: JSON.stringify(goServerRequest) }] *)
Definition legacyInit (fields : list (string * option json)) : FetchInit :=
  {| fetch_method := Some "POST"; fetch_headers := Tools.jsonHeaders;
     fetch_body := Some (JsText.stringifyCompact (JObj (JsText.defined fields))) |}.

Definition mcp (authHeader : option string) (body : json) : Async Answer :=
  tryCatch
    (if unauthorized MCP_SECRET_TOKEN authHeader then ret Tools.unauthorizedAnswer
     else
       fields <- settled (legacyFields body) ;;
       response <- fetch backend (GO_SERVER_URL ++ legacyEndpoint body)
                     (legacyInit fields) ;;
       if negb ((200 <=? fetch_status response) && (fetch_status response <? 300))
       then ret (Tools.requestFailed (fetch_status response) (fetch_text response))
       else
         parsed <- settled (JSON_parse (fetch_text response)) ;;
         ret {| answer_status := 200; answer_body := parsed |})
    (fun error => ret (Tools.internalError error)).

End Server.
End LegacyTools.

(** Further backends, and inputs of the other tools. *)
Module Cases.

Definition started : HttpReply json := Replied 200 (JObj [("status", JStr "started")]).

(** Answers every search 200 with a "not found" message and accepts index
    requests. *)
Definition reportsNotFound : Backend :=
  Scenario.answering (fun options =>
    if JsString.includes (url options) "/index" then started
    else Replied 200 (JObj [("message", JStr "Repository not found")])).

(** Finds the repository only once an index request has been sent. *)
Definition indexedOnDemand : Backend :=
  {| serve := fun seen options =>
       if JsString.includes (url options) "/index" then started
       else if Nat.eqb (sentTo "http://localhost:8081/index" seen) 0 then Scenario.notFound
       else Replied 200 Scenario.hit;
     serveFetch := fun _ _ _ => Unreachable "connect ECONNREFUSED" |}.

(** Never finds the repository and answers index requests 403, or 500. *)
Definition indexForbidden : Backend :=
  Scenario.answering (fun options =>
    if JsString.includes (url options) "/index"
    then Replied 403 (JObj [("message", JStr "forbidden")])
    else Scenario.notFound).

Definition indexBroken : Backend :=
  Scenario.answering (fun options =>
    if JsString.includes (url options) "/index" then Replied 500 JNull
    else Scenario.notFound).

(** Answers every request 400 with a body whose message is a number. *)
Definition numericMessage : Backend :=
  Scenario.answering (fun _ => Replied 400 (JObj [("message", JNum 42)])).

(** Answers every request 400 with a plain message. *)
Definition badRequest : Backend :=
  Scenario.answering (fun _ => Replied 400 (JObj [("message", JStr "limit out of range")])).

(** Answers every axios request 401. *)
Definition unauthorizedBackend : Backend := Scenario.answering (fun _ => Replied 401 JNull).

(** Reachable, but reports itself unhealthy. *)
Definition unhealthy : Backend :=
  Scenario.answering (fun _ => Replied 200 (JObj [("success", JBool false)])).

(** Answers every fetch 200 with the text [{}], or 503. *)
Definition fetchOk : Backend :=
  {| serve := fun _ _ => Unreachable "axios is not used";
     serveFetch := fun _ _ _ => Replied 200 "{}" |}.

Definition fetchDown : Backend :=
  {| serve := fun _ _ => Unreachable "axios is not used";
     serveFetch := fun _ _ _ => Replied 503 "upstream unavailable" |}.

(** A [JSON.parse] that knows the text [{}] only. *)
Definition parseEmptyObject (s : string) : Settled json :=
  if String.eqb s "{}" then Fulfilled (JObj [])
  else Rejected {| message := "Unexpected token"; response := None |}.

Definition clock (seen : list Event) : string := "2025-01-01T00:00:00.000Z".

Definition setToken : string := "  /set-token   s3cr3t  ".

Definition indexRepo : string := "/index-repo octo/widgets".

Definition searchBody : json :=
  JObj [("tool", JStr "vectorSearch");
        ("params", JObj [("query", JStr "auth flow"); ("repository", JStr "octo/widgets")])].



Definition listBody : json := JObj [("tool", JStr "repositories")].

Definition indexBody : json :=
  JObj [("tool", JStr "indexRepository");
        ("params", JObj [("repoUrl", JStr "https://github.com/octo/widgets");
                         ("branch", JStr EmptyString)])].

Definition emptyInit : FetchInit :=
  {| fetch_method := None; fetch_headers := []; fetch_body := None |}.

End Cases.

(* ------------------------------------------------------------------ *)
(** * Properties *)

(** ** Strings *)

Lemma prefix_append (p s : string) : String.prefix p (p ++ s) = true.
Proof.
  induction p as [|c p IH]; simpl.
  - destruct s; reflexivity.
  - destruct (Ascii.ascii_dec c c) as [_|ne]; [exact IH | now elim ne].
Qed.

Lemma includes_unfold (s needle : string) :
  JsString.includes s needle =
  String.prefix needle s ||
  match s with
  | EmptyString => false
  | String _ rest => JsString.includes rest needle
  end.
Proof. destruct s; reflexivity. Qed.

Lemma includes_here (needle s : string) : JsString.includes (needle ++ s) needle = true.
Proof. rewrite includes_unfold, prefix_append. reflexivity. Qed.

Lemma includes_later (a s needle : string) :
  JsString.includes s needle = true -> JsString.includes (a ++ s) needle = true.
Proof.
  intros H. induction a as [|c a IH]; simpl; [exact H|].
  rewrite IH. apply orb_true_r.
Qed.

Lemma includes_middle (a needle b : string) :
  JsString.includes (a ++ needle ++ b) needle = true.
Proof. apply includes_later, includes_here. Qed.

Lemma append_empty_r (s : string) : s ++ EmptyString = s.
Proof. induction s as [|c s IH]; simpl; [reflexivity | now rewrite IH]. Qed.

Lemma includes_end (a needle : string) : JsString.includes (a ++ needle) needle = true.
Proof.
  rewrite <- (append_empty_r needle) at 1. apply includes_middle.
Qed.

Lemma eqb_append_l (p a b : string) : String.eqb (p ++ a) (p ++ b) = String.eqb a b.
Proof.
  induction p as [|c p IH]; simpl; [reflexivity|].
  rewrite Ascii.eqb_refl. exact IH.
Qed.

(** ** The repository normaliser *)

(** C7: the full-URL normalisation is idempotent; a reference that starts
    with "http" passes through unchanged and any other reference receives
    the "https://github.com/" prefix exactly once, also when normalised
    again. *)
Theorem toFullUrl_idempotent (ref : string) :
  Integration.toFullUrl (Integration.toFullUrl ref) = Integration.toFullUrl ref
  /\ (JsString.startsWith ref "http" = true -> Integration.toFullUrl ref = ref)
  /\ (JsString.startsWith ref "http" = false ->
      Integration.toFullUrl ref = "https://github.com/" ++ ref
      /\ Integration.toFullUrl (Integration.toFullUrl ref) = "https://github.com/" ++ ref).
Proof.
  unfold Integration.toFullUrl.
  destruct (JsString.startsWith ref "http") eqn:E; simpl.
  - rewrite E. simpl. repeat split; intros; congruence.
  - repeat split; intros; congruence.
Qed.

Lemma toFullUrl_idempotent_witness :
  Integration.toFullUrl "http://example.org/octo/widgets" = "http://example.org/octo/widgets"
  /\ Integration.toFullUrl (Integration.toFullUrl "octo/widgets") = "https://github.com/octo/widgets".
Proof.
  split.
  - apply (proj1 (proj2 (toFullUrl_idempotent "http://example.org/octo/widgets"))).
    reflexivity.
  - apply (proj2 (proj2 (toFullUrl_idempotent "octo/widgets"))).
    reflexivity.
Defined.

(** ** The protected call executors *)

Ltac run :=
  unfold bind, ret, throw, tryCatch, settled, record, readTrace, readToken, delay.

Lemma settle_auth (reply : HttpReply json) :
  isAuthReply reply = true ->
  exists error, settle reply = Rejected error /\ Integration.isAuthStatus error = true.
Proof.
  destruct reply as [code body|reason]; simpl; [|discriminate].
  intros H. apply orb_true_iff in H.
  assert ((200 <=? code) && (code <? 300) = false) as ->.
  { apply andb_false_iff. right. apply Z.ltb_ge. destruct H as [H|H]; apply Z.eqb_eq in H; lia. }
  eexists. split; [reflexivity|].
  unfold Integration.isAuthStatus. simpl. apply orb_true_iff. exact H.
Qed.

Lemma settle_not_auth (reply : HttpReply json) (error : JsError) :
  isAuthReply reply = false ->
  settle reply = Rejected error ->
  Integration.isAuthStatus error = false.
Proof.
  destruct reply as [code body|reason]; simpl.
  - intros H. destruct ((200 <=? code) && (code <? 300)); [discriminate|].
    intros [= <-]. exact H.
  - intros _ [= <-]. reflexivity.
Qed.

Section Executors.

Variable GO_SERVER_URL : string.
Variable backend : Backend.
Variable JSON_parse : string -> Settled json.

Local Abbreviation protectedAxios := (Integration.protectedAxios GO_SERVER_URL backend).
Local Abbreviation protectedFetch := (Integration.protectedFetch GO_SERVER_URL backend JSON_parse).
Local Abbreviation noTokenMessage := (Integration.noTokenMessage GO_SERVER_URL).
Local Abbreviation tokenExpiredMessage := (Integration.tokenExpiredMessage GO_SERVER_URL).

Lemma protectedAxios_no_token (options : Request) (w : World) :
  hasToken w = false ->
  protectedAxios options w = (Fulfilled (Integration.errorObject noTokenMessage), w).
Proof.
  unfold hasToken, Integration.protectedAxios. run. intros ->. reflexivity.
Qed.

Lemma protectedAxios_run (options : Request) (w : World) :
  hasToken w = true ->
  protectedAxios options w =
  let w1 := sentWorld w (Sent (Integration.outgoing options w)) in
  match settle (serve backend (trace w) (Integration.outgoing options w)) with
  | Fulfilled response => (Fulfilled (response_data response), w1)
  | Rejected error =>
      if Integration.isAuthStatus error
      then (Fulfilled (Integration.errorObject tokenExpiredMessage), clearedWorld w1)
      else (Rejected error, w1)
  end.
Proof.
  unfold hasToken, Integration.protectedAxios, Integration.getAuthHeader, axios. run.
  intros ->. simpl.
  unfold Integration.outgoing.
  destruct (settle _) as [response|error]; [reflexivity|].
  destruct (Integration.isAuthStatus error); reflexivity.
Qed.

Lemma protectedFetch_no_token (target : string) (init : FetchInit) (w : World) :
  hasToken w = false ->
  protectedFetch target init w = (Fulfilled (Integration.errorObject noTokenMessage), w).
Proof.
  unfold hasToken, Integration.protectedFetch. run. intros ->. reflexivity.
Qed.

Lemma protectedFetch_run (target : string) (init : FetchInit) (w : World) :
  hasToken w = true ->
  protectedFetch target init w =
  let w1 := sentWorld w (Fetched target (Integration.outgoingFetch init w)) in
  match serveFetch backend (trace w) target (Integration.outgoingFetch init w) with
  | Replied code body =>
      if (code =? 401) || (code =? 403)
      then (Fulfilled (Integration.errorObject tokenExpiredMessage), clearedWorld w1)
      else (JSON_parse body, w1)
  | Unreachable reason => (Rejected {| message := reason; response := None |}, w1)
  end.
Proof.
  unfold hasToken, Integration.protectedFetch, Integration.getAuthHeader, fetch. run.
  intros ->. simpl.
  unfold Integration.outgoingFetch.
  destruct (serveFetch _ _ _ _) as [code body|reason]; simpl; [|reflexivity].
  destruct ((code =? 401) || (code =? 403)); [reflexivity|].
  destruct (JSON_parse body); reflexivity.
Qed.

Lemma login_url_in_noTokenMessage :
  JsString.includes noTokenMessage (GO_SERVER_URL ++ "/auth/login") = true.
Proof. unfold Integration.noTokenMessage, Integration.AUTH_LOGIN_URL. apply includes_middle. Qed.

Lemma login_url_in_tokenExpiredMessage :
  JsString.includes tokenExpiredMessage (GO_SERVER_URL ++ "/auth/login") = true.
Proof. unfold Integration.tokenExpiredMessage, Integration.AUTH_LOGIN_URL. apply includes_end. Qed.

Lemma auth_failure_is_distinguished :
  Integration.errorObject tokenExpiredMessage <> Integration.errorObject noTokenMessage.
Proof.
  unfold Integration.errorObject, Integration.tokenExpiredMessage, Integration.noTokenMessage.
  intros H. injection H as H. discriminate H.
Qed.

(** C6: without a stored credential both executors return the
    no-credential result, whose message contains the login URL (backend
    base URL followed by /auth/login), and leave the world as it was, so
    that no request reaches the network. *)
Theorem no_credential_no_request
    (options : Request) (target : string) (init : FetchInit) (w : World) :
  hasToken w = false ->
  protectedAxios options w = (Fulfilled (Integration.errorObject noTokenMessage), w)
  /\ protectedFetch target init w = (Fulfilled (Integration.errorObject noTokenMessage), w)
  /\ Js.get (Integration.errorObject noTokenMessage) "message" = Some (JStr noTokenMessage)
  /\ JsString.includes noTokenMessage (GO_SERVER_URL ++ "/auth/login") = true
  /\ trace (snd (protectedAxios options w)) = trace w
  /\ trace (snd (protectedFetch target init w)) = trace w.
Proof.
  intros H.
  rewrite (protectedAxios_no_token options w H), (protectedFetch_no_token target init w H).
  repeat split. apply login_url_in_noTokenMessage.
Qed.

(** C5: with a credential stored, a reply with status 401 or 403 makes
    either executor clear the credential and return the auth-failure
    result: an object whose [error] field is [true] and whose [message] is
    the token-expired text, which contains the login URL and differs from
    the no-credential result; the next protected call then takes the
    no-credential branch. *)
Theorem auth_failure_clears_credential
    (options : Request) (target : string) (init : FetchInit) (w : World) :
  hasToken w = true ->
  (isAuthReply (serve backend (trace w) (Integration.outgoing options w)) = true ->
   let after := snd (protectedAxios options w) in
   fst (protectedAxios options w) = Fulfilled (Integration.errorObject tokenExpiredMessage)
   /\ OAUTH_TOKEN after = None
   /\ hasToken after = false
   /\ (forall next, protectedAxios next after
                    = (Fulfilled (Integration.errorObject noTokenMessage), after))
   /\ exists result,
        fst (protectedAxios options w) = Fulfilled result
        /\ Js.get result "error" = Some (JBool true)
        /\ Js.get result "message" = Some (JStr tokenExpiredMessage)
        /\ result <> Integration.errorObject noTokenMessage)
  /\ (isAuthReply (serveFetch backend (trace w) target (Integration.outgoingFetch init w)) = true ->
      let after := snd (protectedFetch target init w) in
      fst (protectedFetch target init w) = Fulfilled (Integration.errorObject tokenExpiredMessage)
      /\ OAUTH_TOKEN after = None
      /\ hasToken after = false
      /\ (forall url' init', protectedFetch url' init' after
                             = (Fulfilled (Integration.errorObject noTokenMessage), after))
      /\ exists result,
           fst (protectedFetch target init w) = Fulfilled result
           /\ Js.get result "error" = Some (JBool true)
           /\ Js.get result "message" = Some (JStr tokenExpiredMessage)
           /\ result <> Integration.errorObject noTokenMessage)
  /\ JsString.includes tokenExpiredMessage (GO_SERVER_URL ++ "/auth/login") = true.
Proof.
  intros Htok. split; [|split].
  - intros Hreply. rewrite (protectedAxios_run options w Htok). cbv zeta.
    destruct (settle_auth _ Hreply) as (error & -> & ->). simpl.
    split; [reflexivity|]. split; [reflexivity|]. split; [reflexivity|]. split.
    + intros next. apply protectedAxios_no_token. reflexivity.
    + eexists. split; [reflexivity|]. split; [reflexivity|]. split; [reflexivity|].
      apply auth_failure_is_distinguished.
  - intros Hreply. rewrite (protectedFetch_run target init w Htok). cbv zeta.
    destruct (serveFetch _ _ _ _) as [code body|reason]; simpl in Hreply; [|discriminate].
    rewrite Hreply. simpl.
    split; [reflexivity|]. split; [reflexivity|]. split; [reflexivity|]. split.
    + intros url' init'. apply protectedFetch_no_token. reflexivity.
    + eexists. split; [reflexivity|]. split; [reflexivity|]. split; [reflexivity|].
      apply auth_failure_is_distinguished.
  - apply login_url_in_tokenExpiredMessage.
Qed.

(** C9: a protected call leaves the credential as it found it unless the
    reply has status 401 or 403, whether the call succeeds, fails with
    another status, or fails without any reply; the transport and the timer
    never touch the credential, which otherwise changes through [setToken]
    and [clearToken] only. *)
Theorem credential_frame
    (options : Request) (target : string) (init : FetchInit) (ms : Z) (w : World) :
  (isAuthReply (serve backend (trace w) (Integration.outgoing options w)) = false ->
   OAUTH_TOKEN (snd (protectedAxios options w)) = OAUTH_TOKEN w)
  /\ (isAuthReply (serveFetch backend (trace w) target (Integration.outgoingFetch init w)) = false ->
      OAUTH_TOKEN (snd (protectedFetch target init w)) = OAUTH_TOKEN w)
  /\ OAUTH_TOKEN (snd (axios backend options w)) = OAUTH_TOKEN w
  /\ OAUTH_TOKEN (snd (fetch backend target init w)) = OAUTH_TOKEN w
  /\ OAUTH_TOKEN (snd (delay ms w)) = OAUTH_TOKEN w
  /\ (forall token, OAUTH_TOKEN (snd (Integration.setToken token w)) = Some token)
  /\ OAUTH_TOKEN (snd (Integration.clearToken w)) = None.
Proof.
  split; [|split; [|split; [|split; [|split; [|split]]]]].
  - intros Hreply. destruct (hasToken w) eqn:Htok.
    + rewrite (protectedAxios_run options w Htok). cbv zeta.
      destruct (settle _) as [response|error] eqn:E; [reflexivity|].
      rewrite (settle_not_auth _ _ Hreply E). reflexivity.
    + rewrite (protectedAxios_no_token options w Htok). reflexivity.
  - intros Hreply. destruct (hasToken w) eqn:Htok.
    + rewrite (protectedFetch_run target init w Htok). cbv zeta.
      destruct (serveFetch _ _ _ _) as [code body|reason]; simpl in Hreply; [|reflexivity].
      rewrite Hreply. reflexivity.
    + rewrite (protectedFetch_no_token target init w Htok). reflexivity.
  - unfold axios. run. reflexivity.
  - unfold fetch. run. reflexivity.
  - reflexivity.
  - reflexivity.
  - reflexivity.
Qed.

End Executors.

(** ** The orchestrators of src/integration.js *)

Section Orchestrators.

Variable GO_SERVER_URL : string.
Variable backend : Backend.

Local Abbreviation protectedAxios := (Integration.protectedAxios GO_SERVER_URL backend).
Local Abbreviation noTokenMessage := (Integration.noTokenMessage GO_SERVER_URL).
Local Abbreviation tokenExpiredMessage := (Integration.tokenExpiredMessage GO_SERVER_URL).
Local Abbreviation searchRequest := (Integration.searchRequest GO_SERVER_URL).
Local Abbreviation indexRequest := (Integration.indexRequest GO_SERVER_URL).
Local Abbreviation summaryRequest := (Integration.summaryRequest GO_SERVER_URL).
Local Abbreviation recoverOrReport := (Integration.recoverOrReport GO_SERVER_URL backend).
Local Abbreviation vectorSearch := (Integration.vectorSearch GO_SERVER_URL backend).
Local Abbreviation chatSearch := (Integration.chatSearch GO_SERVER_URL backend).
Local Abbreviation summaryAttempts := (Integration.summaryAttempts GO_SERVER_URL backend).
Local Abbreviation vectorSearchWithSummary :=
  (Integration.vectorSearchWithSummary GO_SERVER_URL backend).

(** *** Single-shot configuration *)

Lemma recoverOrReport_run (repository : string) (result : json) (w : World) :
  recoverOrReport repository result w =
  match Integration.searchNeedsIndexing result with
  | Rejected thrown => (Rejected thrown, w)
  | Fulfilled false => (Fulfilled (textResult (Js.stringify result)), w)
  | Fulfilled true =>
      match protectedAxios (indexRequest repository) w with
      | (Fulfilled indexResult, w') =>
          if Integration.indexFailed indexResult
          then (Fulfilled (textResult (Integration.indexFailedText repository indexResult)), w')
          else (Fulfilled (textResult (Integration.indexStartedText repository)), w')
      | (Rejected thrown, w') => (Rejected thrown, w')
      end
  end.
Proof.
  unfold Integration.recoverOrReport. run.
  destruct (Integration.searchNeedsIndexing result) as [[|]|thrown]; try reflexivity.
  destruct (protectedAxios _ w) as [[indexResult|thrown] w']; [|reflexivity].
  destruct (Integration.indexFailed indexResult); reflexivity.
Qed.

Lemma vectorSearch_no_token (query repository : string) (limit : Z) (w : World) :
  hasToken w = false ->
  vectorSearch query repository limit w = (Fulfilled (textResult noTokenMessage), w).
Proof. unfold hasToken, Integration.vectorSearch. run. intros ->. reflexivity. Qed.

Lemma vectorSearch_run (query repository : string) (limit : Z) (w : World) :
  hasToken w = true ->
  vectorSearch query repository limit w =
  match protectedAxios (searchRequest query repository limit) w with
  | (Fulfilled result, w') => recoverOrReport repository result w'
  | (Rejected thrown, w') => (Rejected thrown, w')
  end.
Proof. unfold hasToken, Integration.vectorSearch. run. intros ->. reflexivity. Qed.

Lemma chatSearch_no_token (message repository : string) (w : World) :
  hasToken w = false ->
  chatSearch message repository w = (Fulfilled (textResult noTokenMessage), w).
Proof. unfold hasToken, Integration.chatSearch. run. intros ->. reflexivity. Qed.

Lemma chatSearch_run (message repository : string) (w : World) :
  hasToken w = true ->
  chatSearch message repository w =
  match protectedAxios (searchRequest message repository 5) w with
  | (Fulfilled result, w') =>
      match recoverOrReport repository result w' with
      | (Fulfilled envelope, w2) => (Fulfilled envelope, w2)
      | (Rejected thrown, w2) => (Fulfilled (Integration.chatFailure thrown), w2)
      end
  | (Rejected thrown, w') => (Fulfilled (Integration.chatFailure thrown), w')
  end.
Proof.
  unfold hasToken, Integration.chatSearch, Integration.processChatWithToken. run.
  intros ->. simpl.
  destruct (protectedAxios _ w) as [[result|thrown] w']; [|reflexivity].
  destruct (Integration.recoverOrReport _ _ _ _ _) as [[envelope|thrown] w2]; reflexivity.
Qed.

(** The executor's own error objects carry the [error] marker. *)
Lemma errorObject_needs_indexing (msg : string) :
  Integration.searchNeedsIndexing (Integration.errorObject msg) = Fulfilled true.
Proof. reflexivity. Qed.

Lemma errorObject_indexFailed (msg : string) :
  Integration.indexFailed (Integration.errorObject msg) = true.
Proof. reflexivity. Qed.

(** A search answered 401 or 403 in the single-shot tools: the credential
    is cleared, the recovery branch is taken and its protected index call
    stops at the no-credential guard. *)
Lemma recover_after_auth_failure (repository : string) (w : World) :
  recoverOrReport repository (Integration.errorObject tokenExpiredMessage) (clearedWorld w)
  = (Fulfilled (textResult (Integration.indexFailedText repository
                              (Integration.errorObject noTokenMessage))),
     clearedWorld w).
Proof.
  rewrite recoverOrReport_run, errorObject_needs_indexing.
  rewrite protectedAxios_no_token by reflexivity.
  rewrite errorObject_indexFailed. reflexivity.
Qed.

(** *** Polling configuration *)

Lemma searchSummary_run (query repository : string) (limit : Z) (branch : string) (w : World) :
  Integration.searchSummary GO_SERVER_URL backend query repository limit branch w =
  (match settle (serve backend (trace w) (summaryRequest query repository limit branch w)) with
   | Fulfilled response => Fulfilled (inl (textResult (Js.stringify (response_data response))))
   | Rejected error => Fulfilled (inr error)
   end,
   sentWorld w (Sent (summaryRequest query repository limit branch w))).
Proof.
  unfold Integration.searchSummary, Integration.getAuthHeader, axios_post, axios. run. simpl.
  unfold Integration.summaryRequest.
  destruct (settle _); reflexivity.
Qed.

Lemma summaryAttempts_step (query repository : string) (limit : Z) (branch : string)
    (left : nat) (indexed : bool) (lastError : option JsError) (w : World) :
  summaryAttempts query repository limit branch (S left) indexed lastError w =
  let w1 := sentWorld w (Sent (summaryRequest query repository limit branch w)) in
  match settle (serve backend (trace w) (summaryRequest query repository limit branch w)) with
  | Fulfilled response =>
      (Fulfilled (textResult (Js.stringify (response_data response))), w1)
  | Rejected error =>
      match Integration.summaryNotIndexed error with
      | Rejected thrown => (Rejected thrown, w1)
      | Fulfilled false =>
          (Fulfilled (textResult (Integration.giveUpText repository (Some error))), w1)
      | Fulfilled true =>
          if negb indexed then
            match protectedAxios (indexRequest repository) w1 with
            | (Fulfilled indexResult, w2) =>
                if Integration.indexFailed indexResult
                then (Fulfilled (textResult (Integration.indexFailedText repository indexResult)), w2)
                else summaryAttempts query repository limit branch left true (Some error)
                       (sentWorld w2 (Slept 10000))
            | (Rejected thrown, w2) => (Rejected thrown, w2)
            end
          else if 6 - Z.of_nat (S left) <? 5
          then summaryAttempts query repository limit branch left indexed (Some error)
                 (sentWorld w1 (Slept 10000))
          else (Fulfilled (textResult (Integration.giveUpText repository (Some error))), w1)
      end
  end.
Proof.
  cbv zeta.
  change (summaryAttempts query repository limit branch (S left) indexed lastError w)
    with (bind (Integration.searchSummary GO_SERVER_URL backend query repository limit branch)
            (fun outcome =>
               match outcome with
               | inl result => ret result
               | inr error =>
                   bind (settled (Integration.summaryNotIndexed error))
                     (fun retryable =>
                        if retryable then
                          if negb indexed then
                            bind (protectedAxios (indexRequest repository))
                              (fun indexResult =>
                                 if Integration.indexFailed indexResult
                                 then ret (textResult
                                             (Integration.indexFailedText repository indexResult))
                                 else bind (delay 10000)
                                        (fun _ => summaryAttempts query repository limit branch
                                                    left true (Some error)))
                          else if 6 - Z.of_nat (S left) <? 5 then
                            bind (delay 10000)
                              (fun _ => summaryAttempts query repository limit branch
                                          left indexed (Some error))
                          else ret (textResult (Integration.giveUpText repository (Some error)))
                        else ret (textResult (Integration.giveUpText repository (Some error))))
               end) w).
  unfold bind at 1. rewrite searchSummary_run.
  destruct (settle _) as [response|error]; [reflexivity|].
  run.
  destruct (Integration.summaryNotIndexed error) as [[|]|thrown]; try reflexivity.
  destruct indexed; cbn [negb].
  - destruct (6 - Z.of_nat (S left) <? 5); reflexivity.
  - destruct (protectedAxios _ _) as [[indexResult|thrown] w2]; [|reflexivity].
    destruct (Integration.indexFailed indexResult); reflexivity.
Qed.

Lemma vectorSearchWithSummary_no_token
    (query repository : string) (limit : Z) (branch : string) (w : World) :
  hasToken w = false ->
  vectorSearchWithSummary query repository limit branch w
  = (Fulfilled (textResult noTokenMessage), w).
Proof. unfold hasToken, Integration.vectorSearchWithSummary. run. intros ->. reflexivity. Qed.

Lemma vectorSearchWithSummary_run
    (query repository : string) (limit : Z) (branch : string) (w : World) :
  hasToken w = true ->
  vectorSearchWithSummary query repository limit branch w
  = summaryAttempts query repository limit branch 6 false None w.
Proof. unfold hasToken, Integration.vectorSearchWithSummary. run. intros ->. reflexivity. Qed.

(** *** What one reply does to a run *)

Lemma settle_ok (code : Z) (body : json) :
  200 <= code < 300 ->
  settle (Replied code body) = Fulfilled {| status := code; response_data := body |}.
Proof.
  intros [lo hi]. simpl.
  apply Z.leb_le in lo. apply Z.ltb_lt in hi. rewrite lo, hi. reflexivity.
Qed.

Lemma vectorSearch_success
    (query repository : string) (limit : Z) (w : World) (code : Z) (payload : json) :
  hasToken w = true ->
  serve backend (trace w) (Integration.outgoing (searchRequest query repository limit) w)
  = Replied code payload ->
  200 <= code < 300 ->
  Integration.searchNeedsIndexing payload = Fulfilled false ->
  vectorSearch query repository limit w
  = (Fulfilled (textResult (Js.stringify payload)),
     sentWorld w (Sent (Integration.outgoing (searchRequest query repository limit) w))).
Proof.
  intros Htok Hreply Hcode Hplain.
  rewrite (vectorSearch_run _ _ _ _ Htok), (protectedAxios_run _ _ _ _ Htok). cbv zeta.
  rewrite Hreply, (settle_ok _ _ Hcode). cbn [response_data].
  rewrite recoverOrReport_run, Hplain. reflexivity.
Qed.

Lemma chatSearch_success
    (message repository : string) (w : World) (code : Z) (payload : json) :
  hasToken w = true ->
  serve backend (trace w) (Integration.outgoing (searchRequest message repository 5) w)
  = Replied code payload ->
  200 <= code < 300 ->
  Integration.searchNeedsIndexing payload = Fulfilled false ->
  chatSearch message repository w
  = (Fulfilled (textResult (Js.stringify payload)),
     sentWorld w (Sent (Integration.outgoing (searchRequest message repository 5) w))).
Proof.
  intros Htok Hreply Hcode Hplain.
  rewrite (chatSearch_run _ _ _ Htok), (protectedAxios_run _ _ _ _ Htok). cbv zeta.
  rewrite Hreply, (settle_ok _ _ Hcode). cbn [response_data].
  rewrite recoverOrReport_run, Hplain. reflexivity.
Qed.

Lemma vectorSearch_auth_failure (query repository : string) (limit : Z) (w : World) :
  hasToken w = true ->
  isAuthReply (serve backend (trace w)
                 (Integration.outgoing (searchRequest query repository limit) w)) = true ->
  vectorSearch query repository limit w
  = (Fulfilled (textResult (Integration.indexFailedText repository
                              (Integration.errorObject noTokenMessage))),
     clearedWorld
       (sentWorld w (Sent (Integration.outgoing (searchRequest query repository limit) w)))).
Proof.
  intros Htok Hreply.
  rewrite (vectorSearch_run _ _ _ _ Htok), (protectedAxios_run _ _ _ _ Htok). cbv zeta.
  destruct (settle_auth _ Hreply) as (error & -> & ->).
  apply recover_after_auth_failure.
Qed.

Lemma chatSearch_auth_failure (message repository : string) (w : World) :
  hasToken w = true ->
  isAuthReply (serve backend (trace w)
                 (Integration.outgoing (searchRequest message repository 5) w)) = true ->
  chatSearch message repository w
  = (Fulfilled (textResult (Integration.indexFailedText repository
                              (Integration.errorObject noTokenMessage))),
     clearedWorld
       (sentWorld w (Sent (Integration.outgoing (searchRequest message repository 5) w)))).
Proof.
  intros Htok Hreply.
  rewrite (chatSearch_run _ _ _ Htok), (protectedAxios_run _ _ _ _ Htok). cbv zeta.
  destruct (settle_auth _ Hreply) as (error & -> & ->).
  rewrite recover_after_auth_failure. reflexivity.
Qed.



Lemma summaryAttempts_success
    (query repository : string) (limit : Z) (branch : string)
    (left : nat) (indexed : bool) (lastError : option JsError) (w : World)
    (code : Z) (payload : json) :
  serve backend (trace w) (summaryRequest query repository limit branch w)
  = Replied code payload ->
  200 <= code < 300 ->
  summaryAttempts query repository limit branch (S left) indexed lastError w
  = (Fulfilled (textResult (Js.stringify payload)),
     sentWorld w (Sent (summaryRequest query repository limit branch w))).
Proof.
  intros Hreply Hcode.
  rewrite summaryAttempts_step. cbv zeta.
  rewrite Hreply, (settle_ok _ _ Hcode). reflexivity.
Qed.

Lemma summaryAttempts_other_failure
    (query repository : string) (limit : Z) (branch : string)
    (left : nat) (indexed : bool) (lastError : option JsError) (w : World)
    (error : JsError) :
  settle (serve backend (trace w) (summaryRequest query repository limit branch w))
  = Rejected error ->
  Integration.summaryNotIndexed error = Fulfilled false ->
  summaryAttempts query repository limit branch (S left) indexed lastError w
  = (Fulfilled (textResult (Integration.giveUpText repository (Some error))),
     sentWorld w (Sent (summaryRequest query repository limit branch w))).
Proof.
  intros Hreply Hclass.
  rewrite summaryAttempts_step. cbv zeta.
  rewrite Hreply, Hclass. reflexivity.
Qed.

End Orchestrators.

(** *** Classification *)




Lemma summaryNotIndexed_of_other_status (error : JsError) :
  Integration.isMissingStatus error = false ->
  Integration.summaryNotIndexed error = Integration.summaryNotFound error.
Proof.
  intros Hs. unfold Integration.summaryNotIndexed. rewrite Hs.
  destruct (Integration.summaryNotFound error) as [b|thrown]; [|reflexivity].
  now rewrite orb_false_r.
Qed.


(** *** Failures and payloads that are not classified *)

Lemma includes_needs_first_char (c : ascii) (rest s : string) :
  (forall n, String.get n s <> Some c) ->
  JsString.includes s (String c rest) = false.
Proof.
  induction s as [|a s IH]; intros Hc; [reflexivity|].
  cbn [JsString.includes String.prefix].
  destruct (Ascii.ascii_dec c a) as [->|Hne].
  - exfalso. apply (Hc 0%nat). reflexivity.
  - simpl. apply IH. intros n. apply (Hc (S n)).
Qed.

Lemma decimal_has_no_letter (d : Decimal.uint) (n : nat) :
  String.get n (JsString.toLowerCase (NilEmpty.string_of_uint d)) <> Some "n"%char.
Proof.
  revert n. induction d; intros [|n]; simpl; try discriminate; apply IHd.
Qed.

(** The message axios gives a failed status never says "not found". *)
Lemma status_message_is_quiet (code : Z) :
  JsString.includes
    (JsString.toLowerCase ("Request failed with status code " ++ JsString.ofZ code))
    "not found" = false.
Proof.
  apply includes_needs_first_char. intros n.
  do 32 (destruct n as [|n]; [simpl; discriminate|]).
  change (String.get n (JsString.toLowerCase (JsString.ofZ code)) <> Some "n"%char).
  unfold JsString.ofZ, NilEmpty.string_of_int.
  destruct (Z.to_int code) as [d|d].
  - apply decimal_has_no_letter.
  - destruct n as [|n]; [simpl; discriminate|]. apply decimal_has_no_letter.
Qed.

(** A failure whose body carries no message, a falsy one, or a string that
    names neither phrase, and whose own message does not say "not found",
    is not flagged by the [catch] block. *)
Lemma summaryNotFound_quiet (error : JsError) :
  (forall r m,
      response error = Some r ->
      Js.get (response_data r) "message" = Some m ->
      Js.truthy m = true ->
      exists s, m = JStr s
                /\ JsString.includes (JsString.toLowerCase s) "not found" = false
                /\ JsString.includes (JsString.toLowerCase s) "not indexed" = false) ->
  JsString.includes (JsString.toLowerCase (message error)) "not found" = false ->
  Integration.summaryNotFound error = Fulfilled false.
Proof.
  intros Hbody Hmessage.
  unfold Integration.summaryNotFound, Integration.responseDataOf, errorText.
  destruct (response error) as [r|] eqn:Hr; [|simpl; now rewrite Hmessage].
  specialize (Hbody r).
  destruct (response_data r) as [ |b|n|t|items|fields] eqn:Hd; simpl;
    try (now rewrite Hmessage).
  - destruct b; simpl; now rewrite Hmessage.
  - destruct (n =? 0); simpl; rewrite ?andb_false_r; now rewrite Hmessage.
  - destruct (String.eqb t EmptyString); simpl; rewrite ?andb_false_r; now rewrite Hmessage.
  - reflexivity.
  - simpl in Hbody.
    destruct (Js.lookup "message" fields) as [m|]; [|reflexivity].
    destruct (Js.truthy m) eqn:Hm; [|reflexivity].
    destruct (Hbody m eq_refl eq_refl Hm) as (t & -> & Hfound & Hindexed).
    simpl. now rewrite Hfound, Hindexed.
Qed.

Lemma settle_failed_status (code : Z) (body : json) :
  ~ 200 <= code < 300 ->
  settle (Replied code body)
  = Rejected {| message := "Request failed with status code " ++ JsString.ofZ code;
                response := Some {| status := code; response_data := body |} |}.
Proof.
  intros Hcode. unfold settle.
  assert (((200 <=? code) && (code <? 300)) = false) as ->; [|reflexivity].
  apply andb_false_iff.
  destruct (Z.leb_spec 200 code); [|now left].
  destruct (Z.ltb_spec code 300); [|now right]. exfalso. apply Hcode. lia.
Qed.

(** The same for a failed reply, read off the reply itself. *)
Lemma quiet_status_is_not_indexed (code : Z) (body : json) :
  ~ 200 <= code < 300 ->
  code <> 404 -> code <> 500 ->
  (forall m,
      Js.get body "message" = Some m ->
      Js.truthy m = true ->
      exists s, m = JStr s
                /\ JsString.includes (JsString.toLowerCase s) "not found" = false
                /\ JsString.includes (JsString.toLowerCase s) "not indexed" = false) ->
  exists error,
    settle (Replied code body) = Rejected error
    /\ message error = "Request failed with status code " ++ JsString.ofZ code
    /\ Integration.summaryNotIndexed error = Fulfilled false.
Proof.
  intros Hcode H404 H500 Hbody.
  eexists. split; [apply settle_failed_status, Hcode|]. split; [reflexivity|].
  rewrite summaryNotIndexed_of_other_status.
  - apply summaryNotFound_quiet.
    + intros r m [= <-]. apply Hbody.
    + apply status_message_is_quiet.
  - unfold Integration.isMissingStatus. cbn [response status].
    apply orb_false_iff. split; apply Z.eqb_neq; assumption.
Qed.

Lemma quiet_error_is_not_indexed (reason : string) :
  JsString.includes (JsString.toLowerCase reason) "not found" = false ->
  Integration.summaryNotIndexed {| message := reason; response := None |} = Fulfilled false.
Proof.
  intros Hreason. rewrite summaryNotIndexed_of_other_status by reflexivity.
  apply summaryNotFound_quiet; [intros r m H; discriminate H|exact Hreason].
Qed.

Lemma isString_other (v : option json) (s : string) :
  v <> Some (JStr s) -> Js.isString v s = false.
Proof.
  intros Hv. destruct v as [[ | | |t| | ]|]; try reflexivity.
  simpl. destruct (String.eqb_spec t s) as [->|]; [now contradiction Hv|reflexivity].
Qed.

Lemma isNumber_other (v : option json) (n : Z) :
  v <> Some (JNum n) -> Js.isNumber v n = false.
Proof.
  intros Hv. destruct v as [[ | |k| | | ]|]; try reflexivity.
  simpl. destruct (Z.eqb_spec k n) as [->|]; [now contradiction Hv|reflexivity].
Qed.

(** A payload with none of the four markers does not ask for indexing,
    provided its message, when it has a truthy one, is a string. *)
Lemma searchNeedsIndexing_plain (payload : json) :
  Js.truthyOpt (Js.get payload "error") = false ->
  Js.get payload "status" <> Some (JStr "error") ->
  Js.get payload "status_code" <> Some (JNum 500) ->
  (forall m,
      Js.get payload "message" = Some m ->
      Js.truthy m = true ->
      exists s, m = JStr s
                /\ JsString.includes (JsString.toLowerCase s) "not found" = false) ->
  Integration.searchNeedsIndexing payload = Fulfilled false.
Proof.
  intros Herror Hstatus Hcode Hmessage.
  unfold Integration.searchNeedsIndexing.
  destruct (Js.truthy payload); [|reflexivity]. cbn [negb].
  rewrite Herror, (isString_other _ _ Hstatus), (isNumber_other _ _ Hcode).
  destruct (Js.get payload "message") as [m|]; [|reflexivity].
  destruct (Js.truthy m) eqn:Hm; [|reflexivity].
  destruct (Hmessage m eq_refl Hm) as (s & -> & Hs).
  simpl. now rewrite Hs.
Qed.

(** *** The polling loop, round by round *)

Lemma sentTo_app (target : string) (a b : list Event) :
  sentTo target (a ++ b) = (sentTo target a + sentTo target b)%nat.
Proof.
  induction a as [|e a IH]; simpl; [reflexivity|].
  destruct e as [options| |]; try exact IH.
  destruct (String.eqb (url options) target); simpl; now rewrite IH.
Qed.

(** Closes a [Forall] goal over an explicit list of events followed by a
    tail that is already known to satisfy the predicate. *)
Ltac events_ok :=
  repeat first
    [ assumption
    | apply Forall_nil
    | apply Forall_cons; [first [reflexivity | exact I]|]
    | apply Forall_app; split ].

Section Polling.

Variable GO_SERVER_URL : string.
Variable backend : Backend.
Variables (query repository : string) (limit : Z) (branch : string).

Local Abbreviation protectedAxios := (Integration.protectedAxios GO_SERVER_URL backend).
Local Abbreviation indexRequest := (Integration.indexRequest GO_SERVER_URL repository).
Local Abbreviation summaryRequest :=
  (Integration.summaryRequest GO_SERVER_URL query repository limit branch).
Local Abbreviation summaryAttempts :=
  (Integration.summaryAttempts GO_SERVER_URL backend query repository limit branch).
Local Abbreviation searchUrl := (GO_SERVER_URL ++ "/search/summary").
Local Abbreviation indexUrl := (GO_SERVER_URL ++ "/index").

Lemma first_round (left : nat) (lastError : option JsError) (w : World)
    (error : JsError) (response : Response) :
  hasToken w = true ->
  settle (serve backend (trace w) (summaryRequest w)) = Rejected error ->
  Integration.summaryNotIndexed error = Fulfilled true ->
  settle (serve backend (trace w ++ [Sent (summaryRequest w)])
            (Integration.outgoing indexRequest w)) = Fulfilled response ->
  Integration.indexFailed (response_data response) = false ->
  summaryAttempts (S left) false lastError w
  = summaryAttempts left true (Some error)
      (sentWorld (sentWorld (sentWorld w (Sent (summaryRequest w)))
                            (Sent (Integration.outgoing indexRequest w)))
                 (Slept 10000)).
Proof.
  intros Htok Hsearch Hclass Hindex Haccepted.
  rewrite summaryAttempts_step. cbv zeta.
  rewrite Hsearch, Hclass. cbn [negb].
  rewrite protectedAxios_run by exact Htok. cbv zeta.
  change (trace (sentWorld w (Sent (summaryRequest w))))
    with (trace w ++ [Sent (summaryRequest w)])%list.
  change (Integration.outgoing indexRequest (sentWorld w (Sent (summaryRequest w))))
    with (Integration.outgoing indexRequest w).
  rewrite Hindex, Haccepted. reflexivity.
Qed.

Lemma retry_round (left : nat) (lastError : option JsError) (w : World) (error : JsError) :
  settle (serve backend (trace w) (summaryRequest w)) = Rejected error ->
  Integration.summaryNotIndexed error = Fulfilled true ->
  (0 < left)%nat ->
  summaryAttempts (S left) true lastError w
  = summaryAttempts left true (Some error)
      (sentWorld (sentWorld w (Sent (summaryRequest w))) (Slept 10000)).
Proof.
  intros Hsearch Hclass Hleft.
  rewrite summaryAttempts_step. cbv zeta.
  rewrite Hsearch, Hclass. cbn [negb].
  assert ((6 - Z.of_nat (S left) <? 5) = true) as -> by (apply Z.ltb_lt; lia).
  reflexivity.
Qed.

Lemma last_round (lastError : option JsError) (w : World) (error : JsError) :
  settle (serve backend (trace w) (summaryRequest w)) = Rejected error ->
  Integration.summaryNotIndexed error = Fulfilled true ->
  summaryAttempts 1 true lastError w
  = (Fulfilled (textResult (Integration.giveUpText repository (Some error))),
     sentWorld w (Sent (summaryRequest w))).
Proof.
  intros Hsearch Hclass.
  rewrite summaryAttempts_step. cbv zeta.
  rewrite Hsearch, Hclass. reflexivity.
Qed.

(** Addresses of the two kinds of request. *)
Lemma search_is_search (w : World) : String.eqb (url (summaryRequest w)) searchUrl = true.
Proof. apply String.eqb_refl. Qed.

Lemma search_is_not_index (w : World) : String.eqb (url (summaryRequest w)) indexUrl = false.
Proof. simpl. now rewrite eqb_append_l. Qed.

Lemma index_is_index (w : World) :
  String.eqb (url (Integration.outgoing indexRequest w)) indexUrl = true.
Proof. apply String.eqb_refl. Qed.

Lemma index_is_not_search (w : World) :
  String.eqb (url (Integration.outgoing indexRequest w)) searchUrl = false.
Proof. simpl. now rewrite eqb_append_l. Qed.

(** What a polling run can add to the trace, whatever the backend does:
    at most [left] summary searches, at most one index request and none once
    indexing has been triggered, no request timeout, waits of 10000 ms. *)
Lemma summaryAttempts_trace (left : nat) :
  forall (indexed : bool) (lastError : option JsError) (w : World),
  exists new,
    trace (snd (summaryAttempts left indexed lastError w)) = (trace w ++ new)%list
    /\ (sentTo searchUrl new <= left)%nat
    /\ (sentTo indexUrl new <= if indexed then 0 else 1)%nat
    /\ Forall (carriesTimeout None) new
    /\ Forall (waitsFor 10000) new.
Proof.
  induction left as [|left IH]; intros indexed lastError w.
  - exists []. simpl. rewrite app_nil_r.
    split; [reflexivity|]. split; [lia|]. split; [destruct indexed; lia|].
    split; constructor.
  - rewrite summaryAttempts_step. cbv zeta.
    set (s := summaryRequest w).
    assert (Hone : exists new,
               trace (sentWorld w (Sent s)) = (trace w ++ new)%list
               /\ (sentTo searchUrl new <= S left)%nat
               /\ (sentTo indexUrl new <= if indexed then 0 else 1)%nat
               /\ Forall (carriesTimeout None) new
               /\ Forall (waitsFor 10000) new).
    { exists [Sent s]. split; [reflexivity|]. cbn [sentTo]. subst s.
      rewrite search_is_search, search_is_not_index.
      split; [lia|]. split; [destruct indexed; lia|].
      split; events_ok. }
    destruct (settle _) as [response|error]; [exact Hone|].
    destruct (Integration.summaryNotIndexed error) as [[|]|thrown]; try exact Hone.
    destruct indexed; cbn [negb].
    + destruct (6 - Z.of_nat (S left) <? 5); [|exact Hone].
      destruct (IH true (Some error) (sentWorld (sentWorld w (Sent s)) (Slept 10000)))
        as (new & Htrace & Hs & Hi & Ht & Hw).
      exists ([Sent s; Slept 10000] ++ new)%list.
      rewrite Htrace. simpl trace. rewrite <- !app_assoc.
      split; [reflexivity|]. rewrite !sentTo_app. cbn [sentTo]. subst s.
      rewrite search_is_search, search_is_not_index.
      split; [lia|]. split; [lia|].
      split; events_ok.
    + assert (Htwo : forall token,
                 exists new,
                   trace {| OAUTH_TOKEN := token;
                            trace := trace (sentWorld (sentWorld w (Sent s))
                                       (Sent (Integration.outgoing indexRequest w))) |}
                   = (trace w ++ new)%list
                   /\ (sentTo searchUrl new <= S left)%nat
                   /\ (sentTo indexUrl new <= 1)%nat
                   /\ Forall (carriesTimeout None) new
                   /\ Forall (waitsFor 10000) new).
      { intros token. exists [Sent s; Sent (Integration.outgoing indexRequest w)].
        simpl trace. rewrite <- !app_assoc. split; [reflexivity|].
        cbn [sentTo]. subst s.
        rewrite search_is_search, search_is_not_index, index_is_index, index_is_not_search.
        split; [lia|]. split; [lia|].
        split; events_ok. }
      destruct (hasToken (sentWorld w (Sent s))) eqn:Htok.
      * rewrite protectedAxios_run by exact Htok. cbv zeta.
        change (Integration.outgoing indexRequest (sentWorld w (Sent s)))
          with (Integration.outgoing indexRequest w).
        destruct (settle _) as [response|indexError].
        -- destruct (Integration.indexFailed _).
           ++ exact (Htwo (OAUTH_TOKEN w)).
           ++ destruct (IH true (Some error)
                          (sentWorld (sentWorld (sentWorld w (Sent s))
                                        (Sent (Integration.outgoing indexRequest w)))
                                     (Slept 10000)))
                as (new & Htrace & Hs & Hi & Ht & Hw).
              exists ([Sent s; Sent (Integration.outgoing indexRequest w); Slept 10000]
                      ++ new)%list.
              rewrite Htrace. simpl trace. rewrite <- !app_assoc.
              split; [reflexivity|]. rewrite !sentTo_app. cbn [sentTo]. subst s.
              rewrite search_is_search, search_is_not_index, index_is_index,
                index_is_not_search.
              split; [lia|]. split; [lia|].
              split; events_ok.
        -- destruct (Integration.isAuthStatus indexError).
           ++ rewrite errorObject_indexFailed. exact (Htwo None).
           ++ exact (Htwo (OAUTH_TOKEN w)).
      * rewrite protectedAxios_no_token by exact Htok.
        rewrite errorObject_indexFailed.
        destruct Hone as (new & Htrace & Hs & Hi & Ht & Hw).
        exists new. split; [exact Htrace|]. split; [exact Hs|].
        split; [lia|]. split; assumption.
Qed.

(** A run whose every search is answered "not indexed" and whose index
    request is accepted: six searches, one index request, five waits. *)
Lemma polling_exhausts_budget (w : World) :
  hasToken w = true ->
  (forall seen, exists error,
      settle (serve backend seen (summaryRequest w)) = Rejected error
      /\ Integration.summaryNotIndexed error = Fulfilled true) ->
  (exists response,
      settle (serve backend (trace w ++ [Sent (summaryRequest w)])
                (Integration.outgoing indexRequest w)) = Fulfilled response
      /\ Integration.indexFailed (response_data response) = false) ->
  let s := Sent (summaryRequest w) in
  let i := Sent (Integration.outgoing indexRequest w) in
  let z := Slept 10000 in
  exists lastError,
    summaryAttempts 6 false None w
    = (Fulfilled (textResult (Integration.giveUpText repository (Some lastError))),
       {| OAUTH_TOKEN := OAUTH_TOKEN w;
          trace := trace w ++ [s; i; z; s; z; s; z; s; z; s; z; s] |})
    /\ settle (serve backend (trace w ++ [s; i; z; s; z; s; z; s; z; s; z])
                 (summaryRequest w)) = Rejected lastError.
Proof.
  intros Htok Hsearch (response & Hindex & Haccepted) s i z.
  destruct (Hsearch (trace w)) as (e0 & H0 & C0).
  rewrite (first_round 5 None w e0 response Htok H0 C0 Hindex Haccepted).
  fold s i z.
  set (w1 := sentWorld (sentWorld (sentWorld w s) i) z).
  destruct (Hsearch (trace w1)) as (e1 & H1 & C1).
  rewrite (retry_round 4 (Some e0) w1 e1 H1 C1 ltac:(lia)).
  set (w2 := sentWorld (sentWorld w1 (Sent (summaryRequest w1))) (Slept 10000)).
  destruct (Hsearch (trace w2)) as (e2 & H2 & C2).
  rewrite (retry_round 3 (Some e1) w2 e2 H2 C2 ltac:(lia)).
  set (w3 := sentWorld (sentWorld w2 (Sent (summaryRequest w2))) (Slept 10000)).
  destruct (Hsearch (trace w3)) as (e3 & H3 & C3).
  rewrite (retry_round 2 (Some e2) w3 e3 H3 C3 ltac:(lia)).
  set (w4 := sentWorld (sentWorld w3 (Sent (summaryRequest w3))) (Slept 10000)).
  destruct (Hsearch (trace w4)) as (e4 & H4 & C4).
  rewrite (retry_round 1 (Some e3) w4 e4 H4 C4 ltac:(lia)).
  set (w5 := sentWorld (sentWorld w4 (Sent (summaryRequest w4))) (Slept 10000)).
  destruct (Hsearch (trace w5)) as (e5 & H5 & C5).
  rewrite (last_round (Some e4) w5 e5 H5 C5).
  exists e5. split.
  - f_equal. unfold sentWorld. cbn [OAUTH_TOKEN trace w5 w4 w3 w2 w1 sentWorld].
    f_equal. rewrite <- !app_assoc. reflexivity.
  - clear - H5. cbn [OAUTH_TOKEN trace w5 w4 w3 w2 w1 sentWorld] in H5.
    rewrite <- !app_assoc in H5. exact H5.
Qed.


End Polling.

(** ** The legacy variant *)

Section LegacyFacts.

Variable GO_SERVER_URL : string.
Variable MCP_SECRET_TOKEN : option string.
Variable backend : Backend.

Local Abbreviation searchRequest := (Legacy.searchRequest GO_SERVER_URL MCP_SECRET_TOKEN).
Local Abbreviation indexRepositoryRequest :=
  (Legacy.indexRepositoryRequest GO_SERVER_URL MCP_SECRET_TOKEN).
Local Abbreviation searchAttempt := (Legacy.searchAttempt GO_SERVER_URL MCP_SECRET_TOKEN backend).
Local Abbreviation indexRepository :=
  (Legacy.indexRepository GO_SERVER_URL MCP_SECRET_TOKEN backend).
Local Abbreviation vectorSearch := (Legacy.vectorSearch GO_SERVER_URL MCP_SECRET_TOKEN backend).

Lemma searchAttempt_run (query repository : string) (limit : Z) (w : World) :
  searchAttempt query repository limit w =
  (match settle (serve backend (trace w) (searchRequest query repository limit)) with
   | Fulfilled response => Fulfilled (textResult (Js.stringify (response_data response)))
   | Rejected error => Fulfilled (Legacy.failureEnvelope "Search failed: " error)
   end,
   sentWorld w (Sent (searchRequest query repository limit))).
Proof.
  unfold Legacy.searchAttempt, axios_post, axios. run. simpl.
  unfold Legacy.searchRequest.
  destruct (settle _); reflexivity.
Qed.


Lemma failureEnvelope_has_no_results (label : string) (error : JsError) :
  Legacy.hasResults (Legacy.failureEnvelope label error) = false.
Proof. reflexivity. Qed.

(** The whole tool in one equation: the two attempts, then the read of
    [server.tools] for a truthy [repoUrl]. *)
Lemma legacy_vectorSearch_run
    (query repository : string) (limit : Z) (repoUrl : option string) (branch : string)
    (w : World) :
  let s := Sent (searchRequest query repository limit) in
  let w1 := sentWorld w s in
  let w2 := sentWorld w1 s in
  exists first second,
    searchAttempt query repository limit w = (Fulfilled first, w1)
    /\ searchAttempt query repository limit w1 = (Fulfilled second, w2)
    /\ vectorSearch query repository limit repoUrl branch w
       = (if Legacy.hasResults first then (Fulfilled first, w1)
          else if Legacy.hasResults second then (Fulfilled second, w2)
          else if tokenTruthy repoUrl
               then (Rejected (JsText.cannotRead "undefined" "indexRepository"), w2)
               else (Fulfilled second, w2)).
Proof.
  intros s w1 w2.
  pose proof (searchAttempt_run query repository limit w) as H1.
  pose proof (searchAttempt_run query repository limit w1) as H2.
  fold s in H1, H2. fold w1 in H1. fold w2 in H2.
  assert (E1 : exists first, searchAttempt query repository limit w = (Fulfilled first, w1)).
  { rewrite H1. clear H1 H2.
    destruct (settle (serve backend (trace w) (searchRequest query repository limit)));
      eexists; reflexivity. }
  assert (E2 : exists second, searchAttempt query repository limit w1 = (Fulfilled second, w2)).
  { rewrite H2. clear H1 H2 E1.
    destruct (settle (serve backend (trace w1) (searchRequest query repository limit)));
      eexists; reflexivity. }
  clear H1 H2. destruct E1 as (first & E1). destruct E2 as (second & E2).
  exists first, second. split; [exact E1|]. split; [exact E2|].
  unfold Legacy.vectorSearch. unfold bind at 1. rewrite E1.
  destruct (Legacy.hasResults first); [reflexivity|].
  unfold bind at 1. rewrite E2.
  destruct (Legacy.hasResults second); [reflexivity|].
  destruct repoUrl as [target|]; [|reflexivity].
  destruct (tokenTruthy (Some target)); reflexivity.
Qed.

Lemma legacy_first_hit
    (query repository : string) (limit : Z) (repoUrl : option string) (branch : string)
    (w : World) (code : Z) (payload : json) :
  serve backend (trace w) (searchRequest query repository limit) = Replied code payload ->
  200 <= code < 300 ->
  Legacy.hasResults (textResult (Js.stringify payload)) = true ->
  vectorSearch query repository limit repoUrl branch w
  = (Fulfilled (textResult (Js.stringify payload)),
     sentWorld w (Sent (searchRequest query repository limit))).
Proof.
  intros Hreply Hcode Hhit.
  unfold Legacy.vectorSearch. unfold bind at 1.
  rewrite searchAttempt_run, Hreply, (settle_ok _ _ Hcode). cbn [response_data].
  rewrite Hhit. reflexivity.
Qed.

Lemma legacy_second_attempt
    (query repository : string) (limit : Z) (repoUrl : option string) (branch : string)
    (w : World) (code : Z) (payload : json) :
  serve backend (trace w) (searchRequest query repository limit) = Replied code payload ->
  200 <= code < 300 ->
  Legacy.hasResults (textResult (Js.stringify payload)) = false ->
  trace (snd (vectorSearch query repository limit repoUrl branch w))
  = (trace w ++ [Sent (searchRequest query repository limit);
                 Sent (searchRequest query repository limit)])%list.
Proof.
  intros Hreply Hcode Hmiss.
  destruct (legacy_vectorSearch_run query repository limit repoUrl branch w)
    as (first & second & E1 & _ & ->).
  rewrite searchAttempt_run, Hreply, (settle_ok _ _ Hcode) in E1. cbn [response_data] in E1.
  injection E1 as <-. rewrite Hmiss.
  destruct (Legacy.hasResults second); [|destruct (tokenTruthy repoUrl)];
    simpl; rewrite <- app_assoc; reflexivity.
Qed.


End LegacyFacts.

(** ** Claims about the protected executors, at concrete inputs *)

Lemma no_credential_no_request_witness :
  Integration.protectedAxios Scenario.base Scenario.finding
    (Integration.searchRequest Scenario.base "auth flow" "octo/widgets" 5) Scenario.signedOut
  = (Fulfilled (Integration.errorObject (Integration.noTokenMessage Scenario.base)),
     Scenario.signedOut).
Proof.
  apply (no_credential_no_request Scenario.base Scenario.finding Scenario.noParse
           (Integration.searchRequest Scenario.base "auth flow" "octo/widgets" 5)
           "http://localhost:8081/search"
           {| fetch_method := None; fetch_headers := []; fetch_body := None |}
           Scenario.signedOut).
  reflexivity.
Defined.

Lemma auth_failure_clears_credential_witness :
  hasToken (snd (Integration.protectedAxios Scenario.base Scenario.forbidden
                   (Integration.searchRequest Scenario.base "auth flow" "octo/widgets" 5)
                   Scenario.signedIn)) = false
  /\ hasToken (snd (Integration.protectedFetch Scenario.base Scenario.forbidden Scenario.noParse
                      "http://localhost:8081/search"
                      {| fetch_method := None; fetch_headers := []; fetch_body := None |}
                      Scenario.signedIn)) = false.
Proof.
  destruct (auth_failure_clears_credential Scenario.base Scenario.forbidden Scenario.noParse
              (Integration.searchRequest Scenario.base "auth flow" "octo/widgets" 5)
              "http://localhost:8081/search"
              {| fetch_method := None; fetch_headers := []; fetch_body := None |}
              Scenario.signedIn eq_refl) as (Haxios & Hfetch & _).
  split.
  - apply (Haxios eq_refl).
  - apply (Hfetch eq_refl).
Defined.

Lemma credential_frame_witness :
  OAUTH_TOKEN (snd (Integration.protectedAxios Scenario.base Scenario.failing
                      (Integration.searchRequest Scenario.base "auth flow" "octo/widgets" 5)
                      Scenario.signedIn)) = Some "tok"
  /\ OAUTH_TOKEN (snd (Integration.protectedAxios Scenario.base Scenario.timingOut
                         (Integration.searchRequest Scenario.base "auth flow" "octo/widgets" 5)
                         Scenario.signedIn)) = Some "tok"
  /\ OAUTH_TOKEN (snd (Integration.protectedAxios Scenario.base Scenario.finding
                         (Integration.searchRequest Scenario.base "auth flow" "octo/widgets" 5)
                         Scenario.signedIn)) = Some "tok".
Proof.
  pose (options := Integration.searchRequest Scenario.base "auth flow" "octo/widgets" 5).
  pose (init := {| fetch_method := None; fetch_headers := []; fetch_body := None |}).
  split; [|split].
  - apply (proj1 (credential_frame Scenario.base Scenario.failing Scenario.noParse
                    options "http://localhost:8081/search" init 0 Scenario.signedIn)).
    reflexivity.
  - apply (proj1 (credential_frame Scenario.base Scenario.timingOut Scenario.noParse
                    options "http://localhost:8081/search" init 0 Scenario.signedIn)).
    reflexivity.
  - apply (proj1 (credential_frame Scenario.base Scenario.finding Scenario.noParse
                    options "http://localhost:8081/search" init 0 Scenario.signedIn)).
    reflexivity.
Defined.

(** ** Claims about the orchestrators *)



(** Past its two commands the chat tool is its search path. *)
Lemma chat_plain_message (GO_SERVER_URL : string) (backend : Backend)
    (message repository : string) :
  JsString.startsWith (JsText.trim message) "/set-token " = false ->
  JsString.startsWith (JsText.trim message) "/index-repo " = false ->
  Tools.chat GO_SERVER_URL backend message repository
  = Integration.chatSearch GO_SERVER_URL backend message repository.
Proof. intros Hset Hindex. unfold Tools.chat. now rewrite Hset, Hindex. Qed.

Section Claims.

Variable GO_SERVER_URL : string.
Variable MCP_SECRET_TOKEN : option string.
Variable backend : Backend.

Local Abbreviation chat := (Tools.chat GO_SERVER_URL backend).
Local Abbreviation noTokenMessage := (Integration.noTokenMessage GO_SERVER_URL).
Local Abbreviation searchRequest := (Integration.searchRequest GO_SERVER_URL).
Local Abbreviation indexRequest := (Integration.indexRequest GO_SERVER_URL).
Local Abbreviation summaryRequest := (Integration.summaryRequest GO_SERVER_URL).
Local Abbreviation vectorSearch := (Integration.vectorSearch GO_SERVER_URL backend).
Local Abbreviation chatSearch := (Integration.chatSearch GO_SERVER_URL backend).
Local Abbreviation summaryAttempts := (Integration.summaryAttempts GO_SERVER_URL backend).
Local Abbreviation vectorSearchWithSummary :=
  (Integration.vectorSearchWithSummary GO_SERVER_URL backend).

(** C1 (amended): without a stored credential vectorSearch,
    vectorSearchWithSummary and chat (for a message that is not one of its
    commands) return the reauthentication prompt and send nothing.  When
    the executor answers the search of a single-shot tool (vectorSearch,
    chat) with its auth-failure result, the credential is cleared and the
    tool takes its indexing branch, whose protected call stops at the
    no-credential guard: the search is the only request sent, nothing is
    retried, and the text returned is the "Attempted to index but failed"
    message around the no-token prompt.  The polling tool does not route
    its search through the executor: a 401 or 403 there whose body carries
    no message, a falsy one, or a string that says neither "not found" nor
    "not indexed" ends the run after that one request with the "after
    multiple attempts" message around the status text of axios, the
    credential kept. *)
Theorem auth_outcomes_of_a_search
    (query repository : string) (limit : Z) (branch : string) (w : World) :
  let plainMessage :=
    JsString.startsWith (JsText.trim query) "/set-token " = false
    /\ JsString.startsWith (JsText.trim query) "/index-repo " = false in
  (hasToken w = false ->
   vectorSearch query repository limit w = (Fulfilled (textResult noTokenMessage), w)
   /\ (plainMessage -> chat query repository w = (Fulfilled (textResult noTokenMessage), w))
   /\ vectorSearchWithSummary query repository limit branch w
      = (Fulfilled (textResult noTokenMessage), w))
  /\ (hasToken w = true ->
      isAuthReply (serve backend (trace w)
                     (Integration.outgoing (searchRequest query repository limit) w)) = true ->
      vectorSearch query repository limit w
      = (Fulfilled (textResult
           ("Repository '" ++ repository
            ++ "' not found or not indexed. Attempted to index but failed: "
            ++ noTokenMessage)),
         clearedWorld
           (sentWorld w (Sent (Integration.outgoing (searchRequest query repository limit) w)))))
  /\ (hasToken w = true ->
      plainMessage ->
      isAuthReply (serve backend (trace w)
                     (Integration.outgoing (searchRequest query repository 5) w)) = true ->
      chat query repository w
      = (Fulfilled (textResult
           ("Repository '" ++ repository
            ++ "' not found or not indexed. Attempted to index but failed: "
            ++ noTokenMessage)),
         clearedWorld
           (sentWorld w (Sent (Integration.outgoing (searchRequest query repository 5) w)))))
  /\ (forall code body,
      hasToken w = true ->
      serve backend (trace w) (summaryRequest query repository limit branch w)
      = Replied code body ->
      code = 401 \/ code = 403 ->
      (forall m,
          Js.get body "message" = Some m ->
          Js.truthy m = true ->
          exists s, m = JStr s
                    /\ JsString.includes (JsString.toLowerCase s) "not found" = false
                    /\ JsString.includes (JsString.toLowerCase s) "not indexed" = false) ->
      vectorSearchWithSummary query repository limit branch w
      = (Fulfilled (textResult
           ("Repository '" ++ repository
            ++ "' not found or not indexed after multiple attempts. Please try again later. Last error: "
            ++ "Request failed with status code " ++ JsString.ofZ code)),
         sentWorld w (Sent (summaryRequest query repository limit branch w)))).
Proof.
  intros plainMessage. split; [|split; [|split]].
  - intros Htok. split; [|split].
    + apply vectorSearch_no_token, Htok.
    + intros [Hset Hindex]. rewrite chat_plain_message by assumption.
      apply chatSearch_no_token, Htok.
    + apply vectorSearchWithSummary_no_token, Htok.
  - intros Htok Hreply. apply vectorSearch_auth_failure; assumption.
  - intros Htok [Hset Hindex] Hreply. rewrite chat_plain_message by assumption.
    apply chatSearch_auth_failure; assumption.
  - intros code body Htok Hreply Hcode Hbody.
    destruct (quiet_status_is_not_indexed code body) as (error & Hsettle & Hmessage & Hclass);
      try lia; [exact Hbody|].
    rewrite vectorSearchWithSummary_run by exact Htok.
    rewrite (summaryAttempts_other_failure GO_SERVER_URL backend query repository limit branch
               5 false None w error); [|rewrite Hreply; exact Hsettle|exact Hclass].
    unfold Integration.giveUpText, errorText. rewrite Hmessage. reflexivity.
Qed.

(** C2 (amended): in src/integration.js a 2xx payload that carries none
    of the error markers (a truthy [error], [status: 'error'],
    [status_code: 500], a message saying "not found") and whose message,
    when it has a truthy one, is a string, ends vectorSearch and chat (for a
    message that is not one of its commands) with that payload serialised,
    the search being the only request; any 2xx payload ends a polling round
    the same way.  The legacy vectorSearch returns the payload after one
    request only when [hasResults] accepts its text; a payload it rejects
    (empty text, "{}", "[]", any text containing "error") is searched for a
    second time, whatever [repoUrl] was given. *)
Theorem plain_success_is_final
    (query repository : string) (limit : Z) (branch : string) (w : World)
    (code : Z) (payload : json) :
  200 <= code < 300 ->
  let unmarked :=
    Js.truthyOpt (Js.get payload "error") = false
    /\ Js.get payload "status" <> Some (JStr "error")
    /\ Js.get payload "status_code" <> Some (JNum 500)
    /\ (forall m,
          Js.get payload "message" = Some m ->
          Js.truthy m = true ->
          exists s, m = JStr s
                    /\ JsString.includes (JsString.toLowerCase s) "not found" = false) in
  (hasToken w = true ->
   serve backend (trace w) (Integration.outgoing (searchRequest query repository limit) w)
   = Replied code payload ->
   unmarked ->
   vectorSearch query repository limit w
   = (Fulfilled (textResult (Js.stringify payload)),
      sentWorld w (Sent (Integration.outgoing (searchRequest query repository limit) w))))
  /\ (hasToken w = true ->
      JsString.startsWith (JsText.trim query) "/set-token " = false ->
      JsString.startsWith (JsText.trim query) "/index-repo " = false ->
      serve backend (trace w) (Integration.outgoing (searchRequest query repository 5) w)
      = Replied code payload ->
      unmarked ->
      chat query repository w
      = (Fulfilled (textResult (Js.stringify payload)),
         sentWorld w (Sent (Integration.outgoing (searchRequest query repository 5) w))))
  /\ (serve backend (trace w) (summaryRequest query repository limit branch w)
      = Replied code payload ->
      (forall left indexed lastError,
          summaryAttempts query repository limit branch (S left) indexed lastError w
          = (Fulfilled (textResult (Js.stringify payload)),
             sentWorld w (Sent (summaryRequest query repository limit branch w))))
      /\ (hasToken w = true ->
          vectorSearchWithSummary query repository limit branch w
          = (Fulfilled (textResult (Js.stringify payload)),
             sentWorld w (Sent (summaryRequest query repository limit branch w)))))
  /\ (serve backend (trace w)
        (Legacy.searchRequest GO_SERVER_URL MCP_SECRET_TOKEN query repository limit)
      = Replied code payload ->
      (Legacy.hasResults (textResult (Js.stringify payload)) = true ->
       forall repoUrl,
         Legacy.vectorSearch GO_SERVER_URL MCP_SECRET_TOKEN backend
           query repository limit repoUrl branch w
         = (Fulfilled (textResult (Js.stringify payload)),
            sentWorld w (Sent (Legacy.searchRequest GO_SERVER_URL MCP_SECRET_TOKEN
                                 query repository limit))))
      /\ (Legacy.hasResults (textResult (Js.stringify payload)) = false ->
          forall repoUrl,
            trace (snd (Legacy.vectorSearch GO_SERVER_URL MCP_SECRET_TOKEN backend
                          query repository limit repoUrl branch w))
            = (trace w
               ++ [Sent (Legacy.searchRequest GO_SERVER_URL MCP_SECRET_TOKEN
                           query repository limit);
                   Sent (Legacy.searchRequest GO_SERVER_URL MCP_SECRET_TOKEN
                           query repository limit)])%list)).
Proof.
  intros Hcode unmarked. split; [|split; [|split]].
  - intros Htok Hreply (Herror & Hstatus & Hnumber & Hmessage).
    eapply vectorSearch_success; try eassumption.
    apply searchNeedsIndexing_plain; assumption.
  - intros Htok Hset Hindex Hreply (Herror & Hstatus & Hnumber & Hmessage).
    rewrite chat_plain_message by assumption.
    eapply chatSearch_success; try eassumption.
    apply searchNeedsIndexing_plain; assumption.
  - intros Hreply. split.
    + intros left indexed lastError. eapply summaryAttempts_success; eassumption.
    + intros Htok. rewrite vectorSearchWithSummary_run by exact Htok.
      eapply summaryAttempts_success; eassumption.
  - intros Hreply. split.
    + intros Hhit repoUrl. eapply legacy_first_hit; eassumption.
    + intros Hmiss repoUrl. eapply legacy_second_attempt; eassumption.
Qed.


End Claims.

(** ** What a computation may append to the trace *)

Section Emits.

Context {A B : Type} (P : Event -> Prop).






End Emits.





Section SingleShotTrace.

Variable GO_SERVER_URL : string.
Variable backend : Backend.






End SingleShotTrace.

(** ** Budget, timeouts and give-up of the polling tool *)

Section Budget.

Variable GO_SERVER_URL : string.
Variable MCP_SECRET_TOKEN : option string.
Variable backend : Backend.
Variables (query repository : string) (limit : Z) (branch : string).

Local Abbreviation indexRequest := (Integration.indexRequest GO_SERVER_URL repository).
Local Abbreviation summaryRequest :=
  (Integration.summaryRequest GO_SERVER_URL query repository limit branch).
Local Abbreviation summaryAttempts :=
  (Integration.summaryAttempts GO_SERVER_URL backend query repository limit branch).
Local Abbreviation vectorSearchWithSummary :=
  (Integration.vectorSearchWithSummary GO_SERVER_URL backend query repository limit branch).
Local Abbreviation searchUrl := (GO_SERVER_URL ++ "/search/summary").
Local Abbreviation indexUrl := (GO_SERVER_URL ++ "/index").

Lemma vectorSearchWithSummary_trace (w : World) :
  exists new,
    trace (snd (vectorSearchWithSummary w)) = (trace w ++ new)%list
    /\ (sentTo searchUrl new <= 6)%nat
    /\ (sentTo indexUrl new <= 1)%nat
    /\ Forall (carriesTimeout None) new
    /\ Forall (waitsFor 10000) new.
Proof.
  destruct (hasToken w) eqn:Htok.
  - rewrite vectorSearchWithSummary_run by exact Htok.
    apply (summaryAttempts_trace GO_SERVER_URL backend query repository limit branch 6 false).
  - rewrite vectorSearchWithSummary_no_token by exact Htok.
    exists []. simpl. rewrite app_nil_r.
    split; [reflexivity|]. split; [lia|]. split; [lia|]. split; constructor.
Qed.

(** C4 (amended): whatever the backend does, a polling run performs at most
    6 search attempts and at most one indexing trigger.  When a credential
    is stored, every search attempt is reported NotIndexed and the indexing
    trigger is accepted, the run performs exactly 6 search attempts and
    exactly one indexing trigger, waits 10 seconds five times, and ends with
    the "not found or not indexed after multiple attempts" message carrying
    the message of the last search error. *)
Theorem polling_budget (w : World) :
  (exists new,
      trace (snd (vectorSearchWithSummary w)) = (trace w ++ new)%list
      /\ (sentTo searchUrl new <= 6)%nat
      /\ (sentTo indexUrl new <= 1)%nat)
  /\ (hasToken w = true ->
      (forall seen, exists error,
          settle (serve backend seen (summaryRequest w)) = Rejected error
          /\ Integration.summaryNotIndexed error = Fulfilled true) ->
      (exists response,
          settle (serve backend (trace w ++ [Sent (summaryRequest w)])
                    (Integration.outgoing indexRequest w)) = Fulfilled response
          /\ Integration.indexFailed (response_data response) = false) ->
      let s := Sent (summaryRequest w) in
      let i := Sent (Integration.outgoing indexRequest w) in
      let z := Slept 10000 in
      let new := [s; i; z; s; z; s; z; s; z; s; z; s] in
      exists lastError,
        vectorSearchWithSummary w
        = (Fulfilled (textResult
             ("Repository '" ++ repository
              ++ "' not found or not indexed after multiple attempts. Please try again later. Last error: "
              ++ message lastError)),
           {| OAUTH_TOKEN := OAUTH_TOKEN w; trace := trace w ++ new |})
        /\ settle (serve backend (trace w ++ removelast new) (summaryRequest w))
           = Rejected lastError
        /\ sentTo searchUrl new = 6%nat
        /\ sentTo indexUrl new = 1%nat
        /\ waits new = 5%nat).
Proof.
  split.
  - destruct (vectorSearchWithSummary_trace w) as (new & Htrace & Hs & Hi & _).
    exists new. repeat split; assumption.
  - intros Htok Hsearch Hindex s i z new.
    destruct (polling_exhausts_budget GO_SERVER_URL backend query repository limit branch
                w Htok Hsearch Hindex) as (lastError & Hrun & Hlast).
    exists lastError.
    rewrite vectorSearchWithSummary_run by exact Htok.
    split; [exact Hrun|]. split; [exact Hlast|].
    subst new s i z. cbn [sentTo waits].
    rewrite !search_is_search, !search_is_not_index, !index_is_index, !index_is_not_search.
    repeat split.
Qed.

(** C10 (amended): in the polling tool a search failure that is not
    classified NotIndexed ends the run at once: a reply whose status is
    neither 2xx nor 404 nor 500 and whose body carries no message, a falsy
    one, or a string that says neither "not found" nor "not indexed", and a
    request that got no reply and whose error message does not say "not
    found".  The failed search is the last event, no index request and no
    wait follow, and the text returned is the "not found or not indexed
    after multiple attempts" message around the error's message, on the
    first round as on any later one. *)
Theorem polling_other_failure_gives_up
    (left : nat) (indexed : bool) (lastError : option JsError) (w : World) :
  let gaveUp (detail : string) :=
    let text :=
      "Repository '" ++ repository
      ++ "' not found or not indexed after multiple attempts. Please try again later. Last error: "
      ++ detail in
    summaryAttempts (S left) indexed lastError w
    = (Fulfilled (textResult text), sentWorld w (Sent (summaryRequest w)))
    /\ (hasToken w = true ->
        vectorSearchWithSummary w
        = (Fulfilled (textResult text), sentWorld w (Sent (summaryRequest w)))
        /\ sentTo searchUrl [Sent (summaryRequest w)] = 1%nat
        /\ sentTo indexUrl [Sent (summaryRequest w)] = 0%nat
        /\ waits [Sent (summaryRequest w)] = 0%nat) in
  (forall code body,
      serve backend (trace w) (summaryRequest w) = Replied code body ->
      ~ 200 <= code < 300 ->
      code <> 404 -> code <> 500 ->
      (forall m,
          Js.get body "message" = Some m ->
          Js.truthy m = true ->
          exists s, m = JStr s
                    /\ JsString.includes (JsString.toLowerCase s) "not found" = false
                    /\ JsString.includes (JsString.toLowerCase s) "not indexed" = false) ->
      gaveUp ("Request failed with status code " ++ JsString.ofZ code))
  /\ (forall reason,
      serve backend (trace w) (summaryRequest w) = Unreachable reason ->
      JsString.includes (JsString.toLowerCase reason) "not found" = false ->
      gaveUp reason).
Proof.
  intros gaveUp.
  assert (Hgive : forall error,
             settle (serve backend (trace w) (summaryRequest w)) = Rejected error ->
             Integration.summaryNotIndexed error = Fulfilled false ->
             gaveUp (message error)).
  { intros error Hreply Hclass. split.
    - apply summaryAttempts_other_failure; assumption.
    - intros Htok. rewrite vectorSearchWithSummary_run by exact Htok.
      split; [apply summaryAttempts_other_failure; assumption|].
      cbn [sentTo waits]. rewrite search_is_search, search_is_not_index. repeat split. }
  split.
  - intros code body Hreply Hcode H404 H500 Hbody.
    destruct (quiet_status_is_not_indexed code body Hcode H404 H500 Hbody)
      as (error & Hsettle & Hmessage & Hclass).
    rewrite <- Hmessage. apply Hgive; [rewrite Hreply; exact Hsettle|exact Hclass].
  - intros reason Hreply Hreason.
    apply (Hgive {| message := reason; response := None |}).
    + rewrite Hreply. reflexivity.
    + apply quiet_error_is_not_indexed, Hreason.
Qed.


End Budget.

(** ** The orchestrators at concrete inputs *)



(** C1, counterexample: the backend answers the search 403, the executor
    signals auth-failure, and vectorSearch returns neither reauthentication
    prompt but the index-failure message of its recovery branch. *)
Lemma auth_failure_enters_indexing_branch :
  fst (Integration.protectedAxios Scenario.base Scenario.forbidden Run.search Scenario.signedIn)
  = Fulfilled (Integration.errorObject (Integration.tokenExpiredMessage Scenario.base))
  /\ fst (Run.vectorSearch Scenario.forbidden)
     = Fulfilled (textResult
         "Repository 'octo/widgets' not found or not indexed. Attempted to index but failed: No token found. Please get your token from: http://localhost:8081/auth/login and try your request again with the token.")
  /\ fst (Run.vectorSearch Scenario.forbidden)
     <> Fulfilled (textResult (Integration.tokenExpiredMessage Scenario.base))
  /\ fst (Run.vectorSearch Scenario.forbidden)
     <> Fulfilled (textResult (Integration.noTokenMessage Scenario.base)).
Proof.
  split; [reflexivity|]. split; [reflexivity|].
  split; vm_compute; intros H; discriminate H.
Qed.

Lemma auth_outcomes_of_a_search_witness :
  Integration.vectorSearch Scenario.base Scenario.forbidden Run.query Run.repository 5
    Scenario.signedOut
  = (Fulfilled (textResult (Integration.noTokenMessage Scenario.base)), Scenario.signedOut)
  /\ Tools.chat Scenario.base Scenario.forbidden Run.query Run.repository Scenario.signedOut
     = (Fulfilled (textResult (Integration.noTokenMessage Scenario.base)), Scenario.signedOut)
  /\ snd (Run.vectorSearch Scenario.forbidden)
     = {| OAUTH_TOKEN := None; trace := [Sent (Integration.outgoing Run.search Scenario.signedIn)] |}
  /\ snd (Tools.chat Scenario.base Scenario.forbidden Run.query Run.repository Scenario.signedIn)
     = {| OAUTH_TOKEN := None; trace := [Sent (Integration.outgoing Run.search Scenario.signedIn)] |}
  /\ Run.vectorSearchWithSummary Scenario.forbidden
     = (Fulfilled (textResult
          "Repository 'octo/widgets' not found or not indexed after multiple attempts. Please try again later. Last error: Request failed with status code 403"),
        {| OAUTH_TOKEN := Some "tok"; trace := [Sent Run.summary] |}).
Proof.
  pose proof (auth_outcomes_of_a_search Scenario.base Scenario.forbidden
                Run.query Run.repository 5 "main" Scenario.signedOut) as Hout.
  pose proof (auth_outcomes_of_a_search Scenario.base Scenario.forbidden
                Run.query Run.repository 5 "main" Scenario.signedIn) as Hin.
  cbv zeta in Hout, Hin.
  destruct Hout as (Hnone & _).
  destruct Hin as (_ & Hsearch & Hchat & Hpoll).
  split; [|split; [|split; [|split]]].
  - apply (proj1 (Hnone eq_refl)).
  - apply (proj1 (proj2 (Hnone eq_refl))). split; reflexivity.
  - unfold Run.vectorSearch. rewrite (Hsearch eq_refl eq_refl). reflexivity.
  - rewrite (Hchat eq_refl (conj eq_refl eq_refl) eq_refl). reflexivity.
  - unfold Run.vectorSearchWithSummary.
    rewrite (Hpoll 403 (JObj [("message", JStr "forbidden")]) eq_refl eq_refl
               (or_intror eq_refl)).
    + reflexivity.
    + intros m [= <-] _. exists "forbidden". repeat split.
Defined.

(** C2, counterexample: the legacy vectorSearch receives the successful
    payload [[]] (and likewise a hit in a file named errors.go) and sends
    the search a second time. *)
Lemma legacy_empty_payload_searched_twice :
  serve Scenario.emptyHanded [] Run.legacySearch = Replied 200 (JArr [])
  /\ trace (snd (Run.legacyVectorSearch Scenario.emptyHanded))
     = [Sent Run.legacySearch; Sent Run.legacySearch]
  /\ trace (snd (Run.legacyVectorSearch Scenario.emptyHanded)) <> [Sent Run.legacySearch]
  /\ serve Scenario.findingErrors [] Run.legacySearch = Replied 200 Scenario.errorsFile
  /\ trace (snd (Run.legacyVectorSearch Scenario.findingErrors))
     = [Sent Run.legacySearch; Sent Run.legacySearch].
Proof.
  split; [reflexivity|]. split; [reflexivity|].
  split; [vm_compute; intros H; discriminate H|].
  split; reflexivity.
Qed.

Lemma plain_success_is_final_witness :
  Run.vectorSearch Scenario.finding
  = (Fulfilled (textResult (Js.stringify Scenario.hit)),
     sentWorld Scenario.signedIn (Sent (Integration.outgoing Run.search Scenario.signedIn)))
  /\ Tools.chat Scenario.base Scenario.emptyHanded Run.query Run.repository Scenario.signedIn
     = (Fulfilled (textResult "[]"),
        sentWorld Scenario.signedIn (Sent (Integration.outgoing Run.search Scenario.signedIn)))
  /\ Run.vectorSearchWithSummary Scenario.emptyHanded
     = (Fulfilled (textResult "[]"), sentWorld Scenario.signedIn (Sent Run.summary))
  /\ Run.legacyVectorSearch Scenario.finding
     = (Fulfilled (textResult (Js.stringify Scenario.hit)),
        sentWorld Scenario.signedOut (Sent Run.legacySearch))
  /\ trace (snd (Run.legacyVectorSearchFor Scenario.emptyHanded "https://github.com/octo/widgets"))
     = [Sent Run.legacySearch; Sent Run.legacySearch].
Proof.
  assert (Hcode : 200 <= 200 < 300) by lia.
  assert (Hhit : Js.truthyOpt (Js.get Scenario.hit "error") = false
                 /\ Js.get Scenario.hit "status" <> Some (JStr "error")
                 /\ Js.get Scenario.hit "status_code" <> Some (JNum 500)
                 /\ (forall m,
                       Js.get Scenario.hit "message" = Some m ->
                       Js.truthy m = true ->
                       exists s, m = JStr s
                                 /\ JsString.includes (JsString.toLowerCase s) "not found"
                                    = false)).
  { split; [reflexivity|]. split; [discriminate|]. split; [discriminate|].
    intros m H. discriminate H. }
  assert (Hnone : Js.truthyOpt (Js.get (JArr []) "error") = false
                  /\ Js.get (JArr []) "status" <> Some (JStr "error")
                  /\ Js.get (JArr []) "status_code" <> Some (JNum 500)
                  /\ (forall m,
                        Js.get (JArr []) "message" = Some m ->
                        Js.truthy m = true ->
                        exists s, m = JStr s
                                  /\ JsString.includes (JsString.toLowerCase s) "not found"
                                     = false)).
  { split; [reflexivity|]. split; [discriminate|]. split; [discriminate|].
    intros m H. discriminate H. }
  split; [|split; [|split; [|split]]].
  - apply (proj1 (plain_success_is_final Scenario.base None Scenario.finding
                    Run.query Run.repository 5 "main" Scenario.signedIn 200 Scenario.hit Hcode));
      [reflexivity|reflexivity|exact Hhit].
  - apply (proj1 (proj2 (plain_success_is_final Scenario.base None Scenario.emptyHanded
                    Run.query Run.repository 5 "main" Scenario.signedIn 200 (JArr []) Hcode)));
      [reflexivity|reflexivity|reflexivity|reflexivity|exact Hnone].
  - apply (proj1 (proj2 (proj2 (plain_success_is_final Scenario.base None Scenario.emptyHanded
                    Run.query Run.repository 5 "main" Scenario.signedIn 200 (JArr []) Hcode)))
             eq_refl).
    reflexivity.
  - apply (proj1 (proj2 (proj2 (proj2 (plain_success_is_final Scenario.base None Scenario.finding
                    Run.query Run.repository 5 "main" Scenario.signedOut 200 Scenario.hit Hcode)))
             eq_refl)).
    reflexivity.
  - apply (proj2 (proj2 (proj2 (proj2 (plain_success_is_final Scenario.base None
                    Scenario.emptyHanded
                    Run.query Run.repository 5 "main" Scenario.signedOut 200 (JArr []) Hcode)))
             eq_refl)).
    reflexivity.
Defined.



(** C4, counterexample: every search attempt is reported NotIndexed, the
    backend refuses to index, and the run ends after one search and one
    index request with the index-failure message, not the "after multiple
    attempts" one. *)
Lemma refused_index_ends_polling :
  (forall seen, exists error,
      settle (serve Scenario.indexRefused seen Run.summary) = Rejected error
      /\ Integration.summaryNotIndexed error = Fulfilled true)
  /\ Run.vectorSearchWithSummary Scenario.indexRefused
     = (Fulfilled (textResult
          "Repository 'octo/widgets' not found or not indexed. Attempted to index but failed: clone failed"),
        {| OAUTH_TOKEN := Some "tok"; trace := [Sent Run.summary; Sent Run.index] |})
  /\ (forall lastError,
        fst (Run.vectorSearchWithSummary Scenario.indexRefused)
        <> Fulfilled (textResult (Integration.giveUpText Run.repository lastError))).
Proof.
  split; [|split; [reflexivity|]].
  - intros seen. eexists. split; reflexivity.
  - intros lastError. vm_compute. intros H. discriminate H.
Qed.

Lemma polling_budget_witness :
  exists lastError,
    fst (Run.vectorSearchWithSummary Scenario.neverIndexed)
    = Fulfilled (textResult
        ("Repository 'octo/widgets' not found or not indexed after multiple attempts. Please try again later. Last error: "
         ++ message lastError))
    /\ message lastError = "Request failed with status code 404".
Proof.
  destruct (proj2 (polling_budget Scenario.base Scenario.neverIndexed
                     Run.query Run.repository 5 "main" Scenario.signedIn))
    as (lastError & Hrun & Hlast & _).
  - reflexivity.
  - intros seen. eexists. split; reflexivity.
  - eexists. split; reflexivity.
  - exists lastError. split.
    + unfold Run.vectorSearchWithSummary. rewrite Hrun. reflexivity.
    + vm_compute in Hlast. injection Hlast as <-. reflexivity.
Defined.


(** C10, counterexample: a search answered 400 with the body
    [{ message: 42 }] is not classified NotIndexed by the claim's test (no
    phrase in either message, a status that is neither 404 nor 500), yet
    the [catch] block throws on the number's missing [toLowerCase] and the
    tool fails instead of returning the give-up text. *)
Lemma numeric_message_breaks_polling :
  serve Cases.numericMessage [] Run.summary = Replied 400 (JObj [("message", JNum 42)])
  /\ JsString.includes (JsString.toLowerCase (Js.toString (JNum 42))) "not found" = false
  /\ JsString.includes (JsString.toLowerCase (Js.toString (JNum 42))) "not indexed" = false
  /\ JsString.includes (JsString.toLowerCase "Request failed with status code 400") "not found"
     = false
  /\ Run.vectorSearchWithSummary Cases.numericMessage
     = (Rejected (notAFunction Integration.emptyOrMessage),
        {| OAUTH_TOKEN := Some "tok"; trace := [Sent Run.summary] |})
  /\ (forall result,
        fst (Run.vectorSearchWithSummary Cases.numericMessage) <> Fulfilled result).
Proof.
  split; [reflexivity|]. split; [reflexivity|]. split; [reflexivity|].
  split; [reflexivity|]. split; [reflexivity|].
  intros result. vm_compute. intros H. discriminate H.
Qed.

Lemma polling_other_failure_gives_up_witness :
  Run.vectorSearchWithSummary Scenario.timingOut
  = (Fulfilled (textResult
       "Repository 'octo/widgets' not found or not indexed after multiple attempts. Please try again later. Last error: timeout of 30000ms exceeded"),
     sentWorld Scenario.signedIn (Sent Run.summary))
  /\ Run.vectorSearchWithSummary Cases.badRequest
     = (Fulfilled (textResult
          "Repository 'octo/widgets' not found or not indexed after multiple attempts. Please try again later. Last error: Request failed with status code 400"),
        sentWorld Scenario.signedIn (Sent Run.summary)).
Proof.
  pose proof (polling_other_failure_gives_up Scenario.base Scenario.timingOut
                Run.query Run.repository 5 "main" 5 false None Scenario.signedIn) as Hquiet.
  pose proof (polling_other_failure_gives_up Scenario.base Cases.badRequest
                Run.query Run.repository 5 "main" 5 false None Scenario.signedIn) as Hbad.
  cbv zeta in Hquiet, Hbad.
  split.
  - apply (proj2 Hquiet "timeout of 30000ms exceeded" eq_refl eq_refl). reflexivity.
  - refine (proj1 (proj2 (proj1 Hbad 400 (JObj [("message", JStr "limit out of range")])
                            eq_refl _ _ _ _) eq_refl)); try lia.
    intros m [= <-] _. exists "limit out of range". repeat split.
Defined.

(* ------------------------------------------------------------------ *)
(** * Further properties *)

(** ** Trimming *)

Lemma reverse_append (a b : string) :
  JsText.reverse (a ++ b) = JsText.reverse b ++ JsText.reverse a.
Proof.
  induction a as [|c a IH]; simpl.
  - now rewrite append_empty_r.
  - rewrite IH. clear IH. induction (JsText.reverse b) as [|d r IHr]; simpl; [reflexivity|].
    now rewrite IHr.
Qed.

Lemma reverse_involutive (s : string) : JsText.reverse (JsText.reverse s) = s.
Proof.
  induction s as [|c s IH]; simpl; [reflexivity|].
  rewrite reverse_append, IH. reflexivity.
Qed.

Lemma reverse_empty (s : string) : JsText.reverse s = EmptyString -> s = EmptyString.
Proof.
  intros H. rewrite <- (reverse_involutive s), H. reflexivity.
Qed.

Lemma append_length (a b : string) :
  String.length (a ++ b) = (String.length a + String.length b)%nat.
Proof. induction a as [|c a IH]; simpl; [reflexivity | now rewrite IH]. Qed.

Lemma append_assoc (a b c : string) : (a ++ b) ++ c = a ++ (b ++ c).
Proof. induction a as [|x a IH]; simpl; [reflexivity | now rewrite IH]. Qed.

Lemma prefix_split (p s : string) :
  String.prefix p s = true -> s = p ++ JsText.slice (String.length p) s.
Proof.
  revert s. induction p as [|c p IH]; intros s H; simpl.
  - destruct s; reflexivity.
  - destruct s as [|d s]; simpl in H; [discriminate|].
    destruct (Ascii.ascii_dec c d) as [<-|]; [|discriminate].
    simpl. f_equal. apply IH, H.
Qed.

Section Stripping.

Variable w1 : ascii -> bool.
Variable w2 : ascii -> ascii -> bool.
Variable w3 : ascii -> ascii -> ascii -> bool.

Local Abbreviation strip := (JsText.strip w1 w2 w3).
Local Abbreviation trimFront := (JsText.trimFront w1 w2 w3).
Local Abbreviation stripBack :=
  (JsText.strip w1 (fun a b => w2 b a) (fun a b c => w3 c b a)).

Lemma trimFront_unfold (s : string) :
  trimFront s = match strip s with
                | Some r => trimFront r
                | None => s
                end.
Proof.
  destruct s as [|c1 [|c2 [|c3 r3]]]; simpl; try reflexivity.
  - destruct (w1 c1); reflexivity.
  - destruct (w1 c1); [reflexivity|]. destruct (w2 c1 c2); reflexivity.
  - destruct (w1 c1); [reflexivity|]. destruct (w2 c1 c2); [reflexivity|].
    destruct (w3 c1 c2 c3); reflexivity.
Qed.

Lemma strip_suffix (s r : string) :
  strip s = Some r -> exists p, s = p ++ r /\ p <> EmptyString.
Proof.
  destruct s as [|c1 r1]; simpl; [discriminate|].
  destruct (w1 c1).
  { intros [= <-]. exists (String c1 EmptyString). split; [reflexivity|discriminate]. }
  destruct r1 as [|c2 r2]; [discriminate|].
  destruct (w2 c1 c2).
  { intros [= <-]. exists (String c1 (String c2 EmptyString)).
    split; [reflexivity|discriminate]. }
  destruct r2 as [|c3 r3]; [discriminate|].
  destruct (w3 c1 c2 c3); [|discriminate].
  intros [= <-]. exists (String c1 (String c2 (String c3 EmptyString))).
  split; [reflexivity|discriminate].
Qed.

Lemma strip_shorter (s r : string) :
  strip s = Some r -> (String.length r < String.length s)%nat.
Proof.
  intros H. destruct (strip_suffix s r H) as (p & -> & Hp).
  rewrite append_length. destruct p; [now elim Hp|]. simpl. lia.
Qed.

Lemma strip_append (s r z : string) :
  strip s = Some r -> strip (s ++ z) = Some (r ++ z).
Proof.
  destruct s as [|c1 r1]; simpl; [discriminate|].
  destruct (w1 c1); [now intros [= <-]|].
  destruct r1 as [|c2 r2]; [discriminate|]. simpl.
  destruct (w2 c1 c2); [now intros [= <-]|].
  destruct r2 as [|c3 r3]; [discriminate|]. simpl.
  destruct (w3 c1 c2 c3); [now intros [= <-]|discriminate].
Qed.

(** Nothing is left to strip from a trimmed front. *)
Lemma trimFront_clean (s : string) : strip (trimFront s) = None.
Proof.
  remember (String.length s) as n eqn:Hn.
  revert s Hn. induction n as [n IH] using lt_wf_ind. intros s ->.
  rewrite trimFront_unfold. destruct (strip s) as [r|] eqn:E; [|exact E].
  apply (IH (String.length r)); [apply strip_shorter, E | reflexivity].
Qed.

Lemma trimFront_suffix (s : string) : exists p, s = p ++ trimFront s.
Proof.
  remember (String.length s) as n eqn:Hn.
  revert s Hn. induction n as [n IH] using lt_wf_ind. intros s ->.
  rewrite trimFront_unfold. destruct (strip s) as [r|] eqn:E.
  - destruct (strip_suffix s r E) as (p & -> & _).
    destruct (IH (String.length r) (strip_shorter _ _ E) r eq_refl) as (q & Hq).
    exists (p ++ q). rewrite append_assoc, <- Hq. reflexivity.
  - exists EmptyString. reflexivity.
Qed.

(** A single white-space character is recognised from its end as well. *)
Lemma strip_whole_backwards (s : string) :
  strip s = Some EmptyString -> stripBack (JsText.reverse s) <> None.
Proof.
  destruct s as [|c1 r1]; simpl; [discriminate|].
  destruct (w1 c1) eqn:E1.
  { intros [= ->]. simpl. rewrite E1. discriminate. }
  destruct r1 as [|c2 r2]; [discriminate|].
  destruct (w2 c1 c2) eqn:E2.
  { intros [= ->]. simpl. destruct (w1 c2); [discriminate|]. rewrite E2. discriminate. }
  destruct r2 as [|c3 r3]; [discriminate|].
  destruct (w3 c1 c2 c3) eqn:E3; [|discriminate].
  intros [= ->]. simpl. destruct (w1 c3); [discriminate|].
  destruct (w2 c2 c3); [discriminate|]. rewrite E3. discriminate.
Qed.

End Stripping.

Lemma stripBack_append
    (w1 : ascii -> bool) (w2 : ascii -> ascii -> bool) (w3 : ascii -> ascii -> ascii -> bool)
    (s z : string) :
  JsText.strip w1 w2 w3 s <> None -> JsText.strip w1 w2 w3 (s ++ z) <> None.
Proof.
  destruct (JsText.strip w1 w2 w3 s) as [r|] eqn:E; [|intros H; now elim H].
  intros _. rewrite (strip_append w1 w2 w3 s r z E). discriminate.
Qed.

(** A non-empty text that trims to nothing from its front ends in white
    space. *)
Lemma all_space_ends_in_space
    (w1 : ascii -> bool) (w2 : ascii -> ascii -> bool) (w3 : ascii -> ascii -> ascii -> bool)
    (s : string) :
  JsText.trimFront w1 w2 w3 s = EmptyString ->
  s <> EmptyString ->
  JsText.strip w1 (fun a b => w2 b a) (fun a b c => w3 c b a) (JsText.reverse s) <> None.
Proof.
  remember (String.length s) as n eqn:Hn.
  revert s Hn. induction n as [n IH] using lt_wf_ind. intros s -> Hall Hs.
  rewrite trimFront_unfold in Hall.
  destruct (JsText.strip w1 w2 w3 s) as [r|] eqn:E; [|contradiction].
  destruct r as [|c r].
  - apply strip_whole_backwards, E.
  - destruct (strip_suffix _ _ _ s _ E) as (p & -> & _).
    rewrite reverse_append. apply stripBack_append.
    apply (IH (String.length (String c r))); try reflexivity; try discriminate.
    + rewrite append_length. destruct p; simpl; [|lia].
      apply strip_shorter in E. simpl in E. lia.
    + exact Hall.
Qed.

Lemma trim_clean (s : string) :
  JsText.strip JsText.ws1 JsText.ws2_back JsText.ws3_back (JsText.reverse (JsText.trim s)) = None.
Proof.
  unfold JsText.trim, JsText.trimEnd. rewrite reverse_involutive. apply trimFront_clean.
Qed.

(** The text after a space inside a trimmed text does not trim to
    nothing. *)
Lemma trimmed_remainder (m a rest : string) :
  JsText.trim m = a ++ String " " rest ->
  JsText.nonEmpty (JsText.trim rest) = true.
Proof.
  intros Hm.
  pose proof (trim_clean m) as Hclean. rewrite Hm, reverse_append in Hclean.
  destruct (String.eqb (JsText.trim rest) EmptyString) eqn:E;
    [|unfold JsText.nonEmpty; now rewrite E].
  apply String.eqb_eq in E. exfalso.
  destruct rest as [|c rest'].
  { simpl in Hclean. discriminate Hclean. }
  set (rest := String c rest') in *.
  assert (Hrest : rest <> EmptyString) by discriminate.
  revert Hclean. change (JsText.reverse (String " " rest)) with (JsText.reverse rest ++ " ").
  rewrite append_assoc. apply stripBack_append.
  unfold JsText.trim, JsText.trimEnd in E. apply reverse_empty in E.
  destruct (String.eqb (JsText.trimStart rest) EmptyString) eqn:Ev.
  - apply String.eqb_eq in Ev.
    apply (all_space_ends_in_space JsText.ws1 JsText.ws2 JsText.ws3 rest Ev Hrest).
  - apply String.eqb_neq in Ev.
    destruct (trimFront_suffix JsText.ws1 JsText.ws2 JsText.ws3 rest) as (p & Hp).
    fold (JsText.trimStart rest) in Hp. rewrite Hp at 1.
    rewrite reverse_append. apply stripBack_append.
    rewrite trimFront_unfold in E.
    destruct (JsText.strip _ _ _ (JsText.reverse (JsText.trimStart rest))) as [r|];
      [discriminate|].
    apply reverse_empty in E. contradiction.
Qed.

Lemma trim_after_space (rest : string) :
  JsText.trim (String " " rest) = JsText.trim rest.
Proof. reflexivity. Qed.

(** ** Header maps *)

Lemma header_assign_same (o : list (string * string)) (k v : string) :
  JsText.header k (assign o k v) = Some v.
Proof.
  induction o as [|[k' v'] o IH]; simpl.
  - now rewrite String.eqb_refl.
  - destruct (String.eqb k' k) eqn:E; simpl.
    + now rewrite String.eqb_refl.
    + rewrite E. exact IH.
Qed.

Lemma header_assign_other (o : list (string * string)) (k k' v : string) :
  k' <> k -> JsText.header k' (assign o k v) = JsText.header k' o.
Proof.
  intros Hk. induction o as [|[k0 v0] o IH]; simpl.
  - apply String.eqb_neq in Hk. rewrite String.eqb_sym. now rewrite Hk.
  - destruct (String.eqb k0 k) eqn:E; simpl.
    + apply String.eqb_eq in E. subst k0.
      apply String.eqb_neq in Hk. rewrite String.eqb_sym, Hk. reflexivity.
    + destruct (String.eqb k0 k'); [reflexivity|exact IH].
Qed.

(** ** The chat commands and the executor's headers *)

Section Commands.

Variable GO_SERVER_URL : string.
Variable backend : Backend.
Variable JSON_parse : string -> Settled json.

Local Abbreviation protectedAxios := (Integration.protectedAxios GO_SERVER_URL backend).
Local Abbreviation protectedFetch := (Integration.protectedFetch GO_SERVER_URL backend JSON_parse).
Local Abbreviation indexRequest := (Integration.indexRequest GO_SERVER_URL).
Local Abbreviation chat := (Tools.chat GO_SERVER_URL backend).
Local Abbreviation noTokenMessage := (Integration.noTokenMessage GO_SERVER_URL).
Local Abbreviation tokenExpiredMessage := (Integration.tokenExpiredMessage GO_SERVER_URL).

Lemma set_token_argument (message : string) :
  JsString.startsWith (JsText.trim message) "/set-token " = true ->
  JsText.nonEmpty (JsText.trim (JsText.slice 11 (JsText.trim message))) = true.
Proof.
  intros H. apply prefix_split in H.
  apply (trimmed_remainder message "/set-token"). exact H.
Qed.

Lemma index_repo_argument (message : string) :
  JsString.startsWith (JsText.trim message) "/index-repo " = true ->
  JsText.nonEmpty (JsText.trim (JsText.slice 11 (JsText.trim message))) = true
  /\ JsString.startsWith (JsText.trim message) "/set-token " = false.
Proof.
  intros H. apply prefix_split in H. simpl String.length in H.
  split.
  - rewrite H. change (JsText.slice 11 ("/index-repo " ++ JsText.slice 12 (JsText.trim message)))
      with (String " " (JsText.slice 12 (JsText.trim message))).
    rewrite trim_after_space.
    apply (trimmed_remainder message "/index-repo"). exact H.
  - rewrite H. reflexivity.
Qed.

Lemma chat_set_token_run (message repository : string) (w : World) :
  JsString.startsWith (JsText.trim message) "/set-token " = true ->
  let token := JsText.trim (JsText.slice 11 (JsText.trim message)) in
  chat message repository w
  = (Fulfilled (textResult "Token set! You can now use the chat."),
     {| OAUTH_TOKEN := Some token; trace := trace w |})
  /\ token <> EmptyString.
Proof.
  intros H token. pose proof (set_token_argument message H) as Hne. fold token in Hne.
  split.
  - unfold Tools.chat. rewrite H. unfold Tools.setTokenCommand. fold token.
    rewrite Hne. reflexivity.
  - intros E. rewrite E in Hne. discriminate Hne.
Qed.

Lemma outgoing_authorization (options : Request) (w : World) (token : string) :
  OAUTH_TOKEN w = Some token ->
  token <> EmptyString ->
  hasToken w = true
  /\ JsText.header "Authorization" (headers (Integration.outgoing options w))
     = Some ("Bearer " ++ token).
Proof.
  intros Hw Hne.
  assert (Htruthy : tokenTruthy (Some token) = true).
  { simpl. apply negb_true_iff. apply String.eqb_neq. exact Hne. }
  split; [unfold hasToken; rewrite Hw; exact Htruthy|].
  unfold Integration.outgoing, Integration.authHeader. rewrite Hw, Htruthy.
  cbn [spread fold_left fst snd Integration.withHeaders headers].
  apply header_assign_same.
Qed.

(** X1: a chat message whose trimmed text starts with "/set-token "
    always stores the trimmed remainder as the credential, which is never
    empty, sends nothing and answers "Token set!"; the reply "Please
    provide a token after /set-token." cannot be produced. *)
Theorem set_token_command (message repository : string) (w : World) :
  JsString.startsWith (JsText.trim message) "/set-token " = true ->
  let token := JsText.trim (JsText.slice 11 (JsText.trim message)) in
  chat message repository w
  = (Fulfilled (textResult "Token set! You can now use the chat."),
     {| OAUTH_TOKEN := Some token; trace := trace w |})
  /\ token <> EmptyString
  /\ hasToken (snd (chat message repository w)) = true
  /\ Tools.setTokenCommand message w
     <> (Fulfilled (textResult "Please provide a token after /set-token."), w).
Proof.
  intros H token. pose proof (set_token_argument message H) as Hne. fold token in Hne.
  destruct (chat_set_token_run message repository w H) as (Hrun & Hdiff).
  fold token in Hrun, Hdiff.
  split; [exact Hrun|]. split; [exact Hdiff|]. split.
  - rewrite Hrun. unfold hasToken. simpl. exact Hne.
  - unfold Tools.setTokenCommand. fold token. rewrite Hne. discriminate.
Qed.

Lemma chat_index_repo_run (message repository : string) (w : World) :
  JsString.startsWith (JsText.trim message) "/index-repo " = true ->
  let target := JsText.trim (JsText.slice 11 (JsText.trim message)) in
  chat message repository w =
  match protectedAxios (indexRequest target) w with
  | (Fulfilled indexResult, w') =>
      if Integration.indexFailed indexResult
      then (Fulfilled (textResult ("Indexing failed: "
                                   ++ Js.toStringOpt (Js.get indexResult "message"))), w')
      else (Fulfilled (textResult ("Indexing started for " ++ Integration.toFullUrl target
                                   ++ ". I will notify you when it's ready.")), w')
  | (Rejected thrown, w') => (Rejected thrown, w')
  end.
Proof.
  intros H target. destruct (index_repo_argument message H) as (Hne & Hset).
  fold target in Hne.
  unfold Tools.chat. rewrite Hset, H. unfold Tools.indexRepoCommand. fold target.
  rewrite Hne. cbn [negb]. unfold bind at 1.
  change (Integration.post GO_SERVER_URL "/index"
            (JObj [("repo_url", JStr (Integration.toFullUrl target))]))
    with (indexRequest target).
  destruct (protectedAxios (indexRequest target) w) as [[indexResult|thrown] w'];
    [|reflexivity].
  unfold Integration.indexFailed.
  destruct (Js.truthy indexResult); [|reflexivity]. cbn [andb].
  destruct (Js.truthyOpt _); [reflexivity|].
  destruct (Js.isString _ _); reflexivity.
Qed.

(** X2: a chat message whose trimmed text starts with "/index-repo "
    always has a non-empty argument and is served before the credential
    guard: without a credential the answer is "Indexing failed: " followed
    by the no-token prompt and nothing is sent; with one, a single index
    request for the normalised URL is sent, and an accepted reply is
    answered "Indexing started for <full URL>", a reply carrying an error
    marker "Indexing failed: <its message>". *)
Theorem index_repo_command (message repository : string) (w : World) :
  JsString.startsWith (JsText.trim message) "/index-repo " = true ->
  let target := JsText.trim (JsText.slice 11 (JsText.trim message)) in
  target <> EmptyString
  /\ (hasToken w = false ->
      chat message repository w
      = (Fulfilled (textResult ("Indexing failed: " ++ noTokenMessage)), w))
  /\ (forall code payload,
      hasToken w = true ->
      serve backend (trace w) (Integration.outgoing (indexRequest target) w)
      = Replied code payload ->
      200 <= code < 300 ->
      chat message repository w
      = (Fulfilled (textResult
           (if Integration.indexFailed payload
            then "Indexing failed: " ++ Js.toStringOpt (Js.get payload "message")
            else "Indexing started for " ++ Integration.toFullUrl target
                 ++ ". I will notify you when it's ready.")),
         sentWorld w (Sent (Integration.outgoing (indexRequest target) w)))).
Proof.
  intros H target. destruct (index_repo_argument message H) as (Hne & _). fold target in Hne.
  split; [|split].
  - intros E. rewrite E in Hne. discriminate Hne.
  - intros Htok. rewrite (chat_index_repo_run message repository w H). fold target.
    rewrite protectedAxios_no_token by exact Htok. reflexivity.
  - intros code payload Htok Hreply Hcode.
    rewrite (chat_index_repo_run message repository w H). fold target.
    rewrite protectedAxios_run by exact Htok. cbv zeta.
    rewrite Hreply, (settle_ok _ _ Hcode). cbn [response_data].
    destruct (Integration.indexFailed payload); reflexivity.
Qed.


Lemma protectedAxios_sends (options : Request) (w : World) :
  hasToken w = true ->
  trace (snd (protectedAxios options w))
  = (trace w ++ [Sent (Integration.outgoing options w)])%list.
Proof.
  intros Htok. rewrite protectedAxios_run by exact Htok. cbv zeta.
  destruct (settle _) as [response|error]; [reflexivity|].
  destruct (Integration.isAuthStatus error); reflexivity.
Qed.

Lemma protectedFetch_sends (target : string) (init : FetchInit) (w : World) :
  hasToken w = true ->
  trace (snd (protectedFetch target init w))
  = (trace w ++ [Fetched target (Integration.outgoingFetch init w)])%list.
Proof.
  intros Htok. rewrite protectedFetch_run by exact Htok. cbv zeta.
  destruct (serveFetch _ _ _ _) as [code body|reason]; [|reflexivity].
  destruct ((code =? 401) || (code =? 403)); reflexivity.
Qed.

(** X4: with a credential stored, a protected call sends exactly one
    request, and that request carries the stored credential as its
    Authorization header even when the caller supplied another one; the
    caller's other headers, method, URL, body and timeout are kept.  The
    fetch executor moreover forces the JSON content type. *)
Theorem executor_headers
    (options : Request) (target : string) (init : FetchInit) (w : World) (token : string) :
  OAUTH_TOKEN w = Some token ->
  token <> EmptyString ->
  let sent := Integration.outgoing options w in
  let fetched := Integration.outgoingFetch init w in
  trace (snd (protectedAxios options w)) = (trace w ++ [Sent sent])%list
  /\ JsText.header "Authorization" (headers sent) = Some ("Bearer " ++ token)
  /\ (forall k, k <> "Authorization" ->
        JsText.header k (headers sent) = JsText.header k (headers options))
  /\ (method sent, url sent, data sent, timeout sent)
     = (method options, url options, data options, timeout options)
  /\ trace (snd (protectedFetch target init w)) = (trace w ++ [Fetched target fetched])%list
  /\ JsText.header "Authorization" (fetch_headers fetched) = Some ("Bearer " ++ token)
  /\ JsText.header "Content-Type" (fetch_headers fetched) = Some "application/json"
  /\ (forall k, k <> "Authorization" -> k <> "Content-Type" ->
        JsText.header k (fetch_headers fetched) = JsText.header k (fetch_headers init)).
Proof.
  intros Hw Hne sent fetched.
  assert (Htruthy : tokenTruthy (Some token) = true).
  { simpl. apply negb_true_iff. apply String.eqb_neq. exact Hne. }
  assert (Htok : hasToken w = true) by (unfold hasToken; rewrite Hw; exact Htruthy).
  assert (Hauth : Integration.authHeader (OAUTH_TOKEN w) = [("Authorization", "Bearer " ++ token)]).
  { rewrite Hw. unfold Integration.authHeader. rewrite Htruthy. reflexivity. }
  subst sent fetched.
  unfold Integration.outgoing, Integration.outgoingFetch. rewrite Hauth.
  cbn [spread fold_left fst snd Integration.withHeaders Integration.withFetchHeaders
       headers method url data timeout fetch_headers].
  split; [|split; [|split; [|split; [|split; [|split; [|split]]]]]].
  - rewrite protectedAxios_sends by exact Htok.
    unfold Integration.outgoing. rewrite Hauth. reflexivity.
  - apply header_assign_same.
  - intros k Hk. apply header_assign_other. exact Hk.
  - reflexivity.
  - rewrite protectedFetch_sends by exact Htok.
    unfold Integration.outgoingFetch. rewrite Hauth. reflexivity.
  - rewrite header_assign_other by discriminate. apply header_assign_same.
  - apply header_assign_same.
  - intros k Ha Hc. rewrite header_assign_other by exact Hc.
    apply header_assign_other. exact Ha.
Qed.

(** X5: the token given to "/set-token" is the one later requests carry:
    after the command, any protected call sends one request whose
    Authorization header is "Bearer " followed by the trimmed token. *)
Theorem set_token_then_protected_call
    (message repository : string) (options : Request) (w : World) :
  JsString.startsWith (JsText.trim message) "/set-token " = true ->
  let token := JsText.trim (JsText.slice 11 (JsText.trim message)) in
  let w' := snd (chat message repository w) in
  trace (snd (protectedAxios options w'))
  = (trace w ++ [Sent (Integration.outgoing options w')])%list
  /\ JsText.header "Authorization" (headers (Integration.outgoing options w'))
     = Some ("Bearer " ++ token).
Proof.
  intros H token w'.
  destruct (chat_set_token_run message repository w H) as (Hrun & Hne).
  fold token in Hrun, Hne.
  assert (Hw' : w' = {| OAUTH_TOKEN := Some token; trace := trace w |})
    by (subst w'; rewrite Hrun; reflexivity).
  assert (Htoken : OAUTH_TOKEN w' = Some token) by (rewrite Hw'; reflexivity).
  destruct (outgoing_authorization options w' token Htoken Hne) as (Htok & Hheader).
  split; [|exact Hheader].
  rewrite protectedAxios_sends by exact Htok. rewrite Hw' at 1. reflexivity.
Qed.

End Commands.

(** ** More on the search tools of src/integration.js *)

Section Recovery.

Variable GO_SERVER_URL : string.
Variable backend : Backend.

Local Abbreviation protectedAxios := (Integration.protectedAxios GO_SERVER_URL backend).
Local Abbreviation noTokenMessage := (Integration.noTokenMessage GO_SERVER_URL).
Local Abbreviation tokenExpiredMessage := (Integration.tokenExpiredMessage GO_SERVER_URL).
Local Abbreviation searchRequest := (Integration.searchRequest GO_SERVER_URL).
Local Abbreviation indexRequest := (Integration.indexRequest GO_SERVER_URL).
Local Abbreviation summaryRequest := (Integration.summaryRequest GO_SERVER_URL).
Local Abbreviation recoverOrReport := (Integration.recoverOrReport GO_SERVER_URL backend).
Local Abbreviation vectorSearch := (Integration.vectorSearch GO_SERVER_URL backend).
Local Abbreviation chatSearch := (Integration.chatSearch GO_SERVER_URL backend).
Local Abbreviation summaryAttempts := (Integration.summaryAttempts GO_SERVER_URL backend).
Local Abbreviation vectorSearchWithSummary :=
  (Integration.vectorSearchWithSummary GO_SERVER_URL backend).

Lemma recoverOrReport_traffic (repository : string) (result : json) (w : World) :
  exists new,
    trace (snd (recoverOrReport repository result w)) = (trace w ++ new)%list
    /\ (new = [] \/ new = [Sent (Integration.outgoing (indexRequest repository) w)]).
Proof.
  assert (Hnone : exists new, trace w = (trace w ++ new)%list
                  /\ (new = [] \/ new = [Sent (Integration.outgoing (indexRequest repository) w)])).
  { exists []. rewrite app_nil_r. split; [reflexivity|now left]. }
  rewrite recoverOrReport_run.
  destruct (Integration.searchNeedsIndexing result) as [[|]|thrown]; try exact Hnone.
  destruct (hasToken w) eqn:Htok.
  - assert (Hone : forall token,
               exists new,
                 trace {| OAUTH_TOKEN := token;
                          trace := trace (sentWorld w
                                     (Sent (Integration.outgoing (indexRequest repository) w))) |}
                 = (trace w ++ new)%list
                 /\ (new = [] \/ new = [Sent (Integration.outgoing (indexRequest repository) w)])).
    { intros token. eexists. split; [reflexivity|now right]. }
    rewrite protectedAxios_run by exact Htok. cbv zeta.
    destruct (settle _) as [response|error].
    + destruct (Integration.indexFailed _); exact (Hone (OAUTH_TOKEN w)).
    + destruct (Integration.isAuthStatus error).
      * rewrite errorObject_indexFailed. exact (Hone None).
      * exact (Hone (OAUTH_TOKEN w)).
  - rewrite protectedAxios_no_token by exact Htok.
    rewrite errorObject_indexFailed. exact Hnone.
Qed.

Lemma single_shot_shape (repository : string) (search : Request) (w : World)
    (after : json -> Async ToolResult) :
  (forall result w', after result w' = recoverOrReport repository result w'
                     \/ exists wrap : Settled ToolResult -> Settled ToolResult,
                          after result w'
                          = (wrap (fst (recoverOrReport repository result w')),
                             snd (recoverOrReport repository result w'))) ->
  hasToken w = true ->
  forall outcome w1,
    protectedAxios search w = (outcome, w1) ->
    exists new,
      trace (snd (match outcome with
                  | Fulfilled result => after result w1
                  | Rejected thrown => (Rejected thrown, w1)
                  end))
      = (trace w ++ new)%list
      /\ (new = [Sent (Integration.outgoing search w)]
          \/ new = [Sent (Integration.outgoing search w);
                    Sent (Integration.outgoing (indexRequest repository) w)]).
Proof.
  intros Hafter Htok outcome w1 Hrun.
  assert (Hsent : trace w1 = (trace w ++ [Sent (Integration.outgoing search w)])%list
                  /\ (OAUTH_TOKEN w1 = OAUTH_TOKEN w \/ OAUTH_TOKEN w1 = None)).
  { rewrite protectedAxios_run in Hrun by exact Htok. cbv zeta in Hrun.
    destruct (settle _) as [response|error].
    - injection Hrun as _ <-. split; [reflexivity|now left].
    - destruct (Integration.isAuthStatus error); injection Hrun as _ <-;
        (split; [reflexivity|]); [now right|now left]. }
  destruct Hsent as (Htrace & Htoken).
  destruct outcome as [result|thrown].
  - assert (Hrec : exists new,
               trace (snd (recoverOrReport repository result w1)) = (trace w ++ new)%list
               /\ (new = [Sent (Integration.outgoing search w)]
                   \/ new = [Sent (Integration.outgoing search w);
                             Sent (Integration.outgoing (indexRequest repository) w)])).
    { destruct (recoverOrReport_traffic repository result w1) as (new & Hnew & Hshape).
      destruct Hshape as [-> | ->].
      - exists [Sent (Integration.outgoing search w)].
        rewrite Hnew, app_nil_r. split; [exact Htrace|now left].
      - destruct Htoken as [Hsame|Hnone].
        + exists [Sent (Integration.outgoing search w);
                  Sent (Integration.outgoing (indexRequest repository) w)].
          rewrite Hnew, Htrace, <- app_assoc.
          unfold Integration.outgoing. rewrite Hsame. split; [reflexivity|now right].
        + (* the credential was cleared: the index call sends nothing *)
          exists [Sent (Integration.outgoing search w)].
          assert (Hno : hasToken w1 = false) by (unfold hasToken; now rewrite Hnone).
          split; [|now left].
          rewrite recoverOrReport_run.
          destruct (Integration.searchNeedsIndexing result) as [[|]|t]; try exact Htrace.
          rewrite protectedAxios_no_token by exact Hno.
          rewrite errorObject_indexFailed. exact Htrace. }
    destruct (Hafter result w1) as [-> | (wrap & ->)]; exact Hrec.
  - exists [Sent (Integration.outgoing search w)]. split; [exact Htrace|now left].
Qed.

(** X6: a run of vectorSearch or of the search path of chat sends nothing
    without a credential; with one it sends the search request and then at
    most one index request, nothing else, in that order. *)
Theorem single_shot_traffic (query repository : string) (limit : Z) (w : World) :
  (hasToken w = false ->
   trace (snd (vectorSearch query repository limit w)) = trace w
   /\ trace (snd (chatSearch query repository w)) = trace w)
  /\ (hasToken w = true ->
      (exists new,
          trace (snd (vectorSearch query repository limit w)) = (trace w ++ new)%list
          /\ (new = [Sent (Integration.outgoing (searchRequest query repository limit) w)]
              \/ new = [Sent (Integration.outgoing (searchRequest query repository limit) w);
                        Sent (Integration.outgoing (indexRequest repository) w)]))
      /\ (exists new,
             trace (snd (chatSearch query repository w)) = (trace w ++ new)%list
             /\ (new = [Sent (Integration.outgoing (searchRequest query repository 5) w)]
                 \/ new = [Sent (Integration.outgoing (searchRequest query repository 5) w);
                           Sent (Integration.outgoing (indexRequest repository) w)]))).
Proof.
  split.
  - intros Htok. rewrite vectorSearch_no_token, chatSearch_no_token by exact Htok.
    split; reflexivity.
  - intros Htok. split.
    + rewrite vectorSearch_run by exact Htok.
      destruct (protectedAxios (searchRequest query repository limit) w) as [outcome w1] eqn:E.
      apply (single_shot_shape repository _ w (recoverOrReport repository)
               (fun result w' => or_introl eq_refl) Htok outcome w1 E).
    + rewrite chatSearch_run by exact Htok.
      destruct (protectedAxios (searchRequest query repository 5) w) as [outcome w1] eqn:E.
      pose (after := fun result w' =>
              match recoverOrReport repository result w' with
              | (Fulfilled envelope, w2) => (Fulfilled envelope, w2)
              | (Rejected thrown, w2) => (Fulfilled (Integration.chatFailure thrown), w2)
              end).
      assert (Hafter : forall result w',
                 after result w' = recoverOrReport repository result w'
                 \/ exists wrap : Settled ToolResult -> Settled ToolResult,
                      after result w'
                      = (wrap (fst (recoverOrReport repository result w')),
                         snd (recoverOrReport repository result w'))).
      { intros result w'. right.
        exists (fun r => match r with
                         | Fulfilled envelope => Fulfilled envelope
                         | Rejected thrown => Fulfilled (Integration.chatFailure thrown)
                         end).
        unfold after. destruct (recoverOrReport repository result w') as [[e|t] w2];
          reflexivity. }
      destruct (single_shot_shape repository _ w after Hafter Htok outcome w1 E)
        as (new & Hnew & Hshape).
      exists new. split; [|exact Hshape].
      destruct outcome as [result|thrown]; exact Hnew.
Qed.

(** X7: in vectorSearch, a search payload that asks for indexing is
    followed by one index request at once, without waiting or searching
    again: an accepted index reply gives the "Indexing has been started
    automatically" message, a refused one the "Attempted to index but
    failed" message around the reply's own message. *)
Theorem single_shot_recovery
    (query repository : string) (limit : Z) (w : World)
    (code code' : Z) (payload reply : json) :
  hasToken w = true ->
  200 <= code < 300 ->
  200 <= code' < 300 ->
  serve backend (trace w) (Integration.outgoing (searchRequest query repository limit) w)
  = Replied code payload ->
  Integration.searchNeedsIndexing payload = Fulfilled true ->
  let s := Sent (Integration.outgoing (searchRequest query repository limit) w) in
  let i := Sent (Integration.outgoing (indexRequest repository) w) in
  serve backend (trace w ++ [s]) (Integration.outgoing (indexRequest repository) w)
  = Replied code' reply ->
  vectorSearch query repository limit w
  = (Fulfilled (textResult
       (if Integration.indexFailed reply
        then "Repository '" ++ repository
             ++ "' not found or not indexed. Attempted to index but failed: "
             ++ Js.toStringOpt (Js.get reply "message")
        else "Repository '" ++ repository
             ++ "' not found or not indexed. Indexing has been started automatically. Please try your request again after indexing is complete.")),
     {| OAUTH_TOKEN := OAUTH_TOKEN w; trace := trace w ++ [s; i] |}).
Proof.
  intros Htok Hcode Hcode' Hsearch Hneeds s i Hindex.
  rewrite vectorSearch_run by exact Htok.
  rewrite protectedAxios_run by exact Htok. cbv zeta.
  rewrite Hsearch, (settle_ok _ _ Hcode). cbn [response_data].
  rewrite recoverOrReport_run, Hneeds.
  rewrite protectedAxios_run by exact Htok. cbv zeta.
  change (trace (sentWorld w (Sent (Integration.outgoing (searchRequest query repository limit) w))))
    with (trace w ++ [s])%list.
  change (Integration.outgoing (indexRequest repository)
            (sentWorld w (Sent (Integration.outgoing (searchRequest query repository limit) w))))
    with (Integration.outgoing (indexRequest repository) w).
  rewrite Hindex, (settle_ok _ _ Hcode'). cbn [response_data].
  destruct (Integration.indexFailed reply);
    unfold sentWorld; cbn [OAUTH_TOKEN trace]; rewrite <- app_assoc; reflexivity.
Qed.

(** X8: the polling tool recovers on its second attempt: a first search
    reported NotIndexed, an accepted index request, one wait of 10 seconds
    and a second search that succeeds end the run with the second payload
    serialised, after exactly these four events. *)
Theorem polling_recovers_on_second_attempt
    (query repository : string) (limit : Z) (branch : string) (w : World)
    (error : JsError) (response : Response) (code : Z) (payload : json) :
  hasToken w = true ->
  let s := Sent (summaryRequest query repository limit branch w) in
  let i := Sent (Integration.outgoing (indexRequest repository) w) in
  settle (serve backend (trace w) (summaryRequest query repository limit branch w))
  = Rejected error ->
  Integration.summaryNotIndexed error = Fulfilled true ->
  settle (serve backend (trace w ++ [s]) (Integration.outgoing (indexRequest repository) w))
  = Fulfilled response ->
  Integration.indexFailed (response_data response) = false ->
  serve backend (trace w ++ [s; i; Slept 10000])
    (summaryRequest query repository limit branch w) = Replied code payload ->
  200 <= code < 300 ->
  vectorSearchWithSummary query repository limit branch w
  = (Fulfilled (textResult (Js.stringify payload)),
     {| OAUTH_TOKEN := OAUTH_TOKEN w; trace := trace w ++ [s; i; Slept 10000; s] |}).
Proof.
  intros Htok s i Hfirst Hclass Hindex Haccepted Hsecond Hcode.
  rewrite vectorSearchWithSummary_run by exact Htok.
  rewrite (first_round GO_SERVER_URL backend query repository limit branch 5 None w
             error response Htok Hfirst Hclass Hindex Haccepted).
  fold s i.
  set (w1 := sentWorld (sentWorld (sentWorld w s) i) (Slept 10000)).
  assert (Htrace : trace w1 = (trace w ++ [s; i; Slept 10000])%list).
  { subst w1. cbn [sentWorld trace]. rewrite <- !app_assoc. reflexivity. }
  rewrite (summaryAttempts_success GO_SERVER_URL backend query repository limit branch
             4 true (Some error) w1 code payload).
  - unfold sentWorld. cbn [OAUTH_TOKEN trace]. f_equal. f_equal.
    rewrite Htrace, <- app_assoc. reflexivity.
  - rewrite Htrace. exact Hsecond.
  - exact Hcode.
Qed.

(** X9: when the index request of the polling tool fails, the run ends
    there without waiting or searching again.  A 401 or 403 clears the
    credential and is answered "Attempted to index but failed: " followed by
    the token-expired prompt; any other failed index request leaves the
    tool as the thrown error, the catch block being unprotected. *)
Theorem polling_index_trigger_failures
    (query repository : string) (limit : Z) (branch : string) (w : World) (error : JsError) :
  hasToken w = true ->
  let s := Sent (summaryRequest query repository limit branch w) in
  let i := Sent (Integration.outgoing (indexRequest repository) w) in
  settle (serve backend (trace w) (summaryRequest query repository limit branch w))
  = Rejected error ->
  Integration.summaryNotIndexed error = Fulfilled true ->
  (isAuthReply (serve backend (trace w ++ [s])
                  (Integration.outgoing (indexRequest repository) w)) = true ->
   vectorSearchWithSummary query repository limit branch w
   = (Fulfilled (textResult
        ("Repository '" ++ repository
         ++ "' not found or not indexed. Attempted to index but failed: "
         ++ tokenExpiredMessage)),
      {| OAUTH_TOKEN := None; trace := trace w ++ [s; i] |}))
  /\ (forall thrown,
      settle (serve backend (trace w ++ [s])
                (Integration.outgoing (indexRequest repository) w)) = Rejected thrown ->
      Integration.isAuthStatus thrown = false ->
      vectorSearchWithSummary query repository limit branch w
      = (Rejected thrown, {| OAUTH_TOKEN := OAUTH_TOKEN w; trace := trace w ++ [s; i] |})).
Proof.
  intros Htok s i Hfirst Hclass.
  assert (Hstep : vectorSearchWithSummary query repository limit branch w
                  = match protectedAxios (indexRequest repository) (sentWorld w s) with
                    | (Fulfilled indexResult, w2) =>
                        if Integration.indexFailed indexResult
                        then (Fulfilled (textResult
                                (Integration.indexFailedText repository indexResult)), w2)
                        else summaryAttempts query repository limit branch 5 true (Some error)
                               (sentWorld w2 (Slept 10000))
                    | (Rejected thrown, w2) => (Rejected thrown, w2)
                    end).
  { rewrite vectorSearchWithSummary_run by exact Htok.
    rewrite summaryAttempts_step. cbv zeta. rewrite Hfirst, Hclass. reflexivity. }
  rewrite Hstep. rewrite protectedAxios_run by exact Htok. cbv zeta.
  change (trace (sentWorld w s)) with (trace w ++ [s])%list.
  change (Integration.outgoing (indexRequest repository) (sentWorld w s))
    with (Integration.outgoing (indexRequest repository) w).
  split.
  - intros Hreply. destruct (settle_auth _ Hreply) as (thrown & -> & ->).
    rewrite errorObject_indexFailed.
    unfold clearedWorld, sentWorld. cbn [OAUTH_TOKEN trace]. rewrite <- app_assoc.
    reflexivity.
  - intros thrown Hreply Hother. rewrite Hreply, Hother.
    unfold sentWorld. cbn [OAUTH_TOKEN trace]. rewrite <- app_assoc. reflexivity.
Qed.

End Recovery.

(** ** The unprotected tools and the HTTP bridge of src/integration.js *)

Section Unprotected.

Variable GO_SERVER_URL : string.
Variable MCP_SECRET_TOKEN : option string.
Variable backend : Backend.
Variable JSON_parse : string -> Settled json.

Local Abbreviation indexRepository :=
  (Tools.indexRepository GO_SERVER_URL MCP_SECRET_TOKEN backend).
Local Abbreviation indexRepositoryRequest :=
  (Tools.indexRepositoryRequest GO_SERVER_URL MCP_SECRET_TOKEN).
Local Abbreviation listingRequest := (Tools.listingRequest GO_SERVER_URL MCP_SECRET_TOKEN).
Local Abbreviation mcp := (Tools.mcp GO_SERVER_URL MCP_SECRET_TOKEN backend JSON_parse).

Lemma indexRepository_tool_run (repoUrl branch : string) (w : World) :
  indexRepository repoUrl branch w =
  (match settle (serve backend (trace w) (indexRepositoryRequest repoUrl branch)) with
   | Fulfilled response => Fulfilled (textResult (Js.stringify (response_data response)))
   | Rejected error =>
       Fulfilled
         match response error with
         | Some r =>
             if status r =? 401 then errorResult Tools.unauthorizedIndexingText
             else Tools.failed "Repository indexing failed: " error
         | None => Tools.failed "Repository indexing failed: " error
         end
   end,
   sentWorld w (Sent (indexRepositoryRequest repoUrl branch))).
Proof.
  unfold Tools.indexRepository, axios_post, axios. run. simpl.
  unfold Tools.indexRepositoryRequest.
  destruct (settle _) as [response|error]; [reflexivity|].
  destruct (response error) as [r|]; [|reflexivity].
  destruct (status r =? 401); reflexivity.
Qed.

Lemma listing_run (path label : string) (w : World) :
  tryCatch
    (response <- axios_get backend (GO_SERVER_URL ++ path)
                   (Integration.axiosConfig MCP_SECRET_TOKEN) ;;
     ret (textResult (Js.stringify (response_data response))))
    (fun error => ret (Tools.failed label error)) w =
  (match settle (serve backend (trace w) (listingRequest path)) with
   | Fulfilled response => Fulfilled (textResult (Js.stringify (response_data response)))
   | Rejected error => Fulfilled (Tools.failed label error)
   end,
   sentWorld w (Sent (listingRequest path))).
Proof.
  unfold axios_get, axios. run. simpl. unfold Tools.listingRequest.
  destruct (settle _); reflexivity.
Qed.

Lemma static_headers_carry_no_credential :
  JsText.header "Authorization" (config_headers (Integration.axiosConfig MCP_SECRET_TOKEN))
  = None.
Proof.
  unfold Integration.axiosConfig. cbn [config_headers].
  destruct MCP_SECRET_TOKEN as [secret|]; [|reflexivity].
  destruct (tokenTruthy (Some secret)); reflexivity.
Qed.

(** X10: the tools indexRepository, repositories and profile of
    src/integration.js never fail as tool calls: whatever the backend does
    they send exactly one request, without the session credential, and
    return an envelope, leaving the credential as it was.  A 401 on
    indexRepository is answered with the "/set-token" instruction and,
    unlike in the protected executor, does not clear the credential. *)
Theorem unprotected_tools (repoUrl branch : string) (w : World) :
  (exists envelope,
      indexRepository repoUrl branch w
      = (Fulfilled envelope, sentWorld w (Sent (indexRepositoryRequest repoUrl branch))))
  /\ (exists envelope,
        Tools.repositories GO_SERVER_URL MCP_SECRET_TOKEN backend w
        = (Fulfilled envelope, sentWorld w (Sent (listingRequest "/repositories"))))
  /\ (exists envelope,
        Tools.profile GO_SERVER_URL MCP_SECRET_TOKEN backend w
        = (Fulfilled envelope, sentWorld w (Sent (listingRequest "/profile"))))
  /\ JsText.header "Authorization" (headers (indexRepositoryRequest repoUrl branch)) = None
  /\ (forall path, JsText.header "Authorization" (headers (listingRequest path)) = None)
  /\ (forall body,
        serve backend (trace w) (indexRepositoryRequest repoUrl branch) = Replied 401 body ->
        indexRepository repoUrl branch w
        = (Fulfilled (errorResult Tools.unauthorizedIndexingText),
           sentWorld w (Sent (indexRepositoryRequest repoUrl branch)))
        /\ OAUTH_TOKEN (snd (indexRepository repoUrl branch w)) = OAUTH_TOKEN w).
Proof.
  split; [|split; [|split; [|split; [|split]]]].
  - rewrite indexRepository_tool_run. destruct (settle _); eexists; reflexivity.
  - unfold Tools.repositories. rewrite listing_run. destruct (settle _); eexists; reflexivity.
  - unfold Tools.profile. rewrite listing_run. destruct (settle _); eexists; reflexivity.
  - apply static_headers_carry_no_credential.
  - intros path. apply static_headers_carry_no_credential.
  - intros body Hreply. rewrite indexRepository_tool_run, Hreply. split; reflexivity.
Qed.

(** *** The bridge *)

Lemma unauthorized_iff (secret authHeader : option string) :
  unauthorized secret authHeader = false <-> authHeader = Some (bearerOf secret).
Proof.
  unfold unauthorized. split.
  - intros H. apply orb_false_iff in H. destruct H as (_ & H).
    destruct authHeader as [h|]; [|discriminate].
    apply negb_false_iff, String.eqb_eq in H. now rewrite H.
  - intros ->. apply orb_false_iff. split.
    + unfold bearerOf. reflexivity.
    + apply negb_false_iff, String.eqb_refl.
Qed.

Lemma mcp_unauthorized (authHeader : option string) (body : json) (w : World) :
  unauthorized MCP_SECRET_TOKEN authHeader = true ->
  mcp authHeader body w = (Fulfilled Tools.unauthorizedAnswer, w).
Proof. intros H. unfold Tools.mcp. run. rewrite H. reflexivity. Qed.

Lemma mcp_malformed (authHeader : option string) (body : json) (w : World) (error : JsError) :
  unauthorized MCP_SECRET_TOKEN authHeader = false ->
  Tools.dispatch body = Rejected error ->
  mcp authHeader body w = (Fulfilled (Tools.internalError error), w).
Proof. intros H Hd. unfold Tools.mcp. run. rewrite H, Hd. reflexivity. Qed.

Lemma mcp_forward (authHeader : option string) (body : json) (w : World)
    (fields : option (list (string * option json))) (endpoint : string) :
  unauthorized MCP_SECRET_TOKEN authHeader = false ->
  Tools.dispatch body = Fulfilled (fields, endpoint) ->
  mcp authHeader body w =
  (match serveFetch backend (trace w) (GO_SERVER_URL ++ endpoint)
           (Tools.bridgeInit fields endpoint) with
   | Replied code responseData =>
       if (200 <=? code) && (code <? 300) then
         match JSON_parse responseData with
         | Fulfilled parsed => Fulfilled {| answer_status := 200; answer_body := parsed |}
         | Rejected error => Fulfilled (Tools.internalError error)
         end
       else Fulfilled (Tools.requestFailed code responseData)
   | Unreachable reason =>
       Fulfilled (Tools.internalError {| message := reason; response := None |})
   end,
   sentWorld w (Fetched (GO_SERVER_URL ++ endpoint) (Tools.bridgeInit fields endpoint))).
Proof.
  intros H Hd. unfold Tools.mcp, fetch. run. rewrite H, Hd. simpl.
  destruct (serveFetch _ _ _ _) as [code responseData|reason]; simpl; [|reflexivity].
  destruct ((200 <=? code) && (code <? 300)); simpl; [|reflexivity].
  destruct (JSON_parse responseData); reflexivity.
Qed.

End Unprotected.

Section Bridges.

Variable GO_SERVER_URL : string.
Variable MCP_SECRET_TOKEN : option string.
Variable backend : Backend.
Variable JSON_parse : string -> Settled json.

Local Abbreviation mcp := (Tools.mcp GO_SERVER_URL MCP_SECRET_TOKEN backend JSON_parse).
Local Abbreviation legacyMcp :=
  (LegacyTools.mcp GO_SERVER_URL MCP_SECRET_TOKEN backend JSON_parse).

Lemma legacy_mcp_unauthorized (authHeader : option string) (body : json) (w : World) :
  unauthorized MCP_SECRET_TOKEN authHeader = true ->
  legacyMcp authHeader body w = (Fulfilled Tools.unauthorizedAnswer, w).
Proof. intros H. unfold LegacyTools.mcp. run. rewrite H. reflexivity. Qed.

Lemma legacy_mcp_malformed (authHeader : option string) (body : json) (w : World)
    (error : JsError) :
  unauthorized MCP_SECRET_TOKEN authHeader = false ->
  LegacyTools.legacyFields body = Rejected error ->
  legacyMcp authHeader body w = (Fulfilled (Tools.internalError error), w).
Proof. intros H Hd. unfold LegacyTools.mcp. run. rewrite H, Hd. reflexivity. Qed.

Lemma legacy_mcp_forward (authHeader : option string) (body : json) (w : World)
    (fields : list (string * option json)) :
  unauthorized MCP_SECRET_TOKEN authHeader = false ->
  LegacyTools.legacyFields body = Fulfilled fields ->
  legacyMcp authHeader body w =
  (match serveFetch backend (trace w) (GO_SERVER_URL ++ LegacyTools.legacyEndpoint body)
           (LegacyTools.legacyInit fields) with
   | Replied code responseData =>
       if (200 <=? code) && (code <? 300) then
         match JSON_parse responseData with
         | Fulfilled parsed => Fulfilled {| answer_status := 200; answer_body := parsed |}
         | Rejected error => Fulfilled (Tools.internalError error)
         end
       else Fulfilled (Tools.requestFailed code responseData)
   | Unreachable reason =>
       Fulfilled (Tools.internalError {| message := reason; response := None |})
   end,
   sentWorld w (Fetched (GO_SERVER_URL ++ LegacyTools.legacyEndpoint body) (LegacyTools.legacyInit fields))).
Proof.
  intros H Hd. unfold LegacyTools.mcp, fetch. run. rewrite H, Hd. simpl.
  destruct (serveFetch _ _ _ _) as [code responseData|reason]; simpl; [|reflexivity].
  destruct ((200 <=? code) && (code <? 300)); simpl; [|reflexivity].
  destruct (JSON_parse responseData); reflexivity.
Qed.

Lemma bridgeInit_headers (fields : option (list (string * option json))) (endpoint : string) :
  fetch_headers (Tools.bridgeInit fields endpoint) = Tools.jsonHeaders.
Proof.
  unfold Tools.bridgeInit.
  destruct (String.eqb endpoint "/repositories" || String.eqb endpoint "/profile"); reflexivity.
Qed.

Lemma forwarded_is_not_unauthorized (reply : HttpReply string) :
  match reply with
  | Replied code responseData =>
      if (200 <=? code) && (code <? 300) then
        match JSON_parse responseData with
        | Fulfilled parsed => Fulfilled {| answer_status := 200; answer_body := parsed |}
        | Rejected error => Fulfilled (Tools.internalError error)
        end
      else Fulfilled (Tools.requestFailed code responseData)
  | Unreachable reason =>
      Fulfilled (Tools.internalError {| message := reason; response := None |})
  end <> Fulfilled Tools.unauthorizedAnswer.
Proof.
  destruct reply as [code responseData|reason]; [|discriminate].
  destruct ((200 <=? code) && (code <? 300)); [|discriminate].
  destruct (JSON_parse responseData); discriminate.
Qed.

Lemma mcp_accepts (authHeader : option string) (body : json) (w : World) :
  unauthorized MCP_SECRET_TOKEN authHeader = false ->
  fst (mcp authHeader body w) <> Fulfilled Tools.unauthorizedAnswer.
Proof.
  intros Hauth.
  destruct (Tools.dispatch body) as [[fields endpoint]|error] eqn:Hd.
  - rewrite (mcp_forward GO_SERVER_URL MCP_SECRET_TOKEN backend JSON_parse
               authHeader body w fields endpoint Hauth Hd).
    apply forwarded_is_not_unauthorized.
  - rewrite (mcp_malformed GO_SERVER_URL MCP_SECRET_TOKEN backend JSON_parse
               authHeader body w error Hauth Hd).
    discriminate.
Qed.

Lemma legacy_mcp_accepts (authHeader : option string) (body : json) (w : World) :
  unauthorized MCP_SECRET_TOKEN authHeader = false ->
  fst (legacyMcp authHeader body w) <> Fulfilled Tools.unauthorizedAnswer.
Proof.
  intros Hauth.
  destruct (LegacyTools.legacyFields body) as [fields|error] eqn:Hd.
  - rewrite (legacy_mcp_forward authHeader body w fields Hauth Hd).
    apply forwarded_is_not_unauthorized.
  - rewrite (legacy_mcp_malformed authHeader body w error Hauth Hd).
    discriminate.
Qed.

(** X11: both HTTP bridges answer 401 { error: "Unauthorized" } and send
    nothing unless the Authorization header is exactly "Bearer " followed
    by the configured secret.  With that header neither bridge gives the
    401 answer of the gate, and a request with a well-formed body reaches
    the backend with exactly one fetch.  The text compared against is built
    even when no secret is configured, so that both bridges then accept the
    header "Bearer undefined". *)
Theorem bridge_requires_secret (authHeader : option string) (body : json) (w : World) :
  let turnedAway : Settled Answer * World :=
    (Fulfilled {| answer_status := 401; answer_body := JObj [("error", JStr "Unauthorized")] |},
     w) in
  (authHeader <> Some (bearerOf MCP_SECRET_TOKEN) ->
   mcp authHeader body w = turnedAway /\ legacyMcp authHeader body w = turnedAway)
  /\ (authHeader = Some (bearerOf MCP_SECRET_TOKEN) ->
      fst (mcp authHeader body w) <> fst turnedAway
      /\ fst (legacyMcp authHeader body w) <> fst turnedAway
      /\ (forall fields endpoint,
            Tools.dispatch body = Fulfilled (fields, endpoint) ->
            snd (mcp authHeader body w)
            = sentWorld w (Fetched (GO_SERVER_URL ++ endpoint)
                             (Tools.bridgeInit fields endpoint)))
      /\ (forall fields,
            LegacyTools.legacyFields body = Fulfilled fields ->
            snd (legacyMcp authHeader body w)
            = sentWorld w (Fetched (GO_SERVER_URL
                                    ++ (if Tools.toolIs (Js.get body "tool") "indexRepository"
                                        then "/index-repository" else "/vector-search"))
                             {| fetch_method := Some "POST";
                                fetch_headers := [("Content-Type", "application/json")];
                                fetch_body :=
                                  Some (JsText.stringifyCompact
                                          (JObj (JsText.defined fields))) |})))
  /\ (MCP_SECRET_TOKEN = None ->
      authHeader = Some "Bearer undefined" ->
      fst (mcp authHeader body w) <> fst turnedAway
      /\ fst (legacyMcp authHeader body w) <> fst turnedAway).
Proof.
  intros turnedAway. split; [|split].
  - intros Hdiff.
    assert (H : unauthorized MCP_SECRET_TOKEN authHeader = true).
    { destruct (unauthorized MCP_SECRET_TOKEN authHeader) eqn:E; [reflexivity|].
      apply unauthorized_iff in E. contradiction. }
    split; [apply mcp_unauthorized | apply legacy_mcp_unauthorized]; exact H.
  - intros Hsame. apply unauthorized_iff in Hsame.
    split; [apply mcp_accepts, Hsame|]. split; [apply legacy_mcp_accepts, Hsame|]. split.
    + intros fields endpoint Hd.
      rewrite (mcp_forward GO_SERVER_URL MCP_SECRET_TOKEN backend JSON_parse
                 authHeader body w fields endpoint Hsame Hd).
      reflexivity.
    + intros fields Hd.
      rewrite (legacy_mcp_forward authHeader body w fields Hsame Hd).
      reflexivity.
  - intros Hnone Hheader.
    assert (Hsame : unauthorized MCP_SECRET_TOKEN authHeader = false).
    { apply unauthorized_iff. rewrite Hnone, Hheader. reflexivity. }
    split; [apply mcp_accepts, Hsame|apply legacy_mcp_accepts, Hsame].
Qed.

(** X12: for an accepted request the bridge of src/integration.js
    forwards the backend's verdict: a reply outside 200..299 is answered
    with the same status, the reply text as message and success false; a
    2xx reply is answered 200 with the parsed body, or 500 with the parse
    error's message when the text is not JSON; no reply at all is answered
    500 with the transport error's message.  The request it sends carries
    the JSON content type and no credential of any kind. *)
Theorem bridge_forwarding
    (body : json) (w : World) (fields : option (list (string * option json)))
    (endpoint : string) :
  Tools.dispatch body = Fulfilled (fields, endpoint) ->
  let init := Tools.bridgeInit fields endpoint in
  let reply := serveFetch backend (trace w) (GO_SERVER_URL ++ endpoint) init in
  let answer := fst (mcp (Some (bearerOf MCP_SECRET_TOKEN)) body w) in
  fetch_headers init = [("Content-Type", "application/json")]
  /\ (forall code text,
        reply = Replied code text -> ~ 200 <= code < 300 ->
        answer = Fulfilled {| answer_status := code;
                              answer_body := JObj [("error", JStr "Request failed");
                                                   ("message", JStr text);
                                                   ("success", JBool false)] |})
  /\ (forall code text parsed,
        reply = Replied code text -> 200 <= code < 300 ->
        JSON_parse text = Fulfilled parsed ->
        answer = Fulfilled {| answer_status := 200; answer_body := parsed |})
  /\ (forall code text error,
        reply = Replied code text -> 200 <= code < 300 ->
        JSON_parse text = Rejected error ->
        answer = Fulfilled {| answer_status := 500;
                              answer_body := JObj [("error", JStr "Internal server error");
                                                   ("message", JStr (message error));
                                                   ("success", JBool false)] |})
  /\ (forall reason,
        reply = Unreachable reason ->
        answer = Fulfilled {| answer_status := 500;
                              answer_body := JObj [("error", JStr "Internal server error");
                                                   ("message", JStr reason);
                                                   ("success", JBool false)] |}).
Proof.
  intros Hd init reply answer.
  assert (Hauth : unauthorized MCP_SECRET_TOKEN (Some (bearerOf MCP_SECRET_TOKEN)) = false)
    by (apply unauthorized_iff; reflexivity).
  subst answer.
  rewrite (mcp_forward GO_SERVER_URL MCP_SECRET_TOKEN backend JSON_parse
             _ body w fields endpoint Hauth Hd).
  cbn [fst]. fold init. fold reply.
  split; [apply bridgeInit_headers|]. split; [|split; [|split]].
  - intros code text -> Hcode.
    assert (((200 <=? code) && (code <? 300)) = false) as ->.
    { apply andb_false_iff.
      destruct (Z.leb_spec 200 code); [|now left].
      destruct (Z.ltb_spec code 300); [|now right]. exfalso. apply Hcode. lia. }
    reflexivity.
  - intros code text parsed -> [lo hi] Hparse.
    apply Z.leb_le in lo. apply Z.ltb_lt in hi. rewrite lo, hi, Hparse. reflexivity.
  - intros code text error -> [lo hi] Hparse.
    apply Z.leb_le in lo. apply Z.ltb_lt in hi. rewrite lo, hi, Hparse. reflexivity.
  - intros reason ->. reflexivity.
Qed.


End Bridges.

(** *** What the bridge forwards *)

Lemma orElse_truthy (v : option json) (fallback : json) :
  Js.truthy fallback = true -> Js.truthy (JsText.orElse v fallback) = true.
Proof.
  intros H. unfold JsText.orElse. destruct v as [x|]; [|exact H].
  destruct (Js.truthy x) eqn:E; [exact E|exact H].
Qed.

Lemma orElse_default (v : option json) (fallback : json) :
  Js.truthyOpt v = false -> JsText.orElse v fallback = fallback.
Proof.
  unfold JsText.orElse. destruct v as [x|]; [|reflexivity].
  simpl. now intros ->.
Qed.

Lemma orElse_given (v : option json) (fallback given : json) :
  v = Some given -> Js.truthy given = true -> JsText.orElse v fallback = given.
Proof. intros -> H. unfold JsText.orElse. now rewrite H. Qed.

Lemma isString_iff (v : option json) (s : string) :
  Js.isString v s = true <-> v = Some (JStr s).
Proof.
  split.
  - destruct v as [[ | | |t| | ]|]; simpl; try discriminate.
    intros H. apply String.eqb_eq in H. now subst.
  - intros ->. simpl. apply String.eqb_refl.
Qed.

Lemma member_read (source : option json) (key : string) (value : option json) :
  JsText.member source key = Fulfilled value ->
  exists src, source = Some src /\ value = Js.get src key.
Proof.
  destruct source as [src|]; [|discriminate].
  destruct src; simpl; try discriminate; intros [= <-]; eexists; split; reflexivity.
Qed.

Lemma searchFields_exact (source : option json)
    (fields : option (list (string * option json))) :
  Tools.searchFields source = Fulfilled fields ->
  exists src,
    source = Some src
    /\ fields = Some [("query", Js.get src "query");
                      ("repository", Js.get src "repository");
                      ("branch", Some (JsText.orElse (Js.get src "branch") (JStr "main")))].
Proof.
  unfold Tools.searchFields.
  destruct (JsText.member source "query") as [query|e] eqn:Hq; [|discriminate].
  destruct (JsText.member source "repository") as [repository|e] eqn:Hr; [|discriminate].
  destruct (JsText.member source "branch") as [branch|e] eqn:Hb; [|discriminate].
  intros [= <-].
  destruct (member_read _ _ _ Hq) as (src & -> & ->).
  destruct (member_read _ _ _ Hr) as (src' & [= <-] & ->).
  destruct (member_read _ _ _ Hb) as (src' & [= <-] & ->).
  exists src. split; reflexivity.
Qed.

Lemma indexFields_exact (source : option json)
    (fields : option (list (string * option json))) :
  Tools.indexFields source = Fulfilled fields ->
  exists src,
    source = Some src
    /\ fields = Some [("repo_url", Js.get src "repoUrl");
                      ("branch", Some (JsText.orElse (Js.get src "branch") (JStr "main")))].
Proof.
  unfold Tools.indexFields.
  destruct (JsText.member source "repoUrl") as [repoUrl|e] eqn:Hu; [|discriminate].
  destruct (JsText.member source "branch") as [branch|e] eqn:Hb; [|discriminate].
  intros [= <-].
  destruct (member_read _ _ _ Hu) as (src & -> & ->).
  destruct (member_read _ _ _ Hb) as (src' & [= <-] & ->).
  exists src. split; reflexivity.
Qed.

(** The branch a forwarded object names: the caller's when it is truthy,
    "main" otherwise. *)
Lemma forwarded_branch (src : json) (first : list (string * option json)) :
  (forall k v, In (k, v) first -> String.eqb k "branch" = false) ->
  let branch := JsText.orElse (Js.get src "branch") (JStr "main") in
  (Js.truthyOpt (Js.get src "branch") = false -> branch = JStr "main")
  /\ (forall given, Js.get src "branch" = Some given -> Js.truthy given = true ->
                    branch = given)
  /\ Js.lookup "branch" (JsText.defined (first ++ [("branch", Some branch)])) = Some branch
  /\ Js.truthy branch = true.
Proof.
  intros Hfirst branch. split; [apply orElse_default|]. split.
  - intros given. apply orElse_given.
  - split; [|apply orElse_truthy; reflexivity].
    induction first as [|[k [v|]] rest IH]; [reflexivity| |].
    + cbn [app JsText.defined Js.lookup].
      rewrite (Hfirst k (Some v) (or_introl eq_refl)).
      apply IH. intros k' v' Hin. apply (Hfirst k' v'). now right.
    + cbn [app JsText.defined]. apply IH. intros k' v' Hin. apply (Hfirst k' v'). now right.
Qed.

(** X14: the bridge of src/integration.js forwards to one of five
    endpoints.  The tools "repositories" and "profile", and only they,
    become GET requests without a body to the endpoint of their name.
    Every other request is a POST: "indexRepository" to /index with the
    repository URL, "vectorSearchWithSummary" to /search/summary and
    everything else to /search with query and repository, read from
    [params] for the three named tools and from the top level of the body
    for an unknown tool.  The object sent always names a branch: the
    caller's when it is truthy, "main" when the caller gave none or a falsy
    one. *)
Theorem bridge_dispatch
    (body : json) (fields : option (list (string * option json))) (endpoint : string) :
  Tools.dispatch body = Fulfilled (fields, endpoint) ->
  let named (name : string) := Js.get body "tool" = Some (JStr name) in
  In endpoint ["/search"; "/search/summary"; "/index"; "/repositories"; "/profile"]
  /\ (named "repositories" -> fields = None /\ endpoint = "/repositories")
  /\ (named "profile" -> fields = None /\ endpoint = "/profile")
  /\ (fields = None ->
      (named "repositories" \/ named "profile")
      /\ (endpoint = "/repositories" \/ endpoint = "/profile")
      /\ Tools.bridgeInit fields endpoint
         = {| fetch_method := Some "GET";
              fetch_headers := [("Content-Type", "application/json")];
              fetch_body := None |})
  /\ (forall f, fields = Some f ->
        Tools.bridgeInit fields endpoint
        = {| fetch_method := Some "POST";
             fetch_headers := [("Content-Type", "application/json")];
             fetch_body := Some (JsText.stringifyCompact (JObj (JsText.defined f))) |}
        /\ exists source branch,
             (if Tools.toolIs (Js.get body "tool") "vectorSearch"
                 || Tools.toolIs (Js.get body "tool") "vectorSearchWithSummary"
                 || Tools.toolIs (Js.get body "tool") "indexRepository"
              then Js.get body "params" else Some body) = Some source
             /\ (Js.truthyOpt (Js.get source "branch") = false -> branch = JStr "main")
             /\ (forall given,
                   Js.get source "branch" = Some given -> Js.truthy given = true ->
                   branch = given)
             /\ Js.lookup "branch" (JsText.defined f) = Some branch
             /\ Js.truthy branch = true
             /\ ((named "indexRepository"
                  /\ endpoint = "/index"
                  /\ f = [("repo_url", Js.get source "repoUrl"); ("branch", Some branch)])
                 \/ (~ named "indexRepository"
                     /\ endpoint = (if Tools.toolIs (Js.get body "tool") "vectorSearchWithSummary"
                                    then "/search/summary" else "/search")
                     /\ f = [("query", Js.get source "query");
                             ("repository", Js.get source "repository");
                             ("branch", Some branch)])))
  /\ (Tools.toolIs (Js.get body "tool") "vectorSearch" = false ->
      Tools.toolIs (Js.get body "tool") "vectorSearchWithSummary" = false ->
      Tools.toolIs (Js.get body "tool") "indexRepository" = false ->
      Tools.toolIs (Js.get body "tool") "repositories" = false ->
      Tools.toolIs (Js.get body "tool") "profile" = false ->
      endpoint = "/search" /\ Tools.searchFields (Some body) = Fulfilled fields).
Proof.
  unfold Tools.dispatch.
  destruct (JsText.member (Some body) "tool") as [tool|e] eqn:Htool; [|discriminate].
  assert (Hget : Js.get body "tool" = tool).
  { destruct body; simpl in Htool; try (injection Htool as <-; reflexivity). discriminate. }
  cbv zeta. rewrite Hget. clear Htool Hget.
  assert (Hname : forall name other,
             Tools.toolIs tool name = true -> String.eqb name other = false ->
             tool <> Some (JStr other) /\ Tools.toolIs tool other = false).
  { intros name other Hn Hdiff. apply isString_iff in Hn. subst tool. split.
    - intros [= Heq]. rewrite Heq, String.eqb_refl in Hdiff. discriminate.
    - exact Hdiff. }
  assert (Hnot : forall name, Tools.toolIs tool name = false -> tool <> Some (JStr name)).
  { intros name Hn Heq. apply isString_iff in Heq. unfold Tools.toolIs in Hn. congruence. }
  assert (Hsearch : forall source f,
             Tools.searchFields source = Fulfilled f ->
             exists src branch,
               source = Some src
               /\ f = Some [("query", Js.get src "query");
                            ("repository", Js.get src "repository");
                            ("branch", Some branch)]
               /\ (Js.truthyOpt (Js.get src "branch") = false -> branch = JStr "main")
               /\ (forall given,
                     Js.get src "branch" = Some given -> Js.truthy given = true ->
                     branch = given)
               /\ Js.lookup "branch"
                    (JsText.defined [("query", Js.get src "query");
                                     ("repository", Js.get src "repository");
                                     ("branch", Some branch)]) = Some branch
               /\ Js.truthy branch = true).
  { intros source f Hf. destruct (searchFields_exact source f Hf) as (src & -> & ->).
    destruct (forwarded_branch src [("query", Js.get src "query");
                                    ("repository", Js.get src "repository")])
      as (A & B & C & D).
    - intros k v [[= <- <-]|[[= <- <-]|[]]]; reflexivity.
    - eexists _, _. split; [reflexivity|]. split; [reflexivity|].
      split; [exact A|]. split; [exact B|]. split; [exact C|exact D]. }
  destruct (Tools.toolIs tool "vectorSearch") eqn:E1.
  { destruct (Tools.searchFields (Js.get body "params")) as [f|e] eqn:E; [|discriminate].
    intros [= <- <-].
    destruct (Hsearch _ _ E) as (src & branch & Hsrc & -> & A & B & C & D).
    destruct (Hname _ "vectorSearchWithSummary" E1 eq_refl) as (_ & ->).
    split; [simpl; tauto|].
    split; [intros N; now apply (Hname _ "repositories" E1 eq_refl) in N|].
    split; [intros N; now apply (Hname _ "profile" E1 eq_refl) in N|].
    split; [discriminate|]. split; [|intros Hf; discriminate Hf].
    intros f' [= <-]. split; [reflexivity|].
    exists src, branch. cbn [orb]. split; [exact Hsrc|].
    split; [exact A|]. split; [exact B|]. split; [exact C|]. split; [exact D|].
    right. split; [apply (Hname _ "indexRepository" E1 eq_refl)|]. split; reflexivity. }
  destruct (Tools.toolIs tool "vectorSearchWithSummary") eqn:E2.
  { destruct (Tools.searchFields (Js.get body "params")) as [f|e] eqn:E; [|discriminate].
    intros [= <- <-].
    destruct (Hsearch _ _ E) as (src & branch & Hsrc & -> & A & B & C & D).
    split; [simpl; tauto|].
    split; [intros N; now apply (Hname _ "repositories" E2 eq_refl) in N|].
    split; [intros N; now apply (Hname _ "profile" E2 eq_refl) in N|].
    split; [discriminate|]. split; [|intros _ Hf; discriminate Hf].
    intros f' [= <-]. split; [reflexivity|].
    exists src, branch. cbn [orb]. split; [exact Hsrc|].
    split; [exact A|]. split; [exact B|]. split; [exact C|]. split; [exact D|].
    right. split; [apply (Hname _ "indexRepository" E2 eq_refl)|]. split; reflexivity. }
  destruct (Tools.toolIs tool "indexRepository") eqn:E3.
  { destruct (Tools.indexFields (Js.get body "params")) as [f|e] eqn:E; [|discriminate].
    intros [= <- <-].
    destruct (indexFields_exact _ _ E) as (src & Hsrc & ->).
    destruct (forwarded_branch src [("repo_url", Js.get src "repoUrl")]) as (A & B & C & D).
    { intros k v [[= <- <-]|[]]. reflexivity. }
    split; [simpl; tauto|].
    split; [intros N; now apply (Hname _ "repositories" E3 eq_refl) in N|].
    split; [intros N; now apply (Hname _ "profile" E3 eq_refl) in N|].
    split; [discriminate|]. split; [|intros _ _ Hf; discriminate Hf].
    intros f' [= <-]. split; [reflexivity|].
    eexists src, _. cbn [orb]. split; [exact Hsrc|].
    split; [exact A|]. split; [exact B|]. split; [exact C|]. split; [exact D|].
    left. split; [apply isString_iff, E3|]. split; reflexivity. }
  destruct (Tools.toolIs tool "repositories") eqn:E4.
  { intros [= <- <-]. split; [simpl; tauto|].
    split; [intros _; split; reflexivity|].
    split; [intros N; now apply (Hname _ "profile" E4 eq_refl) in N|].
    split; [|split; [discriminate|intros _ _ _ Hf; discriminate Hf]].
    intros _. split; [left; apply isString_iff, E4|]. split; [now left|reflexivity]. }
  destruct (Tools.toolIs tool "profile") eqn:E5.
  { intros [= <- <-]. split; [simpl; tauto|].
    split; [intros N; now apply (Hnot _ E4) in N|].
    split; [intros _; split; reflexivity|].
    split; [|split; [discriminate|intros _ _ _ _ Hf; discriminate Hf]].
    intros _. split; [right; apply isString_iff, E5|]. split; [now right|reflexivity]. }
  destruct (Tools.searchFields (Some body)) as [f|e] eqn:E; [|discriminate].
  intros [= <- <-].
  destruct (Hsearch _ _ E) as (src & branch & [= <-] & -> & A & B & C & D).
  split; [simpl; tauto|].
  split; [intros N; now apply (Hnot _ E4) in N|].
  split; [intros N; now apply (Hnot _ E5) in N|].
  split; [discriminate|]. split; [|intros _ _ _ _ _; split; reflexivity].
  intros f' [= <-]. split; [reflexivity|].
  exists body, branch. cbn [orb]. split; [reflexivity|].
  split; [exact A|]. split; [exact B|]. split; [exact C|]. split; [exact D|].
  right. split; [apply (Hnot _ E3)|]. split; reflexivity.
Qed.

(** ** The legacy chat, start-up probe and search tool *)

Section LegacyMore.

Variable GO_SERVER_URL : string.
Variable MCP_SECRET_TOKEN : option string.
Variable backend : Backend.
Variable clock : list Event -> string.

Local Abbreviation healthRequest := (LegacyTools.healthRequest GO_SERVER_URL MCP_SECRET_TOKEN).
Local Abbreviation searchRequest := (Legacy.searchRequest GO_SERVER_URL MCP_SECRET_TOKEN).
Local Abbreviation processChat :=
  (LegacyTools.processChat GO_SERVER_URL MCP_SECRET_TOKEN backend clock).
Local Abbreviation chat := (LegacyTools.chat GO_SERVER_URL MCP_SECRET_TOKEN backend clock).
Local Abbreviation connectRounds :=
  (LegacyTools.connectRounds GO_SERVER_URL MCP_SECRET_TOKEN backend).
Local Abbreviation healthUrl := (GO_SERVER_URL ++ "/health").

Lemma processChat_run (message repository : string) (w : World) :
  processChat message repository w =
  let w1 := sentWorld w (Sent healthRequest) in
  let w2 := sentWorld w1 (Sent (searchRequest message repository 5)) in
  match settle (serve backend (trace w) healthRequest) with
  | Rejected _ =>
      (Fulfilled (LegacyTools.chatReply LegacyTools.unavailableText repository (JArr [])
                    (clock (trace w1)) (Some "backend_unavailable")), w1)
  | Fulfilled _ =>
      (Fulfilled
         match settle (serve backend (trace w1) (searchRequest message repository 5)) with
         | Rejected e =>
             LegacyTools.chatReply LegacyTools.sorryText repository (JArr [])
               (clock (trace w2)) (Some (errorText e))
         | Fulfilled searchResponse =>
             match LegacyTools.searchResultsOf (response_data searchResponse) with
             | Rejected e =>
                 LegacyTools.chatReply LegacyTools.sorryText repository (JArr [])
                   (clock (trace w2)) (Some (errorText e))
             | Fulfilled searchResults =>
                 if LegacyTools.noUsefulResults searchResults
                 then LegacyTools.chatReply LegacyTools.sorryText repository (JArr [])
                        (clock (trace w2)) None
                 else LegacyTools.chatReply (LegacyTools.processedText message) repository
                        match searchResults with
                        | Some found => found
                        | None => JNull
                        end (clock (trace w2)) None
             end
         end, w2)
  end.
Proof.
  unfold LegacyTools.processChat, LegacyTools.healthGate, LegacyTools.now,
    axios_get, axios_post, axios.
  run. simpl. unfold LegacyTools.healthRequest.
  destruct (settle _) as [health|healthError]; [|reflexivity].
  simpl. unfold Legacy.searchRequest.
  destruct (settle _) as [searchResponse|error]; [|reflexivity].
  simpl.
  destruct (LegacyTools.searchResultsOf _) as [searchResults|error]; [|reflexivity].
  simpl. destruct (LegacyTools.noUsefulResults searchResults); reflexivity.
Qed.

Lemma legacy_chat_run (message repository : string) (w : World) :
  chat message repository w =
  match processChat message repository w with
  | (Fulfilled result, w') => (Fulfilled (textResult (Js.stringify result)), w')
  | (Rejected error, w') =>
      (Fulfilled (Legacy.failureEnvelope "Error processing chat: " error), w')
  end.
Proof.
  unfold LegacyTools.chat. run.
  destruct (processChat message repository w) as [[result|error] w']; reflexivity.
Qed.

(** X15: the legacy processChat probes /health first and, when the probe
    fails, returns the "backend unavailable" reply with the error code
    backend_unavailable and an empty code context without sending the
    search; the chat tool returns that reply serialised, not marked as an
    error. *)
Theorem legacy_health_gate (message repository : string) (w : World) (error : JsError) :
  settle (serve backend (trace w) healthRequest) = Rejected error ->
  let reply :=
    JObj [("message", JStr LegacyTools.unavailableText);
          ("repository", JStr repository);
          ("codeContext", JArr []);
          ("timestamp", JStr (clock (trace w ++ [Sent healthRequest])));
          ("error", JStr "backend_unavailable")] in
  processChat message repository w = (Fulfilled reply, sentWorld w (Sent healthRequest))
  /\ chat message repository w
     = (Fulfilled {| content := [ {| type := "text"; text := Js.stringify reply |} ];
                     isError := false |},
        sentWorld w (Sent healthRequest)).
Proof.
  intros Hhealth reply.
  assert (Hrun : processChat message repository w
                 = (Fulfilled reply, sentWorld w (Sent healthRequest))).
  { rewrite processChat_run. cbv zeta. rewrite Hhealth. reflexivity. }
  split; [exact Hrun|]. rewrite legacy_chat_run, Hrun. reflexivity.
Qed.

(** X16: the legacy chat tool never fails and never marks its answer as
    an error: whatever the backend does it returns the serialised reply
    object of processChat, which echoes the repository, after the health
    probe and at most one search, both sent with the 30000 ms timeout; its
    own catch block is unreachable. *)
Theorem legacy_chat_never_fails (message repository : string) (w : World) :
  exists reply new,
    processChat message repository w
    = (Fulfilled reply, {| OAUTH_TOKEN := OAUTH_TOKEN w; trace := trace w ++ new |})
    /\ chat message repository w
       = (Fulfilled (textResult (Js.stringify reply)),
          {| OAUTH_TOKEN := OAUTH_TOKEN w; trace := trace w ++ new |})
    /\ (new = [Sent healthRequest]
        \/ new = [Sent healthRequest; Sent (searchRequest message repository 5)])
    /\ Forall (carriesTimeout (Some 30000)) new
    /\ Js.get reply "repository" = Some (JStr repository).
Proof.
  assert (Hchat : forall reply w',
             processChat message repository w = (Fulfilled reply, w') ->
             chat message repository w = (Fulfilled (textResult (Js.stringify reply)), w')).
  { intros reply w' H. rewrite legacy_chat_run, H. reflexivity. }
  pose proof (processChat_run message repository w) as Hrun. cbv zeta in Hrun.
  destruct (settle (serve backend (trace w) healthRequest)) as [health|healthError].
  - eexists _, [Sent healthRequest; Sent (searchRequest message repository 5)].
    assert (Hw : sentWorld (sentWorld w (Sent healthRequest))
                   (Sent (searchRequest message repository 5))
                 = {| OAUTH_TOKEN := OAUTH_TOKEN w;
                      trace := trace w ++ [Sent healthRequest;
                                           Sent (searchRequest message repository 5)] |}).
    { unfold sentWorld. cbn [OAUTH_TOKEN trace]. rewrite <- app_assoc. reflexivity. }
    rewrite Hw in Hrun.
    split; [exact Hrun|]. split; [apply Hchat, Hrun|]. split; [now right|].
    split; [events_ok|].
    destruct (settle _) as [searchResponse|error]; [|reflexivity].
    destruct (LegacyTools.searchResultsOf _) as [searchResults|error]; [|reflexivity].
    destruct (LegacyTools.noUsefulResults searchResults); reflexivity.
  - eexists _, [Sent healthRequest].
    split; [exact Hrun|]. split; [apply Hchat, Hrun|]. split; [now left|].
    split; [events_ok|reflexivity].
Qed.

(** X17: once the health probe has passed, the reply of the legacy
    processChat is decided by the search payload: a payload whose success
    is truthy and whose data is a non-empty array gives the "I processed
    your message" reply with that array as code context; a payload without
    a truthy success, or with an empty data array, gives the apology with
    an empty context and no error field; a null payload gives the apology
    with the TypeError's message as error. *)
Theorem legacy_chat_results
    (message repository : string) (w : World) (health : Response) (code : Z) (payload : json) :
  settle (serve backend (trace w) healthRequest) = Fulfilled health ->
  let w1 := sentWorld w (Sent healthRequest) in
  let w2 := sentWorld w1 (Sent (searchRequest message repository 5)) in
  serve backend (trace w1) (searchRequest message repository 5) = Replied code payload ->
  200 <= code < 300 ->
  (forall success first others,
      Js.get payload "success" = Some success -> Js.truthy success = true ->
      Js.get payload "data" = Some (JArr (first :: others)) ->
      processChat message repository w
      = (Fulfilled (LegacyTools.chatReply (LegacyTools.processedText message) repository
                      (JArr (first :: others)) (clock (trace w2)) None), w2))
  /\ (payload <> JNull ->
      Js.truthyOpt (Js.get payload "success") = false
      \/ Js.get payload "data" = Some (JArr []) ->
      processChat message repository w
      = (Fulfilled (LegacyTools.chatReply LegacyTools.sorryText repository (JArr [])
                      (clock (trace w2)) None), w2))
  /\ (payload = JNull ->
      processChat message repository w
      = (Fulfilled (LegacyTools.chatReply LegacyTools.sorryText repository (JArr [])
                      (clock (trace w2))
                      (Some "Cannot read properties of null (reading 'success')")), w2)).
Proof.
  intros Hhealth w1 w2 Hsearch Hcode.
  pose proof (processChat_run message repository w) as Hrun. cbv zeta in Hrun.
  rewrite Hhealth in Hrun. fold w1 in Hrun. fold w2 in Hrun.
  rewrite Hsearch, (settle_ok _ _ Hcode) in Hrun. cbn [response_data] in Hrun.
  split; [|split].
  - intros success first others Hs Ht Hd. rewrite Hrun.
    unfold LegacyTools.searchResultsOf.
    destruct payload; try discriminate Hs.
    cbn [JsText.member]. rewrite Hs. cbn [Js.truthyOpt]. rewrite Ht, Hd. reflexivity.
  - intros Hnull Hcase. rewrite Hrun.
    unfold LegacyTools.searchResultsOf.
    assert (Hmember : forall key, JsText.member (Some payload) key
                                  = Fulfilled (Js.get payload key)).
    { intros key. destruct payload; try reflexivity. now elim Hnull. }
    rewrite !Hmember.
    destruct (Js.truthyOpt (Js.get payload "success")) eqn:Hs; [|reflexivity].
    destruct Hcase as [Hf | Hd]; [discriminate Hf|].
    rewrite Hd. reflexivity.
  - intros ->. rewrite Hrun. reflexivity.
Qed.

(** *** The start-up probe *)

Lemma connectRounds_step (retries : Z) (left : nat) (w : World) :
  connectRounds retries (S left) w =
  let w1 := sentWorld w (Sent healthRequest) in
  let caught :=
    if retries - Z.of_nat (S left) <? retries - 1
    then connectRounds retries left (sentWorld w1 (Slept 5000))
    else connectRounds retries left w1 in
  match settle (serve backend (trace w) healthRequest) with
  | Fulfilled response =>
      match JsText.member (Some (response_data response)) "success" with
      | Fulfilled success =>
          if Js.truthyOpt success then (Fulfilled true, w1)
          else connectRounds retries left w1
      | Rejected _ => caught
      end
  | Rejected _ => caught
  end.
Proof.
  cbv zeta.
  change (connectRounds retries (S left) w)
    with (bind
            (tryCatch
               (bind (axios_get backend (GO_SERVER_URL ++ "/health")
                        (Legacy.axiosConfig MCP_SECRET_TOKEN))
                  (fun response =>
                     bind (settled (JsText.member (Some (response_data response)) "success"))
                       (fun success => ret (Js.truthyOpt success))))
               (fun error =>
                  bind (if retries - Z.of_nat (S left) <? retries - 1
                        then delay 5000 else ret tt)
                    (fun _ => ret false)))
            (fun connected : bool =>
               if connected then ret true else connectRounds retries left) w).
  unfold axios_get, axios. run. cbn -[JsText.member Z.sub Z.ltb Z.of_nat].
  unfold LegacyTools.healthRequest.
  destruct (settle _) as [response|error]; cbn -[JsText.member Z.sub Z.ltb Z.of_nat].
  - destruct (JsText.member _ _) as [success|error];
      cbn -[JsText.member Z.sub Z.ltb Z.of_nat].
    + destruct (Js.truthyOpt success); reflexivity.
    + destruct (retries - Z.of_nat (S left) <? retries - 1); reflexivity.
  - destruct (retries - Z.of_nat (S left) <? retries - 1); reflexivity.
Qed.

Lemma connectRounds_bounds (retries : Z) (left : nat) :
  forall w, exists connected new,
    connectRounds retries left w
    = (Fulfilled connected, {| OAUTH_TOKEN := OAUTH_TOKEN w; trace := trace w ++ new |})
    /\ (sentTo healthUrl new <= left)%nat
    /\ (waits new <= left - 1)%nat
    /\ Forall (carriesTimeout (Some 30000)) new
    /\ Forall (waitsFor 5000) new
    /\ (connected = true -> (1 <= sentTo healthUrl new)%nat).
Proof.
  induction left as [|left IH]; intros w.
  - exists false, []. simpl. rewrite app_nil_r. destruct w.
    split; [reflexivity|]. split; [lia|]. split; [lia|].
    split; [constructor|]. split; [constructor|discriminate].
  - rewrite connectRounds_step. cbv zeta.
    set (h := Sent healthRequest).
    assert (Hurl : String.eqb (url healthRequest) healthUrl = true) by apply String.eqb_refl.
    assert (Hnext : exists connected new,
               connectRounds retries left (sentWorld w h)
               = (Fulfilled connected,
                  {| OAUTH_TOKEN := OAUTH_TOKEN w; trace := trace w ++ new |})
               /\ (sentTo healthUrl new <= S left)%nat
               /\ (waits new <= S left - 1)%nat
               /\ Forall (carriesTimeout (Some 30000)) new
               /\ Forall (waitsFor 5000) new
               /\ (connected = true -> (1 <= sentTo healthUrl new)%nat)).
    { destruct (IH (sentWorld w h)) as (c & new & Hrun & Hs & Hw & Ht & Hd & Hc).
      exists c, ([h] ++ new)%list. rewrite Hrun. cbn [sentWorld OAUTH_TOKEN trace].
      rewrite <- app_assoc. split; [reflexivity|].
      rewrite sentTo_app. cbn [sentTo waits app]. subst h. cbn [sentTo waits]. rewrite Hurl.
      split; [lia|]. split; [lia|]. split; [events_ok|]. split; [events_ok|].
      intros _. lia. }
    assert (Hcaught : exists connected new,
               (if retries - Z.of_nat (S left) <? retries - 1
                then connectRounds retries left (sentWorld (sentWorld w h) (Slept 5000))
                else connectRounds retries left (sentWorld w h))
               = (Fulfilled connected,
                  {| OAUTH_TOKEN := OAUTH_TOKEN w; trace := trace w ++ new |})
               /\ (sentTo healthUrl new <= S left)%nat
               /\ (waits new <= S left - 1)%nat
               /\ Forall (carriesTimeout (Some 30000)) new
               /\ Forall (waitsFor 5000) new
               /\ (connected = true -> (1 <= sentTo healthUrl new)%nat)).
    { destruct (retries - Z.of_nat (S left) <? retries - 1) eqn:Hi; [|exact Hnext].
      apply Z.ltb_lt in Hi.
      destruct (IH (sentWorld (sentWorld w h) (Slept 5000)))
        as (c & new & Hrun & Hs & Hw & Ht & Hd & Hc).
      exists c, ([h; Slept 5000] ++ new)%list. rewrite Hrun.
      cbn [sentWorld OAUTH_TOKEN trace]. rewrite <- !app_assoc. split; [reflexivity|].
      rewrite sentTo_app. subst h. cbn [sentTo waits app]. rewrite Hurl.
      split; [lia|]. split; [lia|]. split; [events_ok|]. split; [events_ok|].
      intros _. lia. }
    destruct (settle _) as [response|error]; [|exact Hcaught].
    destruct (JsText.member _ _) as [success|error]; [|exact Hcaught].
    destruct (Js.truthyOpt success); [|exact Hnext].
    exists true, [h]. split; [reflexivity|]. subst h. cbn [sentTo waits]. rewrite Hurl.
    split; [lia|]. split; [lia|]. split; [events_ok|]. split; [events_ok|].
    intros _. lia.
Qed.

Lemma connectRounds_all_fail (retries : Z) (left : nat) :
  (forall seen, exists error,
      settle (serve backend seen healthRequest) = Rejected error) ->
  forall w, exists new,
    connectRounds retries left w
    = (Fulfilled false, {| OAUTH_TOKEN := OAUTH_TOKEN w; trace := trace w ++ new |})
    /\ sentTo healthUrl new = left
    /\ waits new = (left - 1)%nat.
Proof.
  intros Hfail. induction left as [|left IH]; intros w.
  - exists []. simpl. rewrite app_nil_r. destruct w. repeat split.
  - rewrite connectRounds_step. cbv zeta.
    destruct (Hfail (trace w)) as (error & ->).
    assert (Hurl : String.eqb (url healthRequest) healthUrl = true) by apply String.eqb_refl.
    destruct (retries - Z.of_nat (S left) <? retries - 1) eqn:Hi.
    + apply Z.ltb_lt in Hi.
      destruct (IH (sentWorld (sentWorld w (Sent healthRequest)) (Slept 5000)))
        as (new & Hrun & Hs & Hw).
      exists ([Sent healthRequest; Slept 5000] ++ new)%list. rewrite Hrun.
      cbn [sentWorld OAUTH_TOKEN trace]. rewrite <- !app_assoc. split; [reflexivity|].
      cbn [sentTo waits app]. rewrite Hurl. split; lia.
    + apply Z.ltb_ge in Hi.
      destruct (IH (sentWorld w (Sent healthRequest))) as (new & Hrun & Hs & Hw).
      exists ([Sent healthRequest] ++ new)%list. rewrite Hrun.
      cbn [sentWorld OAUTH_TOKEN trace]. rewrite <- !app_assoc. split; [reflexivity|].
      cbn [sentTo waits app]. rewrite Hurl. split; lia.
Qed.

Lemma connectRounds_all_unhealthy (retries : Z) (left : nat) :
  (forall seen, exists response success,
      settle (serve backend seen healthRequest) = Fulfilled response
      /\ JsText.member (Some (response_data response)) "success" = Fulfilled success
      /\ Js.truthyOpt success = false) ->
  forall w, exists new,
    connectRounds retries left w
    = (Fulfilled false, {| OAUTH_TOKEN := OAUTH_TOKEN w; trace := trace w ++ new |})
    /\ sentTo healthUrl new = left
    /\ waits new = 0%nat.
Proof.
  intros Hsick. induction left as [|left IH]; intros w.
  - exists []. simpl. rewrite app_nil_r. destruct w. repeat split.
  - rewrite connectRounds_step. cbv zeta.
    destruct (Hsick (trace w)) as (response & success & -> & -> & ->).
    assert (Hurl : String.eqb (url healthRequest) healthUrl = true) by apply String.eqb_refl.
    destruct (IH (sentWorld w (Sent healthRequest))) as (new & Hrun & Hs & Hw).
    exists ([Sent healthRequest] ++ new)%list. rewrite Hrun.
    cbn [sentWorld OAUTH_TOKEN trace]. rewrite <- !app_assoc. split; [reflexivity|].
    cbn [sentTo waits app]. rewrite Hurl. split; lia.
Qed.

(** X18: connectToGoServer(retries) never fails; it sends at most
    [retries] health probes, each with the 30000 ms timeout, waits at most
    [retries - 1] times, 5000 ms each, and reports true only after a probe.
    When every probe fails it sends exactly [retries] probes with a wait
    between consecutive ones and reports false; when every probe is
    answered without a truthy success it sends the [retries] probes back to
    back, without any wait, and reports false. *)
Theorem connect_probe_budget (retries : nat) (w : World) :
  (exists connected new,
      LegacyTools.connectToGoServer GO_SERVER_URL MCP_SECRET_TOKEN backend retries w
      = (Fulfilled connected, {| OAUTH_TOKEN := OAUTH_TOKEN w; trace := trace w ++ new |})
      /\ (sentTo healthUrl new <= retries)%nat
      /\ (waits new <= retries - 1)%nat
      /\ Forall (carriesTimeout (Some 30000)) new
      /\ Forall (waitsFor 5000) new
      /\ (connected = true -> (1 <= sentTo healthUrl new)%nat))
  /\ ((forall seen, exists error,
          settle (serve backend seen healthRequest) = Rejected error) ->
      exists new,
        LegacyTools.connectToGoServer GO_SERVER_URL MCP_SECRET_TOKEN backend retries w
        = (Fulfilled false, {| OAUTH_TOKEN := OAUTH_TOKEN w; trace := trace w ++ new |})
        /\ sentTo healthUrl new = retries
        /\ waits new = (retries - 1)%nat)
  /\ ((forall seen, exists response success,
          settle (serve backend seen healthRequest) = Fulfilled response
          /\ JsText.member (Some (response_data response)) "success" = Fulfilled success
          /\ Js.truthyOpt success = false) ->
      exists new,
        LegacyTools.connectToGoServer GO_SERVER_URL MCP_SECRET_TOKEN backend retries w
        = (Fulfilled false, {| OAUTH_TOKEN := OAUTH_TOKEN w; trace := trace w ++ new |})
        /\ sentTo healthUrl new = retries
        /\ waits new = 0%nat).
Proof.
  unfold LegacyTools.connectToGoServer. split; [|split].
  - apply connectRounds_bounds.
  - intros H. apply connectRounds_all_fail, H.
  - intros H. apply connectRounds_all_unhealthy, H.
Qed.

End LegacyMore.

Section LegacySearch.

Variable GO_SERVER_URL : string.
Variable MCP_SECRET_TOKEN : option string.
Variable backend : Backend.

Local Abbreviation searchRequest := (Legacy.searchRequest GO_SERVER_URL MCP_SECRET_TOKEN).
Local Abbreviation indexRepositoryRequest :=
  (Legacy.indexRepositoryRequest GO_SERVER_URL MCP_SECRET_TOKEN).
Local Abbreviation searchAttempt := (Legacy.searchAttempt GO_SERVER_URL MCP_SECRET_TOKEN backend).
Local Abbreviation indexRepository :=
  (Legacy.indexRepository GO_SERVER_URL MCP_SECRET_TOKEN backend).
Local Abbreviation vectorSearch := (Legacy.vectorSearch GO_SERVER_URL MCP_SECRET_TOKEN backend).

(** X19: the legacy vectorSearch returns the envelope of its first search
    when [hasResults] accepts it and sends the search a second time
    otherwise, always so after a search that failed.  It returns the second
    envelope when [hasResults] accepts that one or when no [repoUrl] was
    given (absent or empty).  When both envelopes are turned down and a
    [repoUrl] was given, the tool fails with the [TypeError] of reading
    [indexRepository] from the undefined [server.tools], after exactly the
    two searches: in no run does it send an index request. *)
Theorem legacy_search_outcomes
    (query repository : string) (limit : Z) (repoUrl : option string) (branch : string)
    (w : World) :
  let s := Sent (searchRequest query repository limit) in
  let w1 := sentWorld w s in
  let w2 := sentWorld w1 s in
  exists first second,
    searchAttempt query repository limit w = (Fulfilled first, w1)
    /\ searchAttempt query repository limit w1 = (Fulfilled second, w2)
    /\ vectorSearch query repository limit repoUrl branch w
       = (if Legacy.hasResults first then (Fulfilled first, w1)
          else if Legacy.hasResults second then (Fulfilled second, w2)
          else if tokenTruthy repoUrl
               then (Rejected {| message :=
                                   "Cannot read properties of undefined (reading 'indexRepository')";
                                 response := None |}, w2)
               else (Fulfilled second, w2))
    /\ (forall error,
          settle (serve backend (trace w) (searchRequest query repository limit))
          = Rejected error ->
          Legacy.hasResults first = false)
    /\ sentTo (GO_SERVER_URL ++ "/index-repository")
         (trace (snd (vectorSearch query repository limit repoUrl branch w)))
       = sentTo (GO_SERVER_URL ++ "/index-repository") (trace w).
Proof.
  intros s w1 w2.
  destruct (legacy_vectorSearch_run GO_SERVER_URL MCP_SECRET_TOKEN backend
              query repository limit repoUrl branch w)
    as (first & second & E1 & E2 & Hrun).
  fold s in E1, E2, Hrun. fold w1 in E1, E2, Hrun. fold w2 in E2, Hrun.
  exists first, second. split; [exact E1|]. split; [exact E2|]. split; [exact Hrun|]. split.
  - intros error Hreply.
    rewrite (searchAttempt_run GO_SERVER_URL MCP_SECRET_TOKEN backend) in E1.
    rewrite Hreply in E1. injection E1 as <-. reflexivity.
  - assert (Hs : forall seen, sentTo (GO_SERVER_URL ++ "/index-repository") (seen ++ [s])
                              = sentTo (GO_SERVER_URL ++ "/index-repository") seen).
    { intros seen. rewrite sentTo_app. subst s. cbn [sentTo Legacy.searchRequest url].
      rewrite eqb_append_l. cbn. apply Nat.add_0_r. }
    rewrite Hrun.
    destruct (Legacy.hasResults first); [apply Hs|].
    assert (H2 : sentTo (GO_SERVER_URL ++ "/index-repository") (trace w2)
                 = sentTo (GO_SERVER_URL ++ "/index-repository") (trace w)).
    { subst w2 w1. cbn [sentWorld trace]. now rewrite !Hs. }
    destruct (Legacy.hasResults second); [exact H2|].
    destruct (tokenTruthy repoUrl); exact H2.
Qed.

End LegacySearch.

(** ** The further properties at concrete inputs *)

Lemma set_token_command_witness :
  Tools.chat Scenario.base Scenario.finding Cases.setToken Run.repository Scenario.signedOut
  = (Fulfilled (textResult "Token set! You can now use the chat."),
     {| OAUTH_TOKEN := Some "s3cr3t"; trace := [] |}).
Proof.
  exact (proj1 (set_token_command Scenario.base Scenario.finding Cases.setToken
                  Run.repository Scenario.signedOut eq_refl)).
Defined.

Lemma index_repo_command_witness :
  Tools.chat Scenario.base Scenario.neverIndexed Cases.indexRepo Run.repository
    Scenario.signedOut
  = (Fulfilled (textResult ("Indexing failed: " ++ Integration.noTokenMessage Scenario.base)),
     Scenario.signedOut)
  /\ fst (Tools.chat Scenario.base Scenario.neverIndexed Cases.indexRepo Run.repository
            Scenario.signedIn)
     = Fulfilled (textResult
         "Indexing started for https://github.com/octo/widgets. I will notify you when it's ready.").
Proof.
  split.
  - exact (proj1 (proj2 (index_repo_command Scenario.base Scenario.neverIndexed
                           Cases.indexRepo Run.repository Scenario.signedOut eq_refl))
             eq_refl).
  - rewrite (proj2 (proj2 (index_repo_command Scenario.base Scenario.neverIndexed
                             Cases.indexRepo Run.repository Scenario.signedIn eq_refl))
               200 (JObj [("status", JStr "started")]) eq_refl eq_refl ltac:(lia)).
    reflexivity.
Defined.


Lemma executor_headers_witness :
  JsText.header "Authorization"
    (headers (Integration.outgoing
                {| method := "POST"; url := "http://localhost:8081/search"; data := None;
                   headers := [("Authorization", "Bearer forged"); ("X-Trace", "1")];
                   timeout := None |}
                Scenario.signedIn))
  = Some "Bearer tok".
Proof.
  exact (proj1 (proj2 (executor_headers Scenario.base Scenario.finding Scenario.noParse
                         {| method := "POST"; url := "http://localhost:8081/search";
                            data := None;
                            headers := [("Authorization", "Bearer forged"); ("X-Trace", "1")];
                            timeout := None |}
                         "http://localhost:8081/search" Cases.emptyInit
                         Scenario.signedIn "tok" eq_refl ltac:(discriminate)))).
Defined.

Lemma set_token_then_protected_call_witness :
  JsText.header "Authorization"
    (headers (Integration.outgoing Run.search
                (snd (Tools.chat Scenario.base Scenario.finding Cases.setToken Run.repository
                        Scenario.signedOut))))
  = Some "Bearer s3cr3t".
Proof.
  exact (proj2 (set_token_then_protected_call Scenario.base Scenario.finding
                  Cases.setToken Run.repository Run.search Scenario.signedOut eq_refl)).
Defined.

Lemma single_shot_traffic_witness :
  trace (snd (Integration.vectorSearch Scenario.base Scenario.finding Run.query Run.repository 5
                Scenario.signedOut)) = []
  /\ exists new,
       trace (snd (Run.vectorSearch Cases.reportsNotFound)) = new
       /\ (new = [Sent (Integration.outgoing Run.search Scenario.signedIn)]
           \/ new = [Sent (Integration.outgoing Run.search Scenario.signedIn); Sent Run.index]).
Proof.
  split.
  - exact (proj1 (proj1 (single_shot_traffic Scenario.base Scenario.finding
                           Run.query Run.repository 5 Scenario.signedOut) eq_refl)).
  - exact (proj1 (proj2 (single_shot_traffic Scenario.base Cases.reportsNotFound
                           Run.query Run.repository 5 Scenario.signedIn) eq_refl)).
Defined.

Lemma single_shot_recovery_witness :
  Run.vectorSearch Cases.reportsNotFound
  = (Fulfilled (textResult
       "Repository 'octo/widgets' not found or not indexed. Indexing has been started automatically. Please try your request again after indexing is complete."),
     {| OAUTH_TOKEN := Some "tok";
        trace := [Sent (Integration.outgoing Run.search Scenario.signedIn); Sent Run.index] |}).
Proof.
  exact (single_shot_recovery Scenario.base Cases.reportsNotFound
           Run.query Run.repository 5 Scenario.signedIn 200 200
           (JObj [("message", JStr "Repository not found")])
           (JObj [("status", JStr "started")])
           eq_refl ltac:(lia) ltac:(lia) eq_refl eq_refl eq_refl).
Defined.

Lemma polling_recovers_on_second_attempt_witness :
  Run.vectorSearchWithSummary Cases.indexedOnDemand
  = (Fulfilled (textResult (Js.stringify Scenario.hit)),
     {| OAUTH_TOKEN := Some "tok";
        trace := [Sent Run.summary; Sent Run.index; Slept 10000; Sent Run.summary] |}).
Proof.
  exact (polling_recovers_on_second_attempt Scenario.base Cases.indexedOnDemand
           Run.query Run.repository 5 "main" Scenario.signedIn
           {| message := "Request failed with status code 404";
              response := Some {| status := 404;
                                  response_data :=
                                    JObj [("message", JStr "Repository not found")] |} |}
           {| status := 200; response_data := JObj [("status", JStr "started")] |}
           200 Scenario.hit
           eq_refl eq_refl eq_refl eq_refl eq_refl eq_refl ltac:(lia)).
Defined.

Lemma polling_index_trigger_failures_witness :
  Run.vectorSearchWithSummary Cases.indexForbidden
  = (Fulfilled (textResult
       ("Repository 'octo/widgets' not found or not indexed. Attempted to index but failed: "
        ++ Integration.tokenExpiredMessage Scenario.base)),
     {| OAUTH_TOKEN := None; trace := [Sent Run.summary; Sent Run.index] |})
  /\ Run.vectorSearchWithSummary Cases.indexBroken
     = (Rejected {| message := "Request failed with status code 500";
                    response := Some {| status := 500; response_data := JNull |} |},
        {| OAUTH_TOKEN := Some "tok"; trace := [Sent Run.summary; Sent Run.index] |}).
Proof.
  pose (notFound := {| message := "Request failed with status code 404";
                       response := Some {| status := 404;
                                           response_data :=
                                             JObj [("message", JStr "Repository not found")] |} |}).
  split.
  - exact (proj1 (polling_index_trigger_failures Scenario.base Cases.indexForbidden
                    Run.query Run.repository 5 "main" Scenario.signedIn notFound
                    eq_refl eq_refl eq_refl) eq_refl).
  - exact (proj2 (polling_index_trigger_failures Scenario.base Cases.indexBroken
                    Run.query Run.repository 5 "main" Scenario.signedIn notFound
                    eq_refl eq_refl eq_refl)
             {| message := "Request failed with status code 500";
                response := Some {| status := 500; response_data := JNull |} |}
             eq_refl eq_refl).
Defined.

Lemma unprotected_tools_witness :
  Tools.indexRepository Scenario.base (Some "s3") Cases.unauthorizedBackend
    "https://github.com/octo/widgets" "main" Scenario.signedIn
  = (Fulfilled (errorResult Tools.unauthorizedIndexingText),
     sentWorld Scenario.signedIn
       (Sent (Tools.indexRepositoryRequest Scenario.base (Some "s3")
                "https://github.com/octo/widgets" "main")))
  /\ OAUTH_TOKEN (snd (Tools.indexRepository Scenario.base (Some "s3") Cases.unauthorizedBackend
                         "https://github.com/octo/widgets" "main" Scenario.signedIn))
     = Some "tok".
Proof.
  exact (proj2 (proj2 (proj2 (proj2 (proj2
           (unprotected_tools Scenario.base (Some "s3") Cases.unauthorizedBackend
              "https://github.com/octo/widgets" "main" Scenario.signedIn)))))
           JNull eq_refl).
Defined.

Lemma bridge_requires_secret_witness :
  Tools.mcp Scenario.base None Cases.fetchOk Cases.parseEmptyObject None Cases.searchBody
    Scenario.signedOut
  = (Fulfilled {| answer_status := 401; answer_body := JObj [("error", JStr "Unauthorized")] |},
     Scenario.signedOut)
  /\ trace (snd (Tools.mcp Scenario.base None Cases.fetchOk Cases.parseEmptyObject
                   (Some "Bearer undefined") Cases.searchBody Scenario.signedOut))
     = [Fetched "http://localhost:8081/search"
          {| fetch_method := Some "POST";
             fetch_headers := [("Content-Type", "application/json")];
             fetch_body := Some (JsText.stringifyCompact
                                   (JObj [("query", JStr "auth flow");
                                          ("repository", JStr "octo/widgets");
                                          ("branch", JStr "main")])) |}]
  /\ trace (snd (LegacyTools.mcp Scenario.base (Some "s3") Cases.fetchOk Cases.parseEmptyObject
                   (Some "Bearer s3") Cases.searchBody Scenario.signedOut))
     = [Fetched "http://localhost:8081/vector-search"
          {| fetch_method := Some "POST";
             fetch_headers := [("Content-Type", "application/json")];
             fetch_body := Some (JsText.stringifyCompact
                                   (JObj [("query", JStr "auth flow");
                                          ("repository", JStr "octo/widgets");
                                          ("branch", JStr "main")])) |}].
Proof.
  pose proof (bridge_requires_secret Scenario.base None Cases.fetchOk
                Cases.parseEmptyObject None Cases.searchBody Scenario.signedOut) as Hnone.
  pose proof (bridge_requires_secret Scenario.base None Cases.fetchOk
                Cases.parseEmptyObject (Some "Bearer undefined")
                Cases.searchBody Scenario.signedOut) as Hundefined.
  pose proof (bridge_requires_secret Scenario.base (Some "s3") Cases.fetchOk
                Cases.parseEmptyObject (Some "Bearer s3")
                Cases.searchBody Scenario.signedOut) as Hsecret.
  cbv zeta in Hnone, Hundefined, Hsecret.
  split; [|split].
  - exact (proj1 (proj1 Hnone ltac:(discriminate))).
  - destruct (proj1 (proj2 Hundefined) eq_refl) as (_ & _ & Hsent & _).
    rewrite (Hsent _ _ eq_refl). reflexivity.
  - destruct (proj1 (proj2 Hsecret) eq_refl) as (_ & _ & _ & Hsent).
    rewrite (Hsent _ eq_refl). reflexivity.
Defined.

Lemma bridge_forwarding_witness :
  fst (Tools.mcp Scenario.base (Some "s3") Cases.fetchDown Cases.parseEmptyObject
         (Some "Bearer s3") Cases.searchBody Scenario.signedOut)
  = Fulfilled {| answer_status := 503;
                 answer_body := JObj [("error", JStr "Request failed");
                                      ("message", JStr "upstream unavailable");
                                      ("success", JBool false)] |}.
Proof.
  refine (proj1 (proj2 (bridge_forwarding Scenario.base (Some "s3") Cases.fetchDown
                          Cases.parseEmptyObject Cases.searchBody Scenario.signedOut
                          _ _ eq_refl))
            503 "upstream unavailable" eq_refl _).
  lia.
Defined.


Lemma bridge_dispatch_witness :
  Tools.bridgeInit None "/repositories"
  = {| fetch_method := Some "GET";
       fetch_headers := [("Content-Type", "application/json")];
       fetch_body := None |}
  /\ exists source branch,
       Js.get Cases.indexBody "params" = Some source
       /\ branch = JStr "main"
       /\ Js.lookup "branch"
            (JsText.defined [("repo_url", Some (JStr "https://github.com/octo/widgets"));
                             ("branch", Some (JStr "main"))]) = Some branch.
Proof.
  pose proof (bridge_dispatch Cases.listBody None "/repositories" eq_refl) as Hlist.
  pose proof (bridge_dispatch Cases.indexBody
                (Some [("repo_url", Some (JStr "https://github.com/octo/widgets"));
                       ("branch", Some (JStr "main"))])
                "/index" eq_refl) as Hindex.
  cbv zeta in Hlist, Hindex.
  destruct Hlist as (_ & _ & _ & Hget & _).
  destruct Hindex as (_ & _ & _ & _ & Hpost & _).
  split.
  - exact (proj2 (proj2 (Hget eq_refl))).
  - destruct (Hpost _ eq_refl) as (_ & source & branch & Hsource & Hdefault & _ & Hsent & _).
    exists source, branch. split; [exact Hsource|]. split; [|exact Hsent].
    apply Hdefault. simpl in Hsource. injection Hsource as <-. reflexivity.
Defined.

Lemma legacy_health_gate_witness :
  exists reply,
    LegacyTools.processChat Scenario.base None Scenario.timingOut Cases.clock
      Run.query Run.repository Scenario.signedOut
    = (Fulfilled reply,
       sentWorld Scenario.signedOut (Sent (LegacyTools.healthRequest Scenario.base None)))
    /\ Js.get reply "error" = Some (JStr "backend_unavailable").
Proof.
  eexists. split.
  - exact (proj1 (legacy_health_gate Scenario.base None Scenario.timingOut Cases.clock
                    Run.query Run.repository Scenario.signedOut
                    {| message := "timeout of 30000ms exceeded"; response := None |}
                    eq_refl)).
  - reflexivity.
Defined.

Lemma legacy_chat_results_witness :
  fst (LegacyTools.processChat Scenario.base None Scenario.finding Cases.clock
         Run.query Run.repository Scenario.signedOut)
  = Fulfilled (LegacyTools.chatReply (LegacyTools.processedText Run.query) Run.repository
                 (JArr [JObj [("file", JStr "auth/flow.go"); ("score", JNum 1)]])
                 "2025-01-01T00:00:00.000Z" None).
Proof.
  rewrite (proj1 (legacy_chat_results Scenario.base None Scenario.finding Cases.clock
                    Run.query Run.repository Scenario.signedOut
                    {| status := 200; response_data := Scenario.hit |} 200 Scenario.hit
                    eq_refl eq_refl ltac:(lia))
             (JBool true) (JObj [("file", JStr "auth/flow.go"); ("score", JNum 1)]) []
             eq_refl eq_refl eq_refl).
  reflexivity.
Defined.

Lemma connect_probe_budget_witness :
  (exists new,
      LegacyTools.connectToGoServer Scenario.base None Scenario.failing 3 Scenario.signedOut
      = (Fulfilled false, {| OAUTH_TOKEN := None; trace := [] ++ new |})
      /\ sentTo "http://localhost:8081/health" new = 3%nat
      /\ waits new = 2%nat)
  /\ (exists new,
        LegacyTools.connectToGoServer Scenario.base None Cases.unhealthy 3 Scenario.signedOut
        = (Fulfilled false, {| OAUTH_TOKEN := None; trace := [] ++ new |})
        /\ sentTo "http://localhost:8081/health" new = 3%nat
        /\ waits new = 0%nat).
Proof.
  split.
  - refine (proj1 (proj2 (connect_probe_budget Scenario.base None Scenario.failing 3
                            Scenario.signedOut)) _).
    intros seen. eexists. reflexivity.
  - refine (proj2 (proj2 (connect_probe_budget Scenario.base None Cases.unhealthy 3
                            Scenario.signedOut)) _).
    intros seen. eexists _, _. split; [reflexivity|]. split; reflexivity.
Defined.

Lemma legacy_search_outcomes_witness :
  Run.legacyVectorSearchFor Scenario.emptyHanded "https://github.com/octo/widgets"
  = (Rejected {| message := "Cannot read properties of undefined (reading 'indexRepository')";
                 response := None |},
     {| OAUTH_TOKEN := None; trace := [Sent Run.legacySearch; Sent Run.legacySearch] |})
  /\ exists first,
       fst (Legacy.searchAttempt Scenario.base None Scenario.failing Run.query Run.repository 5
              Scenario.signedOut) = Fulfilled first
       /\ Legacy.hasResults first = false.
Proof.
  split.
  - destruct (legacy_search_outcomes Scenario.base None Scenario.emptyHanded
                Run.query Run.repository 5 (Some "https://github.com/octo/widgets") "main"
                Scenario.signedOut)
      as (first & second & Hfirst & Hsecond & Hrun & _).
    unfold Run.legacyVectorSearchFor. rewrite Hrun.
    vm_compute in Hfirst. injection Hfirst as <-.
    vm_compute in Hsecond. injection Hsecond as <-.
    reflexivity.
  - destruct (legacy_search_outcomes Scenario.base None Scenario.failing
                Run.query Run.repository 5 None "main" Scenario.signedOut)
      as (first & second & Hfirst & _ & _ & Hretry & _).
    exists first. split.
    + rewrite Hfirst. reflexivity.
    + apply (Hretry {| message := "Request failed with status code 500";
                       response := Some {| status := 500; response_data := JNull |} |}).
      reflexivity.
Defined.

(** ** The credential across a whole tool run *)

Section Keeps.

Context {A B : Type}.

Lemma keeps_ret (a : A) : keepsOrClears (ret a).
Proof. intros w. now left. Qed.

Lemma keeps_throw (e : JsError) : keepsOrClears (@throw A e).
Proof. intros w. now left. Qed.

Lemma keeps_settled (r : Settled A) : keepsOrClears (settled r).
Proof. intros w. now left. Qed.

Lemma keeps_bind (m : Async A) (k : A -> Async B) :
  keepsOrClears m -> (forall a, keepsOrClears (k a)) -> keepsOrClears (bind m k).
Proof.
  intros Hm Hk w. unfold bind. specialize (Hm w).
  destruct (m w) as [[a|e] w']; simpl in Hm; [|exact Hm].
  destruct (Hk a w') as [H|H]; [|now right].
  rewrite H. exact Hm.
Qed.

Lemma keeps_tryCatch (m : Async A) (handler : JsError -> Async A) :
  keepsOrClears m -> (forall e, keepsOrClears (handler e)) -> keepsOrClears (tryCatch m handler).
Proof.
  intros Hm Hh w. unfold tryCatch. specialize (Hm w).
  destruct (m w) as [[a|e] w']; simpl in Hm; [exact Hm|].
  destruct (Hh e w') as [H|H]; [|now right].
  rewrite H. exact Hm.
Qed.

End Keeps.

Lemma keeps_record (e : Event) : keepsOrClears (record e).
Proof. intros w. now left. Qed.

Lemma keeps_readToken : keepsOrClears readToken.
Proof. intros w. now left. Qed.

Lemma keeps_readTrace : keepsOrClears readTrace.
Proof. intros w. now left. Qed.

Lemma keeps_axios (backend : Backend) (options : Request) : keepsOrClears (axios backend options).
Proof.
  unfold axios.
  apply keeps_bind; [apply keeps_readTrace|]. intros seen.
  apply keeps_bind; [apply keeps_record|]. intros _. apply keeps_settled.
Qed.

Lemma keeps_clearToken : keepsOrClears Integration.clearToken.
Proof. intros w. now right. Qed.

Section KeepsTools.

Variable GO_SERVER_URL : string.
Variable backend : Backend.

Lemma keeps_getAuthHeader : keepsOrClears Integration.getAuthHeader.
Proof.
  unfold Integration.getAuthHeader.
  apply keeps_bind; [apply keeps_readToken|]. intros token. apply keeps_ret.
Qed.

Lemma keeps_protectedAxios (options : Request) :
  keepsOrClears (Integration.protectedAxios GO_SERVER_URL backend options).
Proof.
  unfold Integration.protectedAxios.
  apply keeps_bind; [apply keeps_readToken|]. intros token.
  destruct (negb (tokenTruthy token)); [apply keeps_ret|].
  apply keeps_tryCatch.
  - apply keeps_bind; [apply keeps_getAuthHeader|]. intros auth.
    apply keeps_bind; [apply keeps_axios|]. intros response. apply keeps_ret.
  - intros error. destruct (Integration.isAuthStatus error); [|apply keeps_throw].
    apply keeps_bind; [apply keeps_clearToken|]. intros _. apply keeps_ret.
Qed.

Lemma keeps_recoverOrReport (repository : string) (result : json) :
  keepsOrClears (Integration.recoverOrReport GO_SERVER_URL backend repository result).
Proof.
  unfold Integration.recoverOrReport.
  apply keeps_bind; [apply keeps_settled|]. intros needed.
  destruct needed; [|apply keeps_ret].
  apply keeps_bind; [apply keeps_protectedAxios|]. intros indexResult.
  destruct (Integration.indexFailed indexResult); apply keeps_ret.
Qed.

Lemma keeps_searchSummary (query repository : string) (limit : Z) (branch : string) :
  keepsOrClears (Integration.searchSummary GO_SERVER_URL backend query repository limit branch).
Proof.
  unfold Integration.searchSummary, axios_post.
  apply keeps_tryCatch; [|intros error; apply keeps_ret].
  apply keeps_bind; [apply keeps_getAuthHeader|]. intros auth.
  apply keeps_bind; [apply keeps_axios|]. intros response. apply keeps_ret.
Qed.

Lemma keeps_summaryAttempts (query repository : string) (limit : Z) (branch : string)
    (left : nat) :
  forall indexed lastError,
    keepsOrClears (Integration.summaryAttempts GO_SERVER_URL backend query repository limit
                     branch left indexed lastError).
Proof.
  induction left as [|left IH]; intros indexed lastError; [apply keeps_ret|].
  cbn [Integration.summaryAttempts].
  apply keeps_bind; [apply keeps_searchSummary|]. intros [result|error]; [apply keeps_ret|].
  apply keeps_bind; [apply keeps_settled|]. intros retryable.
  destruct retryable; [|apply keeps_ret].
  destruct (negb indexed).
  - apply keeps_bind; [apply keeps_protectedAxios|]. intros indexResult.
    destruct (Integration.indexFailed indexResult); [apply keeps_ret|].
    apply keeps_bind; [apply keeps_record|]. intros _. apply IH.
  - destruct (6 - Z.of_nat (S left) <? 5); [|apply keeps_ret].
    apply keeps_bind; [apply keeps_record|]. intros _. apply IH.
Qed.

(** X20: no search tool of src/integration.js ever stores a credential:
    after a run of vectorSearch, of the search path of chat or of
    vectorSearchWithSummary the credential is the one found at entry or has
    been cleared, whatever the backend answered; the same holds for every
    protected call. *)
Theorem search_tools_never_set_credential
    (query repository : string) (limit : Z) (branch : string) (options : Request) :
  keepsOrClears (Integration.vectorSearch GO_SERVER_URL backend query repository limit)
  /\ keepsOrClears (Integration.chatSearch GO_SERVER_URL backend query repository)
  /\ keepsOrClears (Integration.vectorSearchWithSummary GO_SERVER_URL backend
                      query repository limit branch)
  /\ keepsOrClears (Integration.protectedAxios GO_SERVER_URL backend options).
Proof.
  split; [|split; [|split]].
  - unfold Integration.vectorSearch.
    apply keeps_bind; [apply keeps_readToken|]. intros token.
    destruct (negb (tokenTruthy token)); [apply keeps_ret|].
    apply keeps_bind; [apply keeps_protectedAxios|]. intros result.
    apply keeps_recoverOrReport.
  - unfold Integration.chatSearch, Integration.processChatWithToken.
    apply keeps_bind; [apply keeps_readToken|]. intros token.
    destruct (negb (tokenTruthy token)); [apply keeps_ret|].
    apply keeps_tryCatch; [|intros error; apply keeps_ret].
    apply keeps_bind; [apply keeps_protectedAxios|]. intros result.
    apply keeps_recoverOrReport.
  - unfold Integration.vectorSearchWithSummary.
    apply keeps_bind; [apply keeps_readToken|]. intros token.
    destruct (negb (tokenTruthy token)); [apply keeps_ret|].
    apply keeps_summaryAttempts.
  - apply keeps_protectedAxios.
Qed.

End KeepsTools.
